(** * ClaudeHopper: metadata extraction, catalog gate, chunk enrichment
      and retrieval tools

    A shallow embedding of the indexing and retrieval logic of the
    ClaudeHopper MCP server:

    - [MetadataExtractor]: [src/utils/metadata_extractor.ts]
      (path-derived metadata, CSI division table, metadata merge);
    - [Seed]: [src/seed.ts] (content-addressed catalog gate, chunk
      enrichment, the seeding pipeline);
    - [Tools]: [src/tools/operations/chunks_search.ts],
      [broad_chunks_search.ts] and [image_search.ts];
    - [Client]: [src/lancedb/client.ts] (connection set-up);
    - [Models] and [Config]: [src/config/models.ts],
      [src/config/user_config.ts] and [src/config.ts];
    - [PdfProcessor]: [src/utils/pdf_processor.ts] (splitting, key
      sections, AI-assisted metadata);
    - [EnhancedPDFLoader]: the PDF loader of [src/seed.ts];
    - [CatalogSearchTool]: [src/tools/operations/catalog_search.ts];
    - [ImageProcessor]: [src/utils/images/processor.ts];
    - [RegExp] and [ContentExtractor]: the content patterns of
      [src/utils/metadata_extractor.ts] and the matcher that runs them.

    JavaScript objects used as records are finite maps from the names
    of their own properties to values; a property holding [undefined]
    reads the same as a missing property and is represented by the
    absence of the key.  An object that [JSON.parse] made can have an
    own property called [__proto__]; an assignment [obj[key] = value]
    with that key stores no own property (see [setProperty]).  The
    prototype of an object is not represented: the code reads merged
    metadata only through [Object.entries] and object spread, which
    see own properties only.  Strings are sequences of 8-bit
    code units, which covers the Latin-1 range of JavaScript's UTF-16
    strings.  External collaborators (file system, models, vector
    store, loaders) are parameters; a call that can fail returns [Exc]. *)

From Stdlib Require Import ZArith Ascii String List Bool Lia.
From stdpp Require Import gmap strings list fin_maps pretty.

Local Open Scope string_scope.

(** ** JavaScript and Node.js primitives used by the sources *)

Module Js.

(** A failing computation carries the message of the thrown error. *)
Inductive Exc (A : Type) : Type :=
| Ok (a : A)
| Throw (e : string).
Arguments Ok {A} a.
Arguments Throw {A} e.

Definition bind {A B} (m : Exc A) (k : A -> Exc B) : Exc B :=
  match m with
  | Ok a => k a
  | Throw e => Throw e
  end.

(** Values stored in metadata objects: strings, numbers, booleans,
    [null] and the location object [loc] attached by the loaders
    (page number and line range). *)
Inductive Value : Type :=
| VStr (s : string)
| VNum (n : Z)
| VBool (b : bool)
| VNull
| VLoc (page from to : Z).

#[global] Instance Value_eq_dec : EqDecision Value.
Proof. solve_decision. Defined.

Definition Value_to_sum (v : Value) : string + Z + bool + unit + Z * Z * Z :=
  match v with
  | VStr s => inl (inl (inl (inl s)))
  | VNum n => inl (inl (inl (inr n)))
  | VBool b => inl (inl (inr b))
  | VNull => inl (inr tt)
  | VLoc p f t => inr (p, f, t)
  end.

Definition Value_of_sum (x : string + Z + bool + unit + Z * Z * Z) : Value :=
  match x with
  | inl (inl (inl (inl s))) => VStr s
  | inl (inl (inl (inr n))) => VNum n
  | inl (inl (inr b)) => VBool b
  | inl (inr _) => VNull
  | inr (p, f, t) => VLoc p f t
  end.

#[global] Instance Value_countable : Countable Value.
Proof.
  apply (inj_countable' Value_to_sum Value_of_sum).
  intros []; reflexivity.
Defined.

(** [if (value)]: the empty string, zero, [false] and [null] are
    falsy, every object is truthy. *)
Definition truthy (v : Value) : bool :=
  match v with
  | VStr s => negb (String.eqb s "")
  | VNum n => negb (n =? 0)%Z
  | VBool b => b
  | VNull => false
  | VLoc _ _ _ => true
  end.

(** [obj.key = value] where [value] may be [undefined]. *)
Definition assign (key : string) (value : option Value)
    (obj : gmap string Value) : gmap string Value :=
  match value with
  | Some v => <[key := v]> obj
  | None => delete key obj
  end.

(** [obj[key] = value] for a computed [key] on an object made by an
    object literal.  The name [__proto__] is an accessor that the
    object inherits from [Object.prototype]: the assignment runs its
    setter, which makes [value] the prototype of [obj] when [value] is
    an object and does nothing otherwise, and no own property is
    stored in either case. *)
Definition setProperty (key : string) (value : Value)
    (obj : gmap string Value) : gmap string Value :=
  if String.eqb key "__proto__" then obj else <[key := value]> obj.

(** *** Characters *)

Definition isWhiteSpace (c : ascii) : bool :=
  let n := nat_of_ascii c in
  (((9 <=? n) && (n <=? 13)) || (n =? 32) || (n =? 160))%nat.

Definition isDigit (c : ascii) : bool :=
  let n := nat_of_ascii c in ((48 <=? n) && (n <=? 57))%nat.

(** [toLowerCase] on one code unit: A-Z and the Latin-1 capitals. *)
Definition lowerChar (c : ascii) : ascii :=
  let n := nat_of_ascii c in
  if (((65 <=? n) && (n <=? 90)) || ((192 <=? n) && (n <=? 214))
      || ((216 <=? n) && (n <=? 222)))%nat
  then ascii_of_nat (n + 32) else c.

(** [toUpperCase] on one code unit.  The capitals of U+00B5, U+00DF
    and U+00FF lie outside Latin-1 (or are two letters); they are
    left unchanged, which the only caller, a lookup in a table keyed
    by ASCII capitals, cannot tell apart. *)
Definition upperChar (c : ascii) : ascii :=
  let n := nat_of_ascii c in
  if (((97 <=? n) && (n <=? 122)) || ((224 <=? n) && (n <=? 246))
      || ((248 <=? n) && (n <=? 254)))%nat
  then ascii_of_nat (n - 32) else c.

(** *** Strings *)

Fixpoint mapString (f : ascii -> ascii) (s : string) : string :=
  match s with
  | EmptyString => EmptyString
  | String c s' => String (f c) (mapString f s')
  end.

Definition toLowerCase : string -> string := mapString lowerChar.
Definition toUpperCase : string -> string := mapString upperChar.

(** [s.replace(/\\/g, '/')] and friends: replace every [a] by [b]. *)
Definition replaceAll (a b : ascii) : string -> string :=
  mapString (fun c => if Ascii.eqb c a then b else c).

(** [s.split(sep)] for a one-character separator; never empty. *)
Fixpoint split (sep : ascii) (s : string) : list string :=
  match s with
  | EmptyString => [EmptyString]
  | String c s' =>
      if Ascii.eqb c sep then EmptyString :: split sep s'
      else match split sep s' with
           | [] => [String c EmptyString]
           | p :: ps => String c p :: ps
           end
  end.

Definition startsWith (pre s : string) : bool := String.prefix pre s.

Fixpoint includes (sub s : string) : bool :=
  String.prefix sub s ||
  match s with
  | EmptyString => false
  | String _ s' => includes sub s'
  end.

Fixpoint endsWith (suf s : string) : bool :=
  String.eqb suf s ||
  match s with
  | EmptyString => false
  | String _ s' => endsWith suf s'
  end.

Definition charAt0 (s : string) : string :=
  match s with
  | EmptyString => EmptyString
  | String c _ => String c EmptyString
  end.

Fixpoint takeWhile (f : ascii -> bool) (s : string) : string :=
  match s with
  | EmptyString => EmptyString
  | String c s' => if f c then String c (takeWhile f s') else EmptyString
  end.

Fixpoint dropWhile (f : ascii -> bool) (s : string) : string :=
  match s with
  | EmptyString => EmptyString
  | String c s' => if f c then dropWhile f s' else s
  end.

(** [arr.join(sep)]. *)
Fixpoint join (sep : string) (l : list string) : string :=
  match l with
  | [] => EmptyString
  | [x] => x
  | x :: rest => x +:+ sep +:+ join sep rest
  end.

(** *** [parseInt(s)] without a radix

    Leading white space and a sign are skipped, a [0x] prefix selects
    radix 16, and the longest prefix of digits is read; [None] stands
    for [NaN].  [parseInt] returns the Number nearest to the integer
    that the digits spell; the model keeps that integer itself, which
    is the same Number whenever it lies below 2^53.  The metadata
    extractor only compares the result with constants below 700, where
    the order of the integers and the order of their Numbers agree;
    where a result is stored, what is proved of it is confined to
    integers below 2^53. *)

Definition digitVal (radix : Z) (c : ascii) : option Z :=
  let n := Z.of_nat (nat_of_ascii c) in
  let d := (if (48 <=? n) && (n <=? 57) then n - 48
            else if (97 <=? n) && (n <=? 122) then n - 87
            else if (65 <=? n) && (n <=? 90) then n - 55
            else 99)%Z in
  if (d <? radix)%Z then Some d else None.

Fixpoint readDigits (radix : Z) (acc : option Z) (s : string) : option Z :=
  match s with
  | EmptyString => acc
  | String c s' =>
      match digitVal radix c with
      | Some d => readDigits radix (Some (radix * default 0 acc + d)%Z) s'
      | None => acc
      end
  end.

Definition parseInt (s : string) : option Z :=
  let s1 := dropWhile isWhiteSpace s in
  let '(sign, s2) :=
    match s1 with
    | String "-" r => ((-1)%Z, r)
    | String "+" r => (1%Z, r)
    | _ => (1%Z, s1)
    end in
  let '(radix, s3) :=
    match s2 with
    | String "0" (String x r) =>
        if Ascii.eqb x "x" || Ascii.eqb x "X" then (16%Z, r) else (10%Z, s2)
    | _ => (10%Z, s2)
    end in
  Z.mul sign <$> readDigits radix None s3.

(** Comparisons of a possibly-[NaN] number with a constant. *)
Definition numGe (x : option Z) (k : Z) : bool :=
  match x with Some n => (k <=? n)%Z | None => false end.
Definition numLe (x : option Z) (k : Z) : bool :=
  match x with Some n => (n <=? k)%Z | None => false end.
Definition numEq (x : option Z) (k : Z) : bool :=
  match x with Some n => (n =? k)%Z | None => false end.

(** *** [arr.findIndex(pred)]; [None] stands for -1. *)
Fixpoint findIndex {A} (pred : A -> bool) (l : list A) : option nat :=
  match l with
  | [] => None
  | x :: rest => if pred x then Some 0%nat else S <$> findIndex pred rest
  end.

(** *** Node's [path] module (POSIX flavour) *)

Fixpoint stripTrailingSlashes (s : string) : string :=
  match s with
  | EmptyString => EmptyString
  | String c s' =>
      let r := stripTrailingSlashes s' in
      if Ascii.eqb c "/" && String.eqb r "" then EmptyString else String c r
  end.

(** The last portion of a path, trailing separators ignored. *)
Definition lastComponent (p : string) : string :=
  List.last (split "/" (stripTrailingSlashes p)) EmptyString.

Fixpoint lastIndexOf (c : ascii) (s : string) : option nat :=
  match s with
  | EmptyString => None
  | String d s' =>
      match lastIndexOf c s' with
      | Some i => Some (S i)
      | None => if Ascii.eqb d c then Some 0%nat else None
      end
  end.

Fixpoint dropChars (n : nat) (s : string) : string :=
  match n, s with
  | O, _ => s
  | S n', String _ s' => dropChars n' s'
  | S _, EmptyString => EmptyString
  end.

Fixpoint takeChars (n : nat) (s : string) : string :=
  match n, s with
  | S n', String c s' => String c (takeChars n' s')
  | _, _ => EmptyString
  end.

(** [path.extname(p)]: from the last dot of the last portion to its
    end; empty when there is no dot, when the only dot opens the
    portion, or when the portion is [..]. *)
Definition extname (p : string) : string :=
  let comp := lastComponent p in
  match lastIndexOf "." comp with
  | None => EmptyString
  | Some O => EmptyString
  | Some i => if String.eqb comp ".." then EmptyString else dropChars i comp
  end.

(** [path.basename(p)] and [path.basename(p, suffix)].  The suffix is
    removed when the last portion ends with it and is not equal to it.
    The extractor passes [extname p], always a suffix of the last
    portion; Node's behaviour for a suffix longer than the portion is
    not needed and not modelled. *)
Definition basename (p : string) (suffix : option string) : string :=
  let comp := lastComponent p in
  match suffix with
  | None => comp
  | Some suf =>
      if negb (String.eqb suf "") && (String.length suf <=? String.length p)%nat
      then if String.eqb suf p then EmptyString
           else if endsWith suf comp && negb (String.eqb suf comp)
                then takeChars (String.length comp - String.length suf) comp
                else comp
      else comp
  end.

End Js.

Import Js.

(** ** [src/utils/metadata_extractor.ts] *)

Module MetadataExtractor.

(** [DocumentMetadata]: an object whose fields are optional. *)
Abbreviation DocumentMetadata := (gmap string Value).

(** Maps CSI MasterFormat division numbers to disciplines. *)
Definition getSpecificationDiscipline (divisionNumber : string) : string :=
  let divNum := parseInt divisionNumber in
  if numGe divNum 1 && numLe divNum 14 then "Architectural"
  else if numGe divNum 21 && numLe divNum 23 then "Mechanical"
  else if numGe divNum 25 && numLe divNum 28 then "Electrical"
  else if numGe divNum 31 && numLe divNum 35 then "Civil"
  else if numEq divNum 9 then "Finishes"
  else "General".

(** [filename.match(/Division\s+(\d+)/i)]: the first capture group of
    the leftmost match.  White space and digits are disjoint classes,
    so the greedy match at a position is the only one there. *)
Fixpoint stripPrefixCI (pat s : string) : option string :=
  match pat, s with
  | EmptyString, _ => Some s
  | String p pat', String c s' =>
      if Ascii.eqb (lowerChar c) p then stripPrefixCI pat' s' else None
  | String _ _, EmptyString => None
  end.

Definition matchDivisionAt (s : string) : option string :=
  match stripPrefixCI "division" s with
  | Some r =>
      if String.eqb (takeWhile isWhiteSpace r) "" then None
      else
        let ds := takeWhile isDigit (dropWhile isWhiteSpace r) in
        if String.eqb ds "" then None else Some ds
  | None => None
  end.

Fixpoint matchDivision (s : string) : option string :=
  match matchDivisionAt s with
  | Some ds => Some ds
  | None =>
      match s with
      | EmptyString => None
      | String _ s' => matchDivision s'
      end
  end.

(** The single-letter discipline codes of drawing numbers. *)
Definition disciplineMap (code : string) : option string :=
  if String.eqb code "S" then Some "Structural"
  else if String.eqb code "C" then Some "Civil"
  else if String.eqb code "A" then Some "Architectural"
  else if String.eqb code "M" then Some "Mechanical"
  else if String.eqb code "E" then Some "Electrical"
  else if String.eqb code "P" then Some "Plumbing"
  else if String.eqb code "L" then Some "Landscape"
  else if String.eqb code "G" then Some "General"
  else if String.eqb code "D" then Some "Demolition"
  else if String.eqb code "F" then Some "Fire Protection"
  else if String.eqb code "T" then Some "Telecommunications"
  else if String.eqb code "I" then Some "Interiors"
  else None.

(** The predicate handed to [pathParts.findIndex]. *)
Definition isProjectFolder (part : string) : bool :=
  String.eqb (toLowerCase part) "projects"
  || String.eqb (toLowerCase part) "project"
  || String.eqb (toLowerCase part) "pdfdrawings-mcp".

(** The sheet-number bands of the drawing type. *)
Definition sheetBand (sheetNum : option Z) : option string :=
  if numGe sheetNum 1 && numLe sheetNum 99 then Some "General"
  else if numGe sheetNum 100 && numLe sheetNum 199 then Some "Plans"
  else if numGe sheetNum 200 && numLe sheetNum 299 then Some "Elevations"
  else if numGe sheetNum 300 && numLe sheetNum 399 then Some "Sections"
  else if numGe sheetNum 400 && numLe sheetNum 499 then Some "Details"
  else if numGe sheetNum 500 && numLe sheetNum 599 then Some "Schedules"
  else if numGe sheetNum 600 && numLe sheetNum 699 then Some "Diagrams"
  else None.

(** The blocks of [extractMetadataFromPath], in the order of the
    source; each takes the [metadata] object built so far.

    Document type, and the discipline of a specification. *)
Definition withDocumentType (normalizedPath filename : string)
    (metadata : DocumentMetadata) : DocumentMetadata :=
  if includes "/Drawings/" normalizedPath then
    <["documentType" := VStr "Drawing"]> metadata
  else if includes "/TextDocs/" normalizedPath then
    let metadata := <["documentType" := VStr "TextDoc"]> metadata in
    if startsWith "Division" filename then
      let metadata := <["documentType" := VStr "Specification"]> metadata in
      match matchDivision filename with
      | Some div1 =>
          <["discipline" := VStr (getSpecificationDiscipline div1)]> metadata
      | None => metadata
      end
    else metadata
  else metadata.

(** The default project name, and the project folder of the path. *)
Definition withProject (pathParts : list string)
    (metadata : DocumentMetadata) : DocumentMetadata :=
  let metadata := <["project" := VStr "PDFdrawings"]> metadata in
  let projectsIndex := findIndex isProjectFolder pathParts in
  match projectsIndex with
  | Some i =>
      if (i + 1 <? length pathParts)%nat then
        if negb (String.eqb (toLowerCase (default "" (pathParts !! i)))
                            "pdfdrawings-mcp")
        then assign "project" (VStr <$> pathParts !! (i + 1)%nat) metadata
        else metadata
      else metadata
  | None => metadata
  end.

(** Discipline, building area, sheet number and drawing type of a
    drawing, from its number. *)
Definition withDrawingNumber (drawingNumber : string)
    (metadata : DocumentMetadata) : DocumentMetadata :=
  if negb (String.eqb drawingNumber "")
     && bool_decide (metadata !! "documentType" = Some (VStr "Drawing"))
  then
    let disciplineCode := charAt0 drawingNumber in
    let metadata :=
      if negb (String.eqb disciplineCode "") then
        assign "discipline"
          (match disciplineMap (toUpperCase disciplineCode) with
           | Some d => Some (VStr d)
           | None => metadata !! "discipline"
           end) metadata
      else metadata in
    let parts := split "-" drawingNumber in
    if (1 <? length parts)%nat then
      let metadata :=
        match parts !! 1%nat with
        | Some p1 =>
            if negb (String.eqb p1 "")
            then <["buildingArea" := VStr p1]> metadata else metadata
        | None => metadata
        end in
      match parts !! 2%nat with
      | Some p2 =>
          if negb (String.eqb p2 "") then
            let metadata := <["sheetNumber" := VStr p2]> metadata in
            let sheetNum := parseInt p2 in
            match sheetBand sheetNum with
            | Some t => <["drawingType" := VStr t]> metadata
            | None => metadata
            end
          else metadata
      | None => metadata
      end
    else metadata
  else metadata.

(** [filePath.replace(/\\/g, '/')] *)
Definition normalizePath (filePath : string) : string :=
  replaceAll "\" "/" filePath.

(** Extracts metadata from file path based on folder structure and
    filename. *)
Definition extractMetadataFromPath (filePath : string) : DocumentMetadata :=
  let metadata : DocumentMetadata := ∅ in
  let normalizedPath := normalizePath filePath in
  let pathParts := split "/" normalizedPath in
  let filename := basename normalizedPath None in
  let drawingNumber := basename normalizedPath (Some (extname normalizedPath)) in
  let metadata := <["drawingNumber" := VStr drawingNumber]> metadata in
  let metadata := withDocumentType normalizedPath filename metadata in
  let metadata := withProject pathParts metadata in
  let metadata := withDrawingNumber drawingNumber metadata in
  metadata.

(** Merges metadata from multiple sources with priority; sources are
    given lowest priority first.  [Object.entries] enumerates each key
    of a source once, so the order of enumeration does not show in the
    result. *)
Definition mergeMetadata (sources : list DocumentMetadata) : DocumentMetadata :=
  foldl (fun result source =>
           foldl (fun result '(key, value) =>
                    if truthy value then setProperty key value result else result)
                 result (map_to_list source))
        ∅ sources.

Section ExtractMetadata.

(** The pattern-based content extractor and the AI-assisted extraction
    of [pdf_processor]; the latter hands over whatever [JSON.parse]
    made of the model's answer, [None] standing for [null]. *)
Variable extractMetadataFromContent : string -> DocumentMetadata.
Variable extractPdfInformation : string -> Exc (option DocumentMetadata).

(** Main metadata extraction function - combines all extraction
    methods.  [Object.entries] throws on [null]. *)
Definition extractMetadata (filePath : string) (content : option string)
    : Exc DocumentMetadata :=
  let pathMetadata := extractMetadataFromPath filePath in
  let contentMetadata :=
    match content with
    | Some c => if negb (String.eqb c "") then extractMetadataFromContent c else ∅
    | None => ∅
    end in
  let aiMetadata :=
    if endsWith ".pdf" (toLowerCase filePath) then
      match extractPdfInformation filePath with
      | Ok md => md
      | Throw _ => Some ∅
      end
    else Some ∅ in
  match aiMetadata with
  | Some ai => Ok (mergeMetadata [contentMetadata; pathMetadata; ai])
  | None => Throw "TypeError: Cannot convert undefined or null to object"
  end.

End ExtractMetadata.

End MetadataExtractor.

(** ** [src/seed.ts] *)

Module Seed.

Import MetadataExtractor.
Local Open Scope list_scope.

(** A LangChain [Document]; its [metadata] is always an object. *)
Record Document : Type := mkDocument {
  pageContent : string;
  metadata : gmap string Value
}.

#[global] Instance Document_eq_dec : EqDecision Document.
Proof. solve_decision. Defined.

(** [doc.metadata.source] and [doc.metadata.loc]. *)
Definition sourceOf (doc : Document) : option Value := metadata doc !! "source".
Definition locOf (doc : Document) : option Value := metadata doc !! "loc".

(** The string a value turns into when it is used as a property name
    ([acc[source]]). *)
Definition toPropertyKey (v : option Value) : string :=
  match v with
  | None => "undefined"
  | Some (VStr s) => s
  | Some (VNum n) => pretty n
  | Some (VBool true) => "true"
  | Some (VBool false) => "false"
  | Some VNull => "null"
  | Some (VLoc _ _ _) => "[object Object]"
  end.

(** What the console receives. *)
Inductive LogEntry : Type :=
| LogExists (hash : string)
| LogOverview (source overview : string)
| LogError (source error : string).

(** The tables of the LanceDB database; [None] is a missing table.  A
    row is the stored document with its metadata payload. *)
Record Database : Type := mkDatabase {
  catalog : option (list Document);
  chunks : option (list Document)
}.

(** The collaborators of the seeding script: the file system, the
    hash function, the metadata extractor, the summarisation chain, the
    directory loader, the text splitter and the embedding model. *)
Record Env : Type := mkEnv {
  mkdirTemp : Exc unit;
  readFile : string -> Exc string;
  sha256hex : string -> string;
  extractMetadata : string -> option string -> Exc DocumentMetadata;
  generateContentOverview : list Document -> Exc string;
  loadDirectory : Exc (list Document);
  splitPieces : Document -> list (string * Value);
  embedDocuments : list Document -> Exc unit
}.

(** [catalogTable.query().where(`hash="..."`).limit(1).toArray()], then
    [results.length > 0]. *)
Definition catalogRecordExists (catalogTable : list Document) (hash : string) : bool :=
  let results :=
    take 1 (filter (fun row => metadata row !! "hash" = Some (VStr hash)) catalogTable) in
  (0 <? length results)%nat.

(** The call [catalogRecordExists(catalogTable, hash)] in
    [processDocuments]; the table variable is [undefined] when the
    table could not be opened. *)
Definition queryCatalog (catalogTable : option (list Document)) (hash : string)
    : Exc bool :=
  match catalogTable with
  | Some rows => Ok (catalogRecordExists rows hash)
  | None => Throw "TypeError: Cannot read properties of undefined (reading 'query')"
  end.

(** The [reduce] that groups the raw documents by source.  The entries
    keep the order in which the sources first occur: sources are the
    absolute paths resolved by the directory loader, which are neither
    array indices nor names of [Object.prototype]. *)
Fixpoint pushDoc (acc : list (string * list Document)) (source : string)
    (doc : Document) : list (string * list Document) :=
  match acc with
  | [] => [(source, [doc])]
  | (k, ds) :: rest =>
      if String.eqb k source then (k, ds ++ [doc]) :: rest
      else (k, ds) :: pushDoc rest source doc
  end.

Definition groupBySource (rawDocs : list Document) : list (string * list Document) :=
  foldl (fun acc doc => pushDoc acc (toPropertyKey (sourceOf doc)) doc) [] rawDocs.

(** The result of [processDocuments], with the console output. *)
Record Processed : Type := mkProcessed {
  skipSources : list string;
  catalogRecords : list Document;
  console : list LogEntry
}.

(** How the [try] block of one source ends when it does not throw. *)
Inductive Verdict : Type :=
| AlreadyIndexed (hash : string)
| NewRecord (overview : string) (record : Document).

Section WithEnv.

Variable env : Env.

(** The [try] block of the loop for one source.  In the record,
    [...metadata] comes after [source] and [hash] and so wins over
    them; the merged metadata has no [undefined] property. *)
Definition tryDocument (catalogTable : option (list Document))
    (skipExistsCheck : bool) (source : string) (docs : list Document)
    : Exc Verdict :=
  bind (readFile env source) (fun fileContent =>
  let hash := sha256hex env fileContent in
  bind (if skipExistsCheck then Ok false
        else queryCatalog catalogTable hash) (fun exist =>
  if (exist : bool) then Ok (AlreadyIndexed hash)
  else
    let allText := join " " (map pageContent docs) in
    bind (extractMetadata env source (Some allText)) (fun metadata =>
    bind (generateContentOverview env docs) (fun contentOverview =>
    Ok (NewRecord contentOverview
          {| pageContent := contentOverview;
             metadata := metadata ∪ <["source" := VStr source]>
                                      (<["hash" := VStr hash]> ∅) |}))))).

(** One iteration of the loop, with its [catch]. *)
Definition processSource (catalogTable : option (list Document))
    (skipExistsCheck : bool) (st : Processed)
    (entry : string * list Document) : Processed :=
  let '(source, docs) := entry in
  match tryDocument catalogTable skipExistsCheck source docs with
  | Ok (AlreadyIndexed hash) =>
      {| skipSources := skipSources st ++ [source];
         catalogRecords := catalogRecords st;
         console := console st ++ [LogExists hash] |}
  | Ok (NewRecord overview record) =>
      {| skipSources := skipSources st;
         catalogRecords := catalogRecords st ++ [record];
         console := console st ++ [LogOverview source overview] |}
  | Throw e =>
      {| skipSources := skipSources st;
         catalogRecords := catalogRecords st;
         console := console st ++ [LogError source e] |}
  end.

(** Prepares documents for summarization; returns already existing
    sources and new catalog records. *)
Definition processDocuments (rawDocs : list Document)
    (catalogTable : option (list Document)) (skipExistsCheck : bool)
    : Exc Processed :=
  bind (mkdirTemp env) (fun _ =>
  Ok (foldl (processSource catalogTable skipExistsCheck)
            {| skipSources := []; catalogRecords := []; console := [] |}
            (groupBySource rawDocs))).

(** Enhances document chunks with metadata from catalog records.  The
    [Map] is only written with [set] and read with [get], so a finite
    map models it; its keys are the [source] values, strings in every
    document the loaders produce.  The source assigns the new metadata
    to the chunk object itself; since the new metadata keeps the source
    and the [loc] of the chunk, a chunk object that occurs twice in the
    list ends up as the function below leaves it. *)
Definition enhanceDocumentsWithMetadata (docs catalogRecords : list Document)
    : list Document :=
  let metadataBySource : gmap (option Value) (gmap string Value) :=
    foldl (fun m record => <[sourceOf record := metadata record]> m)
          ∅ catalogRecords in
  map (fun doc =>
         let sourcePath := sourceOf doc in
         match metadataBySource !! sourcePath with
         | Some catalogMetadata =>
             let loc := locOf doc in
             {| pageContent := pageContent doc;
                metadata := assign "loc" loc catalogMetadata |}
         | None => doc
         end) docs.

(** [rawDocs.filter(doc => !skipSources.includes(doc.metadata.source))]. *)
Definition notSkipped (skipSources : list string) (doc : Document) : bool :=
  match sourceOf doc with
  | Some (VStr s) => negb (bool_decide (s ∈ skipSources))
  | _ => true
  end.

(** [splitter.splitDocuments]: every piece of a document is a document
    with the parent's metadata and its own [loc]. *)
Definition splitDocuments (docs : list Document) : list Document :=
  flat_map (fun doc =>
              map (fun '(text, loc) =>
                     {| pageContent := text;
                        metadata := <["loc" := loc]> (metadata doc) |})
                  (splitPieces env doc)) docs.

(** [LanceDB.fromDocuments(docs, embeddingModel, { mode, uri,
    tableName })]: embeds the documents and writes them to the table
    of that name.  [seed] passes no table handle, and as [mode] either
    "overwrite" or [undefined], for which the store falls back to
    "overwrite": the store has no table to add to and creates the
    table anew from the documents, so that the rows of a table that
    existed are not kept.  The result is the table after the call. *)
Definition fromDocuments (docs : list Document) : Exc (option (list Document)) :=
  bind (embedDocuments env docs) (fun _ => Ok (Some docs)).

(** Keep just the essential metadata. *)
Definition essentialMetadata (doc : Document) : Document :=
  {| pageContent := pageContent doc;
     metadata := assign "loc" (locOf doc) (assign "source" (sourceOf doc) ∅) |}.

(** The documents that [seed] hands to the splitter and the chunks it
    hands to the embedding model. *)
Definition filteredRawDocs (rawDocs : list Document) (p : Processed) : list Document :=
  filter (fun doc => notSkipped (skipSources p) doc = true) rawDocs.

Definition chunkDocs (rawDocs : list Document) (p : Processed) : list Document :=
  enhanceDocumentsWithMetadata (splitDocuments (filteredRawDocs rawDocs p))
                               (catalogRecords p).

(** One run of the seeding script on a database, for valid command
    line arguments; the result pairs the way the run ends with the
    database it leaves behind.  Opening and dropping tables is read off
    the database; the temporary directory is not part of the state. *)
Definition seed (overwrite : bool) (db : Database) : Exc unit * Database :=
  let catalogTable := catalog db in
  let catalogTableExists := bool_decide (is_Some (catalog db)) in
  let db := if overwrite then {| catalog := None; chunks := None |} else db in
  let catalogTableExists := if overwrite then false else catalogTableExists in
  match loadDirectory env with
  | Throw e => (Throw e, db)
  | Ok loaded =>
      let rawDocs := map essentialMetadata loaded in
      match processDocuments rawDocs catalogTable
                             (overwrite || negb catalogTableExists) with
      | Throw e => (Throw e, db)
      | Ok p =>
          let stored :=
            if (0 <? length (catalogRecords p))%nat
            then fromDocuments (catalogRecords p)
            else Ok (catalog db) in
          match stored with
          | Throw e => (Throw e, db)
          | Ok catalog' =>
              let db := {| catalog := catalog'; chunks := chunks db |} in
              let docs := chunkDocs rawDocs p in
              let stored :=
                if (0 <? length docs)%nat
                then fromDocuments docs
                else Ok (chunks db) in
              match stored with
              | Throw e => (Throw e, db)
              | Ok chunks' => (Ok tt, {| catalog := catalog db; chunks := chunks' |})
              end
          end
      end
  end.

End WithEnv.

End Seed.

(** ** [src/lancedb/client.ts] *)

Module Client.

Local Open Scope list_scope.

(** Handles: a connection is known by its URL, an opened table by its
    name, a vector store by its embedding model and its table. *)
Record VectorStore : Type := mkVectorStore {
  embeddingModel : string;
  storeTable : string
}.

(** The module-level variables; each starts out [undefined]. *)
Record Globals : Type := mkGlobals {
  client : option string;
  chunksTable : option string;
  chunksVectorStore : option VectorStore;
  catalogTable : option string;
  catalogVectorStore : option VectorStore;
  imageTable : option string;
  imageVectorStore : option VectorStore
}.

Definition uninitialized : Globals :=
  {| client := None; chunksTable := None; chunksVectorStore := None;
     catalogTable := None; catalogVectorStore := None;
     imageTable := None; imageVectorStore := None |}.

Section WithDatabase.

(** [lancedb.connect] and [client.openTable] *)
Variable connect : string -> Exc string.
Variable openTable : string -> string -> Exc string.
(** [defaults.EMBEDDING_MODEL] and [defaults.IMAGE_EMBEDDING_MODEL] *)
Variable EMBEDDING_MODEL : string.
Variable IMAGE_EMBEDDING_MODEL : string.

(** The result of a call: how it ends, the module variables afterwards
    and the lines written to the console. *)
Definition connectToLanceDB (g : Globals)
    (databaseUrl chunksTableName catalogTableName imageTableName : string)
    : Exc unit * Globals * list string :=
  let log := ["Connecting to database: " +:+ databaseUrl] in
  match connect databaseUrl with
  | Throw e => (Throw e, g, log ++ ["LanceDB connection error: " +:+ e])
  | Ok c =>
      let g := {| client := Some c; chunksTable := chunksTable g;
                  chunksVectorStore := chunksVectorStore g;
                  catalogTable := catalogTable g;
                  catalogVectorStore := catalogVectorStore g;
                  imageTable := imageTable g;
                  imageVectorStore := imageVectorStore g |} in
      match openTable c chunksTableName with
      | Throw e =>
          (Throw e, g,
           log ++ ["Table '" +:+ chunksTableName
                     +:+ "' not found. Have you run the seed script yet?";
                   "Run: npm run seed -- --dbpath " +:+ databaseUrl
                     +:+ " --filesdir <your_files_dir> --overwrite";
                   "LanceDB connection error: " +:+ e])
      | Ok t =>
          let g := {| client := client g; chunksTable := Some t;
                      chunksVectorStore :=
                        Some {| embeddingModel := EMBEDDING_MODEL; storeTable := t |};
                      catalogTable := catalogTable g;
                      catalogVectorStore := catalogVectorStore g;
                      imageTable := imageTable g;
                      imageVectorStore := imageVectorStore g |} in
          match openTable c catalogTableName with
          | Throw e =>
              (Throw e, g,
               log ++ ["Table '" +:+ catalogTableName
                         +:+ "' not found. Have you run the seed script yet?";
                       "Run: npm run seed -- --dbpath " +:+ databaseUrl
                         +:+ " --filesdir <your_files_dir> --overwrite";
                       "LanceDB connection error: " +:+ e])
          | Ok t =>
              let g := {| client := client g; chunksTable := chunksTable g;
                          chunksVectorStore := chunksVectorStore g;
                          catalogTable := Some t;
                          catalogVectorStore :=
                            Some {| embeddingModel := EMBEDDING_MODEL; storeTable := t |};
                          imageTable := imageTable g;
                          imageVectorStore := imageVectorStore g |} in
              match openTable c imageTableName with
              | Throw _ =>
                  (Ok tt, g,
                   log ++ ["Image table '" +:+ imageTableName
                             +:+ "' not found. Image search may not be available.";
                           "Make sure image extraction is enabled in the configuration."])
              | Ok t =>
                  (Ok tt,
                   {| client := client g; chunksTable := chunksTable g;
                      chunksVectorStore := chunksVectorStore g;
                      catalogTable := catalogTable g;
                      catalogVectorStore := catalogVectorStore g;
                      imageTable := Some t;
                      imageVectorStore :=
                        Some {| embeddingModel := IMAGE_EMBEDDING_MODEL;
                                storeTable := t |} |},
                   log ++ ["Image table '" +:+ imageTableName
                             +:+ "' loaded successfully"])
              end
          end
      end
  end.

End WithDatabase.

End Client.

(** ** [src/tools/operations] *)

Module Tool.

(** The response of a tool: the text items of [content] and
    [isError].  A tool that returns answers [Ok]; one that lets an
    exception escape answers [Throw]. *)
Record ToolResponse : Type := mkToolResponse {
  content : list string;
  isError : bool
}.

(** [params.f && result.metadata.f !== params.f]: the filter [f] is
    given, is not the empty string, and the field differs from it. *)
Definition rejects (param : option string) (field : option Value) : bool :=
  match param with
  | Some s => negb (String.eqb s "") && negb (bool_decide (field = Some (VStr s)))
  | None => false
  end.

(** [params.f] used as a condition. *)
Definition given (param : option string) : bool :=
  match param with
  | Some s => negb (String.eqb s "")
  | None => false
  end.

End Tool.

Module ChunksSearchTool.

Import Seed Tool.

Record ChunksSearchParams : Type := mkParams {
  text : string;
  source : option string;
  project : option string;
  discipline : option string;
  drawingNumber : option string;
  drawingType : option string;
  phase : option string
}.

(** The callback of [results.filter].  [result.metadata] is an object on
    every document, so the guard [!result.metadata] never holds. *)
Definition keeps (params : ChunksSearchParams) (result : Document) : bool :=
  if rejects (source params) (metadata result !! "source") then false
  else if rejects (project params) (metadata result !! "project") then false
  else if rejects (discipline params) (metadata result !! "discipline") then false
  else if rejects (drawingNumber params) (metadata result !! "drawingNumber") then false
  else if rejects (drawingType params) (metadata result !! "drawingType") then false
  else if rejects (phase params) (metadata result !! "phase") then false
  else true.

Section Execute.

(** [chunksVectorStore.asRetriever().invoke], [JSON.stringify(_, null, 2)]
    and [BaseTool.handleError] *)
Variable retrieve : string -> Exc (list Document).
Variable stringify : list Document -> string.
Variable handleError : string -> Exc ToolResponse.

(** The list that is serialised into the response, when the retriever
    answers. *)
Definition filteredResults (params : ChunksSearchParams) (results : list Document)
    : list Document :=
  filter (fun result => keeps params result = true) results.

Definition execute (params : ChunksSearchParams) : Exc ToolResponse :=
  match retrieve (text params) with
  | Ok results =>
      Ok {| content := [stringify (filteredResults params results)];
            isError := false |}
  | Throw error => handleError error
  end.

End Execute.

End ChunksSearchTool.

Module BroadSearchTool.

Import Seed Tool.

Record BroadSearchParams : Type := mkParams {
  text : string;
  project : option string;
  discipline : option string;
  drawingType : option string;
  phase : option string
}.

(** The callback of [results.filter]; as in [chunks_search], the guard
    [!result.metadata] never holds. *)
Definition keeps (params : BroadSearchParams) (result : Document) : bool :=
  if rejects (project params) (metadata result !! "project") then false
  else if rejects (discipline params) (metadata result !! "discipline") then false
  else if rejects (drawingType params) (metadata result !! "drawingType") then false
  else if rejects (phase params) (metadata result !! "phase") then false
  else true.

Section Execute.

Variable retrieve : string -> Exc (list Document).
Variable stringify : list Document -> string.
Variable handleError : string -> Exc ToolResponse.

(** The list that is serialised into the response: filtered when some
    filter is given, all results otherwise. *)
Definition returnedResults (params : BroadSearchParams) (results : list Document)
    : list Document :=
  if given (project params) || given (discipline params)
     || given (drawingType params) || given (phase params)
  then filter (fun result => keeps params result = true) results
  else results.

Definition execute (params : BroadSearchParams) : Exc ToolResponse :=
  match retrieve (text params) with
  | Ok results =>
      Ok {| content := [stringify (returnedResults params results)];
            isError := false |}
  | Throw error => handleError error
  end.

End Execute.

End BroadSearchTool.

Module ImageSearchTool.

Import Seed Tool Client.

Record ImageSearchParams : Type := mkParams {
  description : string;
  source : option string;
  project : option string;
  discipline : option string;
  drawingType : option string
}.

(** One entry of [formattedResults]. *)
Record FormattedResult : Type := mkFormattedResult {
  r_imagePath : option Value;
  r_source : option Value;
  r_page : Value;
  r_project : option Value;
  r_discipline : option Value;
  r_drawingNumber : option Value;
  r_drawingType : option Value;
  r_similarity : string
}.

Definition unavailableText : string :=
  "Image search is not available. The image database has not been initialized."
  +:+ String (ascii_of_nat 10) (String (ascii_of_nat 10) "")
  +:+ "Please ensure that image extraction is enabled in the configuration and that "
  +:+ "the database has been seeded with images.".

Definition noMatchText (description : string) : string :=
  "No matching images found for description: " +:+ String (ascii_of_nat 34) ""
  +:+ description +:+ String (ascii_of_nat 34) ""
  +:+ ". Try a different description or check your filters.".

(** The callback of [results.filter]. *)
Definition keeps (params : ImageSearchParams) (result : Document) : bool :=
  if rejects (source params) (metadata result !! "source") then false
  else if rejects (project params) (metadata result !! "project") then false
  else if rejects (discipline params) (metadata result !! "discipline") then false
  else if rejects (drawingType params) (metadata result !! "drawingType") then false
  else true.

Section Execute.

(** [imageEmbeddings.embedQuery], the retriever of the image store,
    [(1 - d).toFixed(2)] on the stored distance, [JSON.stringify] and
    [BaseTool.handleError] *)
Variable embedQuery : string -> Exc unit.
Variable retrieve : VectorStore -> string -> Exc (list Document).
Variable similarityText : Value -> string.
Variable stringify : list FormattedResult -> string.
Variable handleError : string -> Exc ToolResponse.

Definition format (result : Document) : FormattedResult :=
  let md := metadata result in
  {| r_imagePath := md !! "imagePath";
     r_source := md !! "source";
     r_page := match md !! "page" with
               | Some p => if truthy p then p else VNum 1
               | None => VNum 1
               end;
     r_project := md !! "project";
     r_discipline := md !! "discipline";
     r_drawingNumber := md !! "drawingNumber";
     r_drawingType := md !! "drawingType";
     r_similarity := match md !! "_distance" with
                     | Some d => similarityText d
                     | None => "N/A"
                     end |}.

(** [execute], reading the module variable [imageVectorStore]. *)
Definition execute (g : Globals) (params : ImageSearchParams) : Exc ToolResponse :=
  match imageVectorStore g with
  | None => Ok {| content := [unavailableText]; isError := true |}
  | Some store =>
      match embedQuery (description params) with
      | Throw error => handleError error
      | Ok _ =>
          match retrieve store (description params) with
          | Throw error => handleError error
          | Ok results =>
              let filteredResults :=
                filter (fun result => keeps params result = true) results in
              let formattedResults := map format filteredResults in
              if (length formattedResults =? 0)%nat
              then Ok {| content := [noMatchText (description params)];
                         isError := false |}
              else Ok {| content := [stringify formattedResults];
                         isError := false |}
          end
      end
  end.

End Execute.

End ImageSearchTool.

(** ** Notions used to state the properties *)

Module Spec.

Import MetadataExtractor Seed Tool.
Local Open Scope list_scope.

(** The value of a field in a source, when it is truthy there. *)
Definition truthyField (key : string) (source : DocumentMetadata) : option Value :=
  match source !! key with
  | Some v => if truthy v then Some v else None
  | None => None
  end.

(** The value of a field in the last source in which it is truthy. *)
Definition lastTruthy (key : string) (sources : list DocumentMetadata) : option Value :=
  last (omap (truthyField key) sources).

(** A path segment named "projects" or "project", in any case, and a
    segment named like the application's root folder. *)
Definition namesProjects (part : string) : bool :=
  String.eqb (toLowerCase part) "projects"
  || String.eqb (toLowerCase part) "project".

Definition namesRoot (part : string) : bool :=
  String.eqb (toLowerCase part) "pdfdrawings-mcp".

(** Every character of a string passes a test. *)
Fixpoint allChars (f : ascii -> bool) (s : string) : bool :=
  match s with
  | EmptyString => true
  | String c s' => f c && allChars f s'
  end.

(** The file name without its extension, as the extractor computes it. *)
Definition stem (filePath : string) : string :=
  basename (normalizePath filePath) (Some (extname (normalizePath filePath))).

(** The map from source paths to catalog metadata that the enricher
    builds, and what the enricher does to one chunk. *)
Definition bySource (records : list Document)
    : gmap (option Value) (gmap string Value) :=
  foldl (fun m record => <[sourceOf record := metadata record]> m) ∅ records.

Definition enhanceOne (records : list Document) (doc : Document) : Document :=
  match bySource records !! sourceOf doc with
  | Some catalogMetadata =>
      {| pageContent := pageContent doc;
         metadata := assign "loc" (locOf doc) catalogMetadata |}
  | None => doc
  end.

(** What one iteration of the loop of [processDocuments] adds to the
    skipped sources, to the staged catalog records and to the console. *)
Definition skippedBy (env : Env) (catalogTable : option (list Document))
    (skipExistsCheck : bool) (entry : string * list Document) : option string :=
  match tryDocument env catalogTable skipExistsCheck entry.1 entry.2 with
  | Ok (AlreadyIndexed _) => Some entry.1
  | _ => None
  end.

Definition stagedBy (env : Env) (catalogTable : option (list Document))
    (skipExistsCheck : bool) (entry : string * list Document) : option Document :=
  match tryDocument env catalogTable skipExistsCheck entry.1 entry.2 with
  | Ok (NewRecord _ record) => Some record
  | _ => None
  end.

Definition loggedBy (env : Env) (catalogTable : option (list Document))
    (skipExistsCheck : bool) (entry : string * list Document) : LogEntry :=
  match tryDocument env catalogTable skipExistsCheck entry.1 entry.2 with
  | Ok (AlreadyIndexed hash) => LogExists hash
  | Ok (NewRecord overview _) => LogOverview entry.1 overview
  | Throw e => LogError entry.1 e
  end.

(** The filters that a request supplies, as pairs of a metadata field
    and the value asked for; a filter whose value is the empty string
    does not count as supplied. *)
Definition filtersOf (fields : list (string * option string)) : list (string * string) :=
  omap (fun field : string * option string =>
          match field.2 with
          | Some v => if String.eqb v "" then None else Some (field.1, v)
          | None => None
          end) fields.

(** A result satisfies a filter when its metadata holds exactly the
    string asked for in the filtered field. *)
Definition satisfies (result : Document) (filter : string * string) : Prop :=
  metadata result !! filter.1 = Some (VStr filter.2).

#[global] Instance satisfies_dec result filter : Decision (satisfies result filter).
Proof. unfold satisfies. apply _. Defined.

(** The chunk that the splitter makes of one piece of a document. *)
Definition pieceOf (doc : Document) (piece : string * Value) : Document :=
  {| pageContent := piece.1; metadata := <["loc" := piece.2]> (metadata doc) |}.

End Spec.

(** ** The filters of the search tools *)

Module ToolSpec.

Import Seed Tool Spec.

Definition chunksFilters (params : ChunksSearchTool.ChunksSearchParams)
    : list (string * string) :=
  filtersOf [ ("source", ChunksSearchTool.source params);
              ("project", ChunksSearchTool.project params);
              ("discipline", ChunksSearchTool.discipline params);
              ("drawingNumber", ChunksSearchTool.drawingNumber params);
              ("drawingType", ChunksSearchTool.drawingType params);
              ("phase", ChunksSearchTool.phase params) ].

Definition broadFilters (params : BroadSearchTool.BroadSearchParams)
    : list (string * string) :=
  filtersOf [ ("project", BroadSearchTool.project params);
              ("discipline", BroadSearchTool.discipline params);
              ("drawingType", BroadSearchTool.drawingType params);
              ("phase", BroadSearchTool.phase params) ].

End ToolSpec.

(** ** A small corpus on which the properties are exercised *)

Module Examples.

Import MetadataExtractor Seed.
Local Open Scope list_scope.

Definition drawingPath : string := "/in/Drawings/S-46-1001.pdf".
Definition specPath : string := "/in/TextDocs/Division 09 - Finishes.pdf".
Definition missingPath : string := "/in/Drawings/A-12-150.pdf".

(** One loaded page of a file. *)
Definition page (path text : string) : Document :=
  {| pageContent := text;
     metadata := {[ "loc" := VLoc 1 0 0; "source" := VStr path ]} |}.

(** A file system with two readable files. *)
Definition files (path : string) : Exc string :=
  if String.eqb path drawingPath then Ok "%PDF-1.7 drawing"
  else if String.eqb path specPath then Ok "%PDF-1.7 specification"
  else Throw "ENOENT: no such file or directory".

(** A stand-in for SHA-256. *)
Definition digest (bytes : string) : string := "sha256:" +:+ bytes.

(** An environment whose metadata extractor is the extractor of the
    repository, with a content extractor and a model that find nothing. *)
Definition env (loaded : list Document) : Env :=
  {| mkdirTemp := Ok tt;
     readFile := files;
     sha256hex := digest;
     extractMetadata :=
       MetadataExtractor.extractMetadata (fun _ => ∅) (fun _ => Ok (Some ∅));
     generateContentOverview := fun _ => Ok "A construction document.";
     loadDirectory := Ok loaded;
     splitPieces := fun doc => [(pageContent doc, VLoc 1 1 1)];
     embedDocuments := fun _ => Ok tt |}.



(** Catalog rows of the two readable files. *)
Definition catalogRow (path bytes : string) : Document :=
  {| pageContent := "A construction document.";
     metadata := {[ "source" := VStr path; "hash" := VStr (digest bytes) ]} |}.

Definition indexedRows : list Document :=
  [ catalogRow drawingPath "%PDF-1.7 drawing";
    catalogRow specPath "%PDF-1.7 specification" ].

Definition corpus : list Document :=
  [ page drawingPath "SLAB ON GRADE"; page specPath "PAINTING" ].

(** A database in which only the drawing has been indexed. *)
Definition drawingIndexed : Database :=
  {| catalog := Some [catalogRow drawingPath "%PDF-1.7 drawing"];
     chunks := Some [] |}.


(** Similarity results, a serialiser that lists the texts, and an error
    handler that reports the message. *)
Definition hits : list Document :=
  [ {| pageContent := "SLAB ON GRADE";
       metadata := {[ "discipline" := VStr "Structural";
                      "project" := VStr "Lift Station" ]} |};
    {| pageContent := "PANEL SCHEDULE";
       metadata := {[ "discipline" := VStr "Electrical";
                      "project" := VStr "Lift Station" ]} |};
    {| pageContent := "GENERAL NOTES";
       metadata := {[ "project" := VStr "Lift Station" ]} |} ].

Definition retriever (query : string) : Exc (list Document) := Ok hits.

Definition render (docs : list Document) : string :=
  join "; " (map pageContent docs).

Definition report (e : string) : Exc Tool.ToolResponse :=
  Ok {| Tool.content := [e]; Tool.isError := true |}.

(** A database with the chunks and catalog tables only. *)
Definition connectTo (url : string) : Exc string := Ok url.

Definition tablesWithoutImages (connection name : string) : Exc string :=
  if String.eqb name "chunks" || String.eqb name "catalog" then Ok name
  else Throw ("Table '" +:+ name +:+ "' was not found").

Definition tablesWithoutCatalog (connection name : string) : Exc string :=
  if String.eqb name "chunks" then Ok name
  else Throw ("Table '" +:+ name +:+ "' was not found").

Definition noTables (connection name : string) : Exc string :=
  Throw ("Table '" +:+ name +:+ "' was not found").

End Examples.

(** ** [src/config/models.ts], [src/config/user_config.ts] and
       [src/config.ts] *)

Module Models.

Local Open Scope list_scope.

Inductive ModelTaskType : Type :=
| EMBEDDING
| SUMMARIZATION
| METADATA_EXTRACTION
| IMAGE_EMBEDDING
| SECTION_DETECTION.

Inductive ResourceLevel : Type := low | medium | high.

Record ModelConfig : Type := mkModelConfig {
  name : string;
  provider : string;
  description : string;
  contextSize : Z;
  resourceLevel : ResourceLevel
}.

(** Model registry with options for each task; the entries of an
    object, in the order in which they are written. *)
Definition modelRegistry (taskType : ModelTaskType) : list (string * ModelConfig) :=
  match taskType with
  | EMBEDDING =>
      [ ("snowflake-arctic-embed2",
         {| name := "snowflake-arctic-embed2"; provider := "ollama";
            description :=
              "Fast, lightweight embedding model with decent semantic understanding";
            contextSize := 8192; resourceLevel := low |});
        ("nomic-embed-text",
         {| name := "nomic-embed-text"; provider := "ollama";
            description :=
              "Better for technical content, with a longer context window";
            contextSize := 8192; resourceLevel := medium |});
        ("all-MiniLM-L6-v2",
         {| name := "all-MiniLM-L6-v2"; provider := "ollama";
            description :=
              "Strong performance for semantic similarity, widely used";
            contextSize := 4096; resourceLevel := low |});
        ("bge-large-en-v1.5",
         {| name := "bge-large-en-v1.5"; provider := "ollama";
            description :=
              "High-quality embeddings with good technical understanding";
            contextSize := 4096; resourceLevel := medium |}) ]
  | SUMMARIZATION =>
      [ ("llama3.1:8b",
         {| name := "llama3.1:8b"; provider := "ollama";
            description :=
              "Lightweight, fast summarization with decent comprehension";
            contextSize := 8192; resourceLevel := low |});
        ("phi-3-medium",
         {| name := "phi-3-medium"; provider := "ollama";
            description :=
              "Good balance of performance and resource usage for summarization";
            contextSize := 8192; resourceLevel := medium |});
        ("phi-3-mini",
         {| name := "phi-3-mini"; provider := "ollama";
            description :=
              "Efficient model that runs well on consumer hardware";
            contextSize := 4096; resourceLevel := low |});
        ("phi4",
         {| name := "phi4"; provider := "ollama";
            description :=
              "Microsoft's latest Phi model with improved reasoning and comprehension";
            contextSize := 8192; resourceLevel := medium |});
        ("llama3.1:70b",
         {| name := "llama3.1:70b"; provider := "ollama";
            description :=
              "Comprehensive understanding, high quality summarization (requires powerful hardware)";
            contextSize := 8192; resourceLevel := high |});
        ("mistral-large",
         {| name := "mistral-large"; provider := "ollama";
            description :=
              "Excellent technical content summarization with good context understanding";
            contextSize := 8192; resourceLevel := high |}) ]
  | METADATA_EXTRACTION =>
      [ ("llama3.1:8b",
         {| name := "llama3.1:8b"; provider := "ollama";
            description := "Basic metadata extraction capabilities";
            contextSize := 8192; resourceLevel := low |});
        ("phi-3-mini",
         {| name := "phi-3-mini"; provider := "ollama";
            description := "Efficient model for metadata extraction";
            contextSize := 4096; resourceLevel := low |});
        ("phi-3-medium",
         {| name := "phi-3-medium"; provider := "ollama";
            description := "Improved metadata extraction with good accuracy";
            contextSize := 8192; resourceLevel := medium |});
        ("phi4",
         {| name := "phi4"; provider := "ollama";
            description :=
              "High-quality metadata extraction with strong reasoning capabilities";
            contextSize := 8192; resourceLevel := medium |}) ]
  | IMAGE_EMBEDDING =>
      [ ("clip",
         {| name := "clip"; provider := "ollama";
            description := "Image embedding model for visual similarity search";
            contextSize := 0; resourceLevel := medium |});
        ("llava:13b",
         {| name := "llava:13b"; provider := "ollama";
            description :=
              "Multimodal model for understanding images and text together";
            contextSize := 0; resourceLevel := high |}) ]
  | SECTION_DETECTION =>
      [ ("llama3.1:8b",
         {| name := "llama3.1:8b"; provider := "ollama";
            description := "Basic document structure analysis";
            contextSize := 8192; resourceLevel := low |});
        ("phi-3-mini",
         {| name := "phi-3-mini"; provider := "ollama";
            description := "Efficient model for document section detection";
            contextSize := 4096; resourceLevel := low |});
        ("phi4",
         {| name := "phi4"; provider := "ollama";
            description :=
              "Advanced document structure analysis with better reasoning";
            contextSize := 8192; resourceLevel := medium |}) ]
  end.

(** Default model selections. *)
Definition defaultModels (taskType : ModelTaskType) : string :=
  match taskType with
  | EMBEDDING => "nomic-embed-text"
  | SUMMARIZATION => "phi4"
  | METADATA_EXTRACTION => "phi4"
  | IMAGE_EMBEDDING => "clip"
  | SECTION_DETECTION => "phi4"
  end.

(** What [taskModels[key]] reads: a configuration of the registry, a
    member that the object inherits from [Object.prototype], or
    [undefined].  The inherited members are functions, and
    [Object.prototype] itself for [__proto__]: all truthy. *)
Inductive Property : Type :=
| Own (config : ModelConfig)
| Inherited (member : string)
| Undefined.

Definition objectPrototype : list string :=
  ["constructor"; "__defineGetter__"; "__defineSetter__"; "hasOwnProperty";
   "__lookupGetter__"; "__lookupSetter__"; "isPrototypeOf";
   "propertyIsEnumerable"; "toString"; "valueOf"; "__proto__";
   "toLocaleString"].

Fixpoint ownProperty (entries : list (string * ModelConfig)) (key : string)
    : option ModelConfig :=
  match entries with
  | [] => None
  | (k, config) :: rest =>
      if String.eqb k key then Some config else ownProperty rest key
  end.

Definition getProperty (entries : list (string * ModelConfig)) (key : string)
    : Property :=
  match ownProperty entries key with
  | Some config => Own config
  | None => if bool_decide (key ∈ objectPrototype) then Inherited key
            else Undefined
  end.

(** Get the configuration for a specific model; [modelName] is
    optional. *)
Definition getModelConfig (taskType : ModelTaskType) (modelName : option string)
    : Property :=
  let selectedModelName :=
    match modelName with
    | Some s => if String.eqb s "" then defaultModels taskType else s
    | None => defaultModels taskType
    end in
  let taskModels := modelRegistry taskType in
  match getProperty taskModels selectedModelName with
  | Undefined => getProperty taskModels (defaultModels taskType)
  | found => found
  end.

(** Get all available models for a specific task. *)
Definition getAvailableModels (taskType : ModelTaskType) : list ModelConfig :=
  (modelRegistry taskType).*2.

(** [getModelConfig(...).name], for a configuration of the registry. *)
Definition nameOf (property : Property) : option string :=
  match property with
  | Own config => Some (name config)
  | _ => None
  end.

End Models.

Module Config.

Import Models.

(** User-selected models for each task. *)
Definition userSelectedModels (taskType : ModelTaskType) : string :=
  match taskType with
  | EMBEDDING => "nomic-embed-text"
  | SUMMARIZATION => "phi4"
  | METADATA_EXTRACTION => "phi4"
  | IMAGE_EMBEDDING => "granite3.2-vision"
  | SECTION_DETECTION => "phi4"
  end.

(** The model names of [config.models]. *)
Definition modelFor (taskType : ModelTaskType) : option string :=
  nameOf (getModelConfig taskType (Some (userSelectedModels taskType))).

Definition EMBEDDING_MODEL : option string := modelFor EMBEDDING.
Definition SUMMARIZATION_MODEL : option string := modelFor SUMMARIZATION.
Definition METADATA_EXTRACTION_MODEL : option string := modelFor METADATA_EXTRACTION.
Definition IMAGE_EMBEDDING_MODEL : option string := modelFor IMAGE_EMBEDDING.
Definition SECTION_DETECTION_MODEL : option string := modelFor SECTION_DETECTION.

(** [config.pdf] and [config.text] *)
Definition maxSizeMb : Z := 10.
Definition maxPagesPerChunk : Z := 20.
Definition extractFirstPageOnly : bool := false.
Definition maxMetadataTokens : nat := 2000.

End Config.

(** ** [src/utils/pdf_processor.ts]

    What the functions write to the console is left out. *)

Module PdfProcessor.

Import MetadataExtractor.
Local Open Scope list_scope.

(** The result of [pdf-parse], as far as it is used. *)
Record PdfData : Type := mkPdfData {
  numpages : Z;
  text : string
}.

(** [PdfSection]; the fields of its [metadata] are [source], [hash]
    and [pageCount]. *)
Record PdfSection : Type := mkPdfSection {
  content : string;
  pageNumber : Z;
  sectionType : string;
  source : string;
  hash : string;
  pageCount : Z
}.

(** One entry of [SplitPdfResult.chunks], and the result. *)
Record Chunk : Type := mkChunk {
  path : string;
  startPage : Z;
  endPage : Z;
  title : string
}.

Record SplitPdfResult : Type := mkSplitPdfResult {
  originalPath : string;
  chunks : list Chunk
}.

(** The result of [extractPdfInformation]; [None] stands for a
    [metadata] that is [null]. *)
Record PdfInformation : Type := mkPdfInformation {
  sections : list PdfSection;
  metadata : option DocumentMetadata
}.

(** The collaborators: [fs.promises.stat] (the size in bytes),
    [fs.promises.readFile], the [pdf-parse] library with its [max]
    option, SHA-256, [fs.promises.mkdir], [path.join], the call of a
    model with the prompt built around a sample of text, and
    [JSON.parse], which hands over the entries of the value it parsed,
    [None] for [null]. *)
Record Sys : Type := mkSys {
  stat : string -> Exc Z;
  readFile : string -> Exc string;
  pdfParseLib : string -> option Z -> Exc PdfData;
  sha256hex : string -> string;
  mkdir : string -> Exc unit;
  pathJoin : string -> string -> string;
  callModel : option string -> string -> Exc string;
  parseJson : string -> Exc (option DocumentMetadata)
}.

Section WithSys.

Variable sys : Sys.

(** The wrapper for [pdf-parse]. *)
Definition pdfParse (dataBuffer : string) (max : option Z) : PdfData :=
  match pdfParseLib sys dataBuffer max with
  | Ok pdfData => pdfData
  | Throw _ =>
      {| numpages := 1;
         text := "Error extracting PDF text. The PDF may be corrupt, password-protected, or in an unsupported format." |}
  end.

(** Checks if a PDF needs to be split based on size and page count.
    The size in megabytes is the size in bytes divided by a power of
    two, which is exact, so the comparison is made on the bytes. *)
Definition shouldSplitPdf (pdfPath : string) : Exc bool :=
  bind (stat sys pdfPath) (fun size =>
  if (Config.maxSizeMb * (1024 * 1024) <? size)%Z then Ok true
  else
    match readFile sys pdfPath with
    | Ok dataBuffer =>
        let pdfData := pdfParse dataBuffer (Some 0%Z) in
        if (Config.maxPagesPerChunk <? numpages pdfData)%Z then Ok true
        else Ok false
    | Throw _ => Ok true
    end).

(** Extract key sections from a PDF for metadata analysis. *)
Definition extractKeyPdfSections (pdfPath : string) : Exc (list PdfSection) :=
  bind (readFile sys pdfPath) (fun dataBuffer =>
  let hash := sha256hex sys dataBuffer in
  let options := if Config.extractFirstPageOnly then Some 1%Z else None in
  let pdfData := pdfParse dataBuffer options in
  Ok [ {| content := text pdfData;
          pageNumber := 1;
          sectionType := "full_page";
          source := pdfPath;
          hash := hash;
          pageCount := numpages pdfData |} ]).

(** The loop of [splitByPageRanges].  Every round moves [startPage]
    forward by [pagesPerChunk]; [fuel] bounds the number of rounds. *)
Fixpoint pageRanges (fuel : nat) (outputDir fileName : string)
    (pageCount pagesPerChunk startPage : Z) (chunks : list Chunk) : list Chunk :=
  match fuel with
  | O => chunks
  | S fuel' =>
      if (startPage <=? pageCount)%Z then
        let endPage := Z.min (startPage + pagesPerChunk - 1) pageCount in
        let chunkPath :=
          pathJoin sys outputDir
            (fileName +:+ "_" +:+ pretty startPage +:+ "-" +:+ pretty endPage
               +:+ ".pdf") in
        pageRanges fuel' outputDir fileName pageCount pagesPerChunk
          (startPage + pagesPerChunk)
          (chunks ++ [ {| path := chunkPath;
                          startPage := startPage;
                          endPage := endPage;
                          title := "Pages " +:+ pretty startPage +:+ "-"
                                     +:+ pretty endPage |} ])
      else chunks
  end.

(** Split PDF into chunks based on fixed page ranges; the chunks are
    added to [result].  With pages per chunk above zero the loop makes
    at most [pageCount] rounds. *)
Definition splitByPageRanges (pdfPath outputDir : string) (result : SplitPdfResult)
    : Exc SplitPdfResult :=
  bind (readFile sys pdfPath) (fun dataBuffer =>
  let pdfData := pdfParse dataBuffer (Some 0%Z) in
  let pageCount := numpages pdfData in
  let pagesPerChunk := Config.maxPagesPerChunk in
  let fileName := basename pdfPath (Some (extname pdfPath)) in
  Ok {| originalPath := originalPath result;
        chunks := pageRanges (Z.to_nat pageCount) outputDir fileName
                             pageCount pagesPerChunk 1 (chunks result) |}).

(** Split a large PDF into smaller chunks. *)
Definition splitPdfIntoChunks (pdfPath outputDir : string) : SplitPdfResult :=
  let result := {| originalPath := pdfPath; chunks := [] |} in
  let fileName := basename pdfPath (Some (extname pdfPath)) in
  let splitDir := pathJoin sys outputDir (fileName +:+ "_split") in
  match bind (mkdir sys splitDir)
             (fun _ => splitByPageRanges pdfPath splitDir result) with
  | Ok result => result
  | Throw _ => {| originalPath := pdfPath; chunks := [] |}
  end.

(** Extract metadata from key PDF sections using AI.  Reading the
    content of a missing first section throws, which is caught like
    every other failure. *)
Definition extractMetadataWithAI (sections : list PdfSection)
    : option DocumentMetadata :=
  match sections !! 0%nat with
  | Some mainSection =>
      match callModel sys Config.METADATA_EXTRACTION_MODEL
              (takeChars Config.maxMetadataTokens (content mainSection)) with
      | Ok result =>
          match parseJson sys result with
          | Ok metadata => metadata
          | Throw _ => Some ∅
          end
      | Throw _ => Some ∅
      end
  | None => Some ∅
  end.

(** Preprocess a PDF file before the main processing pipeline; returns
    the files to be processed. *)
Definition preprocessPdf (pdfPath outputDir : string) : list string :=
  match shouldSplitPdf pdfPath with
  | Ok needsSplitting =>
      if needsSplitting then
        let splitResult := splitPdfIntoChunks pdfPath outputDir in
        if (0 <? length (chunks splitResult))%nat
        then map path (chunks splitResult)
        else [pdfPath]
      else [pdfPath]
  | Throw _ => [pdfPath]
  end.

(** Extract key information from a PDF document. *)
Definition extractPdfInformation (pdfPath : string) : Exc PdfInformation :=
  bind (extractKeyPdfSections pdfPath) (fun sections =>
  let aiMetadata := extractMetadataWithAI sections in
  Ok {| sections := sections; metadata := aiMetadata |}).

(** [pdfInfo.metadata], as [extractMetadata] reads it. *)
Definition aiMetadataOf (pdfPath : string) : Exc (option DocumentMetadata) :=
  bind (extractPdfInformation pdfPath) (fun pdfInfo => Ok (metadata pdfInfo)).

End WithSys.

End PdfProcessor.

(** ** [src/seed.ts]: the loader of PDF files *)

Module EnhancedPDFLoader.

Import Seed.
Local Open Scope list_scope.

Definition largeWarning : string :=
  "Large PDF processed with limited content extraction".

(** The callback of [docs.forEach]. *)
Definition withWarning (doc : Document) : Document :=
  match metadata doc !! "warning" with
  | Some w =>
      if truthy w then doc
      else {| pageContent := pageContent doc;
              metadata := <["warning" := VStr largeWarning]> (metadata doc) |}
  | None =>
      {| pageContent := pageContent doc;
         metadata := <["warning" := VStr largeWarning]> (metadata doc) |}
  end.

(** The document that stands for a PDF that could not be loaded. *)
Definition errorDocument (sourcePath message : string) : Document :=
  {| pageContent := "Error loading document: " +:+ message;
     metadata := {[ "source" := VStr sourcePath; "error" := VStr message ]} |}.

Section Load.

Variable sys : PdfProcessor.Sys.
(** [PDFLoader.load] of the parent class *)
Variable superLoad : string -> Exc (list Document).

(** [load].  In the branch of a normal-sized PDF the promise of the
    parent's [load] is returned without being awaited, so that its
    rejection is not caught by the [try] block. *)
Definition load (sourcePath : string) : Exc (list Document) :=
  match PdfProcessor.shouldSplitPdf sys sourcePath with
  | Ok needsSplitting =>
      if needsSplitting then
        match superLoad sourcePath with
        | Ok docs => Ok (map withWarning docs)
        | Throw error => Ok [errorDocument sourcePath error]
        end
      else superLoad sourcePath
  | Throw error => Ok [errorDocument sourcePath error]
  end.

End Load.

End EnhancedPDFLoader.

(** ** [src/tools/operations/catalog_search.ts] *)

Module CatalogSearchTool.

Import Seed Tool.

Record CatalogSearchParams : Type := mkParams {
  text : string;
  project : option string;
  discipline : option string;
  drawingNumber : option string;
  drawingType : option string;
  phase : option string
}.

(** The callback of [results.filter]; the guard [!result.metadata]
    never holds. *)
Definition keeps (params : CatalogSearchParams) (result : Document) : bool :=
  if rejects (project params) (metadata result !! "project") then false
  else if rejects (discipline params) (metadata result !! "discipline") then false
  else if rejects (drawingNumber params) (metadata result !! "drawingNumber") then false
  else if rejects (drawingType params) (metadata result !! "drawingType") then false
  else if rejects (phase params) (metadata result !! "phase") then false
  else true.

Section Execute.

(** [catalogVectorStore.asRetriever({}).invoke], which throws when the
    store is unset, [JSON.stringify(_, null, 2)] and
    [BaseTool.handleError] *)
Variable retrieve : string -> Exc (list Document).
Variable stringify : list Document -> string.
Variable handleError : string -> Exc ToolResponse.

(** The list that is serialised into the response: filtered when some
    filter is given, all results otherwise. *)
Definition returnedResults (params : CatalogSearchParams) (results : list Document)
    : list Document :=
  if given (project params) || given (discipline params)
     || given (drawingNumber params) || given (drawingType params)
     || given (phase params)
  then filter (fun result => keeps params result = true) results
  else results.

Definition execute (params : CatalogSearchParams) : Exc ToolResponse :=
  match retrieve (text params) with
  | Ok results =>
      Ok {| content := [stringify (returnedResults params results)];
            isError := false |}
  | Throw error => handleError error
  end.

End Execute.

End CatalogSearchTool.

(** ** [src/utils/images/processor.ts] *)

Module ImageProcessor.

Import MetadataExtractor Seed.
Local Open Scope list_scope.










End ImageProcessor.

(** ** Further notions used to state the properties *)

Module Derived.

Import MetadataExtractor Seed Tool.
Local Open Scope list_scope.

(** The names of the fields that the path extractor can set. *)
Definition pathFields : list string :=
  ["drawingNumber"; "documentType"; "discipline"; "project";
   "buildingArea"; "sheetNumber"; "drawingType"].

(** The drawing types, by the hundreds of the sheet number. *)
Definition drawingTypes : list string :=
  ["General"; "Plans"; "Elevations"; "Sections"; "Details"; "Schedules";
   "Diagrams"].

(** The pages that a chunk of a split PDF stands for. *)
Definition pagesOf (chunk : PdfProcessor.Chunk) : list Z :=
  seqZ (PdfProcessor.startPage chunk)
       (PdfProcessor.endPage chunk - PdfProcessor.startPage chunk + 1).

(** The filters that a request to the catalog search and to the image
    search supplies. *)
Definition catalogFilters (params : CatalogSearchTool.CatalogSearchParams)
    : list (string * string) :=
  Spec.filtersOf [ ("project", CatalogSearchTool.project params);
                   ("discipline", CatalogSearchTool.discipline params);
                   ("drawingNumber", CatalogSearchTool.drawingNumber params);
                   ("drawingType", CatalogSearchTool.drawingType params);
                   ("phase", CatalogSearchTool.phase params) ].


(** The failures that [processDocuments] reports on the console. *)
Definition failures (log : list LogEntry) : list (string * string) :=
  omap (fun entry => match entry with
                     | LogError source e => Some (source, e)
                     | _ => None
                     end) log.

(** The sources whose processing the console reports, whatever the
    outcome; a skipped source is reported by its hash only. *)
Definition reported (log : list LogEntry) : list string :=
  omap (fun entry => match entry with
                     | LogExists _ => None
                     | LogOverview source _ => Some source
                     | LogError source _ => Some source
                     end) log.

End Derived.

(** ** Further examples *)

Module MoreExamples.

Import MetadataExtractor Seed.
Local Open Scope list_scope.

(** A folder in which every file is a copy of the same bytes. *)
Definition copies (loaded : list Document) : Env :=
  {| mkdirTemp := Ok tt;
     readFile := fun _ => Ok "%PDF-1.7 copy";
     sha256hex := Examples.digest;
     extractMetadata :=
       MetadataExtractor.extractMetadata (fun _ => ∅) (fun _ => Ok (Some ∅));
     generateContentOverview := fun _ => Ok "A construction document.";
     loadDirectory := Ok loaded;
     splitPieces := fun doc => [(pageContent doc, VLoc 1 1 1)];
     embedDocuments := fun _ => Ok tt |}.

Definition twoCopies : list Document :=
  [ Examples.page "/in/Drawings/S-46-1001.pdf" "SLAB ON GRADE";
    Examples.page "/in/Drawings/S-46-1001 (1).pdf" "SLAB ON GRADE" ].

(** A file system with a set of 45 sheets, a large file of two
    pages, a small file that [pdf-parse] rejects and a small readable
    file; any other path is missing.  The model answers [null] when it
    is shown the text of the large file and an empty object otherwise. *)
Definition setPath : string := "/in/Drawings/A-set.pdf".
Definition bigPath : string := "/in/Drawings/S-46-1001.pdf".
Definition corruptPath : string := "/in/TextDocs/scan.pdf".
Definition smallPath : string := "/in/TextDocs/Division 09 - Finishes.pdf".

Definition known (path : string) : bool :=
  String.eqb path setPath || String.eqb path bigPath
  || String.eqb path corruptPath || String.eqb path smallPath.

Definition pdfSys : PdfProcessor.Sys :=
  {| PdfProcessor.stat := fun path =>
       if String.eqb path bigPath then Ok 52428800%Z
       else if known path then Ok 4096%Z
       else Throw "ENOENT: no such file or directory";
     PdfProcessor.readFile := fun path =>
       if known path then Ok path
       else Throw "ENOENT: no such file or directory";
     PdfProcessor.pdfParseLib := fun dataBuffer _ =>
       if String.eqb dataBuffer setPath
       then Ok {| PdfProcessor.numpages := 45; PdfProcessor.text := "GENERAL NOTES" |}
       else if String.eqb dataBuffer corruptPath then Throw "bad XRef entry"
       else if String.eqb dataBuffer bigPath
       then Ok {| PdfProcessor.numpages := 2; PdfProcessor.text := "SLAB ON GRADE" |}
       else Ok {| PdfProcessor.numpages := 2; PdfProcessor.text := "PAINTING" |};
     PdfProcessor.sha256hex := Examples.digest;
     PdfProcessor.mkdir := fun _ => Ok tt;
     PdfProcessor.pathJoin := fun dir name => dir +:+ "/" +:+ name;
     PdfProcessor.callModel := fun _ sample =>
       if String.eqb sample "SLAB ON GRADE" then Ok "null" else Ok "{}";
     PdfProcessor.parseJson := fun answer =>
       if String.eqb answer "null" then Ok None
       else if String.eqb answer "{}" then Ok (Some ∅)
       else Throw "SyntaxError: Unexpected token" |}.

(** The loader of the parent class, which fails on the file that
    [pdf-parse] rejects and on missing files. *)
Definition pdfLoader (path : string) : Exc (list Document) :=
  if String.eqb path corruptPath || negb (known path)
  then Throw "Failed to load PDF"
  else Ok [Examples.page path "PAGE 1"; Examples.page path "PAGE 2"].

End MoreExamples.

(** ** Regular expressions, as far as the content patterns use them

    A backtracking matcher in the style of the ECMAScript
    specification: a pattern is run on a state with a continuation, and
    the first way of matching that the continuation accepts is the
    result.  The state holds the character before the current
    position, the rest of the input and the captures.  All patterns
    carry the [i] flag and none the [m], [s] or [u] flag; no capturing
    group stands inside a repeated pattern. *)

Module RegExp.

Local Open Scope list_scope.

Record MatchState : Type := mkMatchState {
  prev : option ascii;
  rest : string;
  captures : gmap nat string
}.

Inductive Regex : Type :=
| Eps
| Chr (test : ascii -> bool)
| Seq (r1 r2 : Regex)
| Alt (r1 r2 : Regex)
| Star (greedy : bool) (r : Regex)
| Group (n : nat) (r : Regex)
| End
| WordBoundary.

(** The text between two states of one run. *)
Definition consumed (x y : MatchState) : string :=
  takeChars (String.length (rest x) - String.length (rest y)) (rest x).

(** [\b] looks at the characters on both sides of the position. *)
Definition isWordChar (c : ascii) : bool :=
  let n := nat_of_ascii c in
  (((48 <=? n) && (n <=? 57)) || ((65 <=? n) && (n <=? 90))
   || ((97 <=? n) && (n <=? 122)) || (n =? 95))%nat.

Definition atWordBoundary (x : MatchState) : bool :=
  let a := match prev x with Some c => isWordChar c | None => false end in
  let b := match rest x with String c _ => isWordChar c | EmptyString => false end in
  xorb a b.

Definition orElse {A} (a b : option A) : option A :=
  match a with
  | Some _ => a
  | None => b
  end.

(** The repetition [r*] (greedy) and [r*?] (lazy) of a matcher [m]: a
    round that consumes nothing is not taken, so that every round
    shortens the rest of the input and [fuel], which starts above its
    length, does not run out. *)
Fixpoint repeatMatcher
    (m : MatchState -> (MatchState -> option MatchState) -> option MatchState)
    (greedy : bool) (c : MatchState -> option MatchState)
    (fuel : nat) (x : MatchState) : option MatchState :=
  match fuel with
  | O => None
  | S fuel' =>
      let again :=
        m x (fun y =>
               if (String.length (rest y) <? String.length (rest x))%nat
               then repeatMatcher m greedy c fuel' y
               else None) in
      if greedy then orElse again (c x) else orElse (c x) again
  end.

Fixpoint run (r : Regex) (x : MatchState)
    (c : MatchState -> option MatchState) : option MatchState :=
  match r with
  | Eps => c x
  | Chr test =>
      match rest x with
      | String ch s =>
          if test ch
          then c {| prev := Some ch; rest := s; captures := captures x |}
          else None
      | EmptyString => None
      end
  | Seq r1 r2 => run r1 x (fun y => run r2 y c)
  | Alt r1 r2 => orElse (run r1 x c) (run r2 x c)
  | Star greedy r' =>
      repeatMatcher (run r') greedy c (S (String.length (rest x))) x
  | Group n r' =>
      run r' x (fun y =>
                  c {| prev := prev y; rest := rest y;
                       captures := <[n := consumed x y]> (captures y) |})
  | End => if String.eqb (rest x) "" then c x else None
  | WordBoundary => if atWordBoundary x then c x else None
  end.

(** [str.match(regex)] for a pattern without the [g] flag: the match
    at the leftmost position that has one. *)
Fixpoint search (r : Regex) (before : option ascii) (s : string)
    : option MatchState :=
  match run r {| prev := before; rest := s; captures := ∅ |} Some with
  | Some y => Some y
  | None =>
      match s with
      | String ch s' => search r (Some ch) s'
      | EmptyString => None
      end
  end.

Definition exec (r : Regex) (s : string) : option MatchState := search r None s.

(** [match[n]] *)
Definition group (n : nat) (m : option MatchState) : option string :=
  match m with
  | Some y => captures y !! n
  | None => None
  end.

(** *** The pieces of the patterns *)

(** A character of a pattern under the [i] flag; the patterns are
    written in capitals. *)
Definition ci (c : ascii) : ascii -> bool := fun ch => Ascii.eqb (upperChar ch) c.

Fixpoint lit (s : string) : Regex :=
  match s with
  | EmptyString => Eps
  | String c s' => Seq (Chr (ci c)) (lit s')
  end.

Definition opt (r : Regex) : Regex := Alt r Eps.
Definition plus (r : Regex) : Regex := Seq r (Star true r).

(** [.], [\s], [\n], [[A-Z0-9]] and [[A-Z0-9\-\.]] *)
Definition isLineTerminator (c : ascii) : bool :=
  let n := nat_of_ascii c in ((n =? 10) || (n =? 13))%nat.

Definition isAlnum (c : ascii) : bool :=
  let n := nat_of_ascii (upperChar c) in
  (((48 <=? n) && (n <=? 57)) || ((65 <=? n) && (n <=? 90)))%nat.

Definition isNumberChar (c : ascii) : bool :=
  isAlnum c || Ascii.eqb c "-" || Ascii.eqb c ".".

Definition dot : Regex := Chr (fun c => negb (isLineTerminator c)).
Definition space : Regex := Chr isWhiteSpace.
Definition newline : Regex := Chr (fun c => (nat_of_ascii c =? 10)%nat).

(** [:?\s*(.*?)(?:\n|$)] with the group numbered [n] *)
Definition restOfLine (n : nat) : Regex :=
  Seq (opt (lit ":"))
      (Seq (Star true space)
           (Seq (Group n (Star false dot)) (Alt newline End))).

End RegExp.

(** ** [src/utils/metadata_extractor.ts]: metadata from the content *)

Module ContentExtractor.

Import RegExp MetadataExtractor.
Local Open Scope list_scope.

(** [s.trim()] *)
Fixpoint trimEnd (s : string) : string :=
  match s with
  | EmptyString => EmptyString
  | String c s' =>
      let r := trimEnd s' in
      if isWhiteSpace c && String.eqb r "" then EmptyString else String c r
  end.

Definition trim (s : string) : string := trimEnd (dropWhile isWhiteSpace s).

(** [/PROJECT:?\s*(.*?)(?:\n|$)/i], [/PROJECT\s+NAME:?\s*(.*?)(?:\n|$)/i]
    and [/PROJ(\.|ECT)?\s+TITLE:?\s*(.*?)(?:\n|$)/i] *)
Definition projectPattern : Regex :=
  Seq (lit "PROJECT") (restOfLine 1).

Definition projectNamePattern : Regex :=
  Seq (lit "PROJECT") (Seq (plus space) (Seq (lit "NAME") (restOfLine 1))).

Definition projectTitlePattern : Regex :=
  Seq (lit "PROJ")
      (Seq (opt (Group 1 (Alt (lit ".") (lit "ECT"))))
           (Seq (plus space) (Seq (lit "TITLE") (restOfLine 2)))).

(** [/PHASE:?\s*(.*?)(?:\n|$)/i], [/ISSUED\s+FOR\s+(.*?)(?:\n|$)/i] and
    [/STATUS:?\s*(.*?)(?:\n|$)/i] *)
Definition phasePattern : Regex :=
  Seq (lit "PHASE") (restOfLine 1).

Definition issuedForPattern : Regex :=
  Seq (lit "ISSUED")
      (Seq (plus space)
           (Seq (lit "FOR")
                (Seq (plus space)
                     (Seq (Group 1 (Star false dot)) (Alt newline End))))).

Definition statusPattern : Regex :=
  Seq (lit "STATUS") (restOfLine 1).

(** [/REV(ISION)?:?\s*([A-Z0-9]+)/i] and [/REV\.\s*([A-Z0-9]+)/i] *)
Definition revisionPattern : Regex :=
  Seq (lit "REV")
      (Seq (opt (Group 1 (lit "ISION")))
           (Seq (opt (lit ":"))
                (Seq (Star true space) (Group 2 (plus (Chr isAlnum)))))).

Definition revDotPattern : Regex :=
  Seq (lit "REV.") (Seq (Star true space) (Group 1 (plus (Chr isAlnum)))).

(** [/DISCIPLINE:?\s*(.*?)(?:\n|$)/i] and
    [/\b(STRUCTURAL|ARCHITECTURAL|MECHANICAL|ELECTRICAL|CIVIL|PLUMBING)\s+DRAWINGS?\b/i] *)
Definition disciplinePattern : Regex :=
  Seq (lit "DISCIPLINE") (restOfLine 1).

Definition disciplineWordPattern : Regex :=
  Seq WordBoundary
      (Seq (Group 1 (Alt (lit "STRUCTURAL")
                    (Alt (lit "ARCHITECTURAL")
                    (Alt (lit "MECHANICAL")
                    (Alt (lit "ELECTRICAL")
                    (Alt (lit "CIVIL") (lit "PLUMBING")))))))
           (Seq (plus space)
                (Seq (lit "DRAWING") (Seq (opt (lit "S")) WordBoundary)))).

(** [/\b(PLAN|ELEVATION|SECTION|DETAIL|SCHEDULE|DIAGRAM)\b/i] *)
Definition drawingTypePattern : Regex :=
  Seq WordBoundary
      (Seq (Group 1 (Alt (lit "PLAN")
                    (Alt (lit "ELEVATION")
                    (Alt (lit "SECTION")
                    (Alt (lit "DETAIL")
                    (Alt (lit "SCHEDULE") (lit "DIAGRAM")))))))
           WordBoundary).

(** [/DWG\.?\s*NO\.?:?\s*([A-Z0-9\-\.]+)/i] and
    [/DRAWING\s+NUMBER:?\s*([A-Z0-9\-\.]+)/i] *)
Definition dwgNoPattern : Regex :=
  Seq (lit "DWG")
      (Seq (opt (lit "."))
           (Seq (Star true space)
                (Seq (lit "NO")
                     (Seq (opt (lit "."))
                          (Seq (opt (lit ":"))
                               (Seq (Star true space)
                                    (Group 1 (plus (Chr isNumberChar))))))))).

Definition drawingNumberPattern : Regex :=
  Seq (lit "DRAWING")
      (Seq (plus space)
           (Seq (lit "NUMBER")
                (Seq (opt (lit ":"))
                     (Seq (Star true space)
                          (Group 1 (plus (Chr isNumberChar))))))).

(** [if (m && m[1]) metadata.key = m[1].trim()] *)
Definition setField (key : string) (m : option MatchState)
    (metadata : DocumentMetadata) : DocumentMetadata :=
  match group 1 m with
  | Some g =>
      if negb (String.eqb g "") then <[key := VStr (trim g)]> metadata
      else metadata
  | None => metadata
  end.

(** Extracts additional metadata from document content using pattern
    matching. *)
Definition extractMetadataFromContent (content : string) : DocumentMetadata :=
  let metadata : DocumentMetadata := ∅ in
  let projectMatch :=
    orElse (exec projectPattern content)
           (orElse (exec projectNamePattern content)
                   (exec projectTitlePattern content)) in
  let metadata := setField "project" projectMatch metadata in
  let phaseMatch :=
    orElse (exec phasePattern content)
           (orElse (exec issuedForPattern content)
                   (exec statusPattern content)) in
  let metadata := setField "phase" phaseMatch metadata in
  let revisionMatch :=
    orElse (exec revisionPattern content) (exec revDotPattern content) in
  let metadata := setField "revision" revisionMatch metadata in
  let metadata :=
    if negb (match metadata !! "discipline" with
             | Some v => truthy v
             | None => false
             end)
    then
      let disciplineMatch :=
        orElse (exec disciplinePattern content)
               (exec disciplineWordPattern content) in
      setField "discipline" disciplineMatch metadata
    else metadata in
  let drawingTypeMatch := exec drawingTypePattern content in
  let metadata := setField "drawingType" drawingTypeMatch metadata in
  let drawingNumberMatch :=
    orElse (exec dwgNoPattern content) (exec drawingNumberPattern content) in
  let metadata := setField "drawingNumber" drawingNumberMatch metadata in
  metadata.

End ContentExtractor.

(** ** What a pattern matches *)

Module RegExpSpec.

Import RegExp.

(** The states that a pattern leads to from a state, whatever the order
    in which the matcher tries them. *)
Fixpoint matches (r : Regex) (x y : MatchState) : Prop :=
  match r with
  | Eps => y = x
  | Chr test =>
      exists ch,
        rest x = String ch (rest y) /\ test ch = true
        /\ prev y = Some ch /\ captures y = captures x
  | Seq r1 r2 => exists m, matches r1 x m /\ matches r2 m y
  | Alt r1 r2 => matches r1 x y \/ matches r2 x y
  | Star _ r' => rtc (matches r') x y
  | Group n r' =>
      exists m,
        matches r' x m
        /\ y = {| prev := prev m; rest := rest m;
                  captures := <[n := consumed x m]> (captures m) |}
  | End => y = x /\ rest x = ""
  | WordBoundary => y = x /\ atWordBoundary x = true
  end.

(** The groups of a pattern. *)
Fixpoint groupsOf (r : Regex) : list nat :=
  match r with
  | Seq r1 r2 | Alt r1 r2 => groupsOf r1 ++ groupsOf r2
  | Star _ r' => groupsOf r'
  | Group n r' => n :: groupsOf r'
  | _ => []
  end.

(** A string occurs in another one, letter case ignored. *)
Fixpoint prefixCI (pattern s : string) : bool :=
  match pattern, s with
  | EmptyString, _ => true
  | String p pattern', String c s' =>
      Ascii.eqb (upperChar c) p && prefixCI pattern' s'
  | String _ _, EmptyString => false
  end.

Fixpoint includesCI (pattern s : string) : bool :=
  prefixCI pattern s ||
  match s with
  | EmptyString => false
  | String _ s' => includesCI pattern s'
  end.

(** A word does not start at any position of [before], in the text
    [before] followed by [s]. *)
Fixpoint noneBefore (word before s : string) : bool :=
  match before with
  | EmptyString => true
  | String c before' =>
      negb (prefixCI word (before +:+ s)) && noneBefore word before' s
  end.

(** The fields that the content extractor can set, and the words of
    its two word patterns. *)
Definition contentFields : list string :=
  ["project"; "phase"; "revision"; "discipline"; "drawingType";
   "drawingNumber"].

(** The match that each field is read from, in the order in which the
    fields are set. *)
Definition fieldMatches (content : string) : list (string * option MatchState) :=
  [ ("project",
     orElse (exec ContentExtractor.projectPattern content)
            (orElse (exec ContentExtractor.projectNamePattern content)
                    (exec ContentExtractor.projectTitlePattern content)));
    ("phase",
     orElse (exec ContentExtractor.phasePattern content)
            (orElse (exec ContentExtractor.issuedForPattern content)
                    (exec ContentExtractor.statusPattern content)));
    ("revision",
     orElse (exec ContentExtractor.revisionPattern content)
            (exec ContentExtractor.revDotPattern content));
    ("discipline",
     orElse (exec ContentExtractor.disciplinePattern content)
            (exec ContentExtractor.disciplineWordPattern content));
    ("drawingType", exec ContentExtractor.drawingTypePattern content);
    ("drawingNumber",
     orElse (exec ContentExtractor.dwgNoPattern content)
            (exec ContentExtractor.drawingNumberPattern content)) ].

Definition drawingTypeWords : list string :=
  ["PLAN"; "ELEVATION"; "SECTION"; "DETAIL"; "SCHEDULE"; "DIAGRAM"].

Definition disciplineWords : list string :=
  ["STRUCTURAL"; "ARCHITECTURAL"; "MECHANICAL"; "ELECTRICAL"; "CIVIL";
   "PLUMBING"].

End RegExpSpec.

(** * Properties *)

Import MetadataExtractor Seed Tool Client Spec.
Local Open Scope list_scope.

(** ** Metadata merge *)

Section MergeFacts.

Implicit Types (result source : DocumentMetadata) (key : string).

(** An assignment stores the value under every name but [__proto__]. *)
Lemma setProperty_lookup key value result k :
  setProperty key value result !! k
  = if String.eqb key "__proto__" then result !! k
    else if decide (key = k) then Some value else result !! k.
Proof.
  unfold setProperty. destruct (String.eqb key "__proto__"); [done|].
  destruct (decide (key = k)) as [->|Hne].
  - by rewrite lookup_insert_eq.
  - by rewrite lookup_insert_ne.
Qed.

Lemma setProperty_proto key value result :
  setProperty key value result !! "__proto__" = result !! "__proto__".
Proof.
  rewrite setProperty_lookup. destruct (String.eqb key "__proto__") eqn:E; [done|].
  apply String.eqb_neq in E. by rewrite decide_False.
Qed.

(** One source written over the accumulator, entry by entry. *)
Lemma entries_fold_lookup (entries : list (string * Value)) result key :
  NoDup entries.*1 ->
  key <> "__proto__" ->
  foldl (fun result '(key, value) =>
           if truthy value then setProperty key value result else result)
        result entries !! key
  = match truthyField key (list_to_map entries) with
    | Some v => Some v
    | None => result !! key
    end.
Proof.
  intros Hnd Hkey. revert result Hnd.
  induction entries as [|[k v] entries IH]; intros result Hnd.
  - reflexivity.
  - rewrite fmap_cons in Hnd. apply NoDup_cons in Hnd as [Hk Hnd].
    change ((k, v).1) with k in Hk.
    cbn [foldl]. rewrite IH by done.
    unfold truthyField. rewrite list_to_map_cons.
    destruct (decide (k = key)) as [->|Hne].
    + rewrite lookup_insert_eq.
      rewrite (not_elem_of_list_to_map_1 entries key Hk).
      destruct (truthy v); [|done].
      rewrite setProperty_lookup, (proj2 (String.eqb_neq _ _) Hkey).
      by rewrite decide_True.
    + rewrite (lookup_insert_ne _ k key) by done.
      assert ((if truthy v then setProperty k v result else result) !! key
              = result !! key) as Hsame.
      { destruct (truthy v); [|done]. rewrite setProperty_lookup.
        destruct (String.eqb k "__proto__"); [done|]. by rewrite decide_False. }
      destruct (list_to_map entries !! key) as [w|] eqn:E.
      * by destruct (truthy w).
      * done.
Qed.

Lemma entries_fold_proto (entries : list (string * Value)) result :
  foldl (fun result '(key, value) =>
           if truthy value then setProperty key value result else result)
        result entries !! "__proto__"
  = result !! "__proto__".
Proof.
  revert result. induction entries as [|[k v] entries IH]; intros result; [done|].
  cbn [foldl]. rewrite IH. destruct (truthy v); [|done]. apply setProperty_proto.
Qed.

Lemma source_fold_lookup source result key :
  key <> "__proto__" ->
  foldl (fun result '(key, value) =>
           if truthy value then setProperty key value result else result)
        result (map_to_list source) !! key
  = match truthyField key source with
    | Some v => Some v
    | None => result !! key
    end.
Proof.
  intros Hkey. rewrite entries_fold_lookup; [|apply NoDup_fst_map_to_list|done].
  by rewrite list_to_map_to_list.
Qed.

Lemma merge_fold_lookup (sources : list DocumentMetadata) result key :
  key <> "__proto__" ->
  foldl (fun result source =>
           foldl (fun result '(key, value) =>
                    if truthy value then setProperty key value result else result)
                 result (map_to_list source))
        result sources !! key
  = match lastTruthy key sources with
    | Some v => Some v
    | None => result !! key
    end.
Proof.
  intros Hkey. revert result.
  induction sources as [|source sources IH]; intros result.
  - reflexivity.
  - cbn [foldl]. rewrite IH, source_fold_lookup by done. unfold lastTruthy.
    cbn [omap list_omap]. destruct (truthyField key source) as [v|].
    + rewrite last_cons. by destruct (last _).
    + done.
Qed.

(** The merge of any list of sources, field by field. *)
Lemma mergeMetadata_lookup (sources : list DocumentMetadata) key :
  key <> "__proto__" ->
  mergeMetadata sources !! key = lastTruthy key sources.
Proof.
  intros Hkey. unfold mergeMetadata. rewrite merge_fold_lookup by done.
  rewrite lookup_empty. by destruct (lastTruthy key sources).
Qed.

(** The merge never has a field called [__proto__]. *)
Lemma mergeMetadata_proto (sources : list DocumentMetadata) :
  mergeMetadata sources !! "__proto__" = None.
Proof.
  unfold mergeMetadata.
  assert (forall result : DocumentMetadata,
            foldl (fun result source =>
                     foldl (fun result '(key, value) =>
                              if truthy value then setProperty key value result
                              else result)
                           result (map_to_list source))
                  result sources !! "__proto__"
            = result !! "__proto__") as H.
  { induction sources as [|source sources IH]; intros result; [done|].
    cbn [foldl]. rewrite IH. apply entries_fold_proto. }
  by rewrite H.
Qed.

(** The call site: [extractMetadata] merges the content-derived, the
    path-derived and the AI-derived metadata, in this order. *)
Lemma extractMetadata_order
    (extractMetadataFromContent : string -> DocumentMetadata)
    (extractPdfInformation : string -> Exc (option DocumentMetadata))
    (filePath : string) (content : option string) (md : DocumentMetadata) :
  MetadataExtractor.extractMetadata
    extractMetadataFromContent extractPdfInformation filePath content = Ok md ->
  exists contentMetadata aiMetadata,
    md = mergeMetadata
           [contentMetadata; extractMetadataFromPath filePath; aiMetadata]
    /\ (forall key, key <> "__proto__" ->
           md !! key
           = lastTruthy key [contentMetadata;
                             extractMetadataFromPath filePath;
                             aiMetadata]).
Proof.
  unfold MetadataExtractor.extractMetadata.
  set (contentMetadata := match content with Some _ => _ | None => _ end).
  destruct (if endsWith _ _ then _ else _) as [ai|]; [|done].
  intros [= <-]. exists contentMetadata, ai. split; [done|].
  intros key Hkey. by apply mergeMetadata_lookup.
Qed.

End MergeFacts.

(** C1 as stated fails for a field called [__proto__], which the
    AI-derived source has whenever the answer of the model spells it:
    the field is truthy in that source, the last one, and the merge
    does not have it. *)
Lemma mergeMetadata_proto_counterexample :
  let content : DocumentMetadata := {[ "discipline" := VStr "General" ]} in
  let path : DocumentMetadata := {[ "discipline" := VStr "Structural" ]} in
  let ai : DocumentMetadata :=
    {[ "__proto__" := VStr "Electrical"; "discipline" := VStr "Civil" ]} in
  ai !! "__proto__" = Some (VStr "Electrical")
  /\ truthy (VStr "Electrical") = true
  /\ lastTruthy "__proto__" [content; path; ai] = Some (VStr "Electrical")
  /\ mergeMetadata [content; path; ai] !! "__proto__" = None
  /\ mergeMetadata [content; path; ai] = {[ "discipline" := VStr "Civil" ]}.
Proof.
  intros content path ai. split; [reflexivity|]. split; [reflexivity|].
  split; [reflexivity|]. split; [apply mergeMetadata_proto|].
  apply map_eq. intros key.
  destruct (decide (key = "__proto__")) as [->|Hkey].
  - by rewrite mergeMetadata_proto.
  - rewrite mergeMetadata_lookup by done.
    unfold lastTruthy, truthyField. cbn [omap list_omap].
    subst content path ai.
    destruct (decide (key = "discipline")) as [->|Hne]; [reflexivity|].
    rewrite !lookup_insert_ne by done.
    rewrite !lookup_singleton_ne by done. reflexivity.
Qed.

(** C1, amended. For the three sources in the order content-derived,
    path-derived, AI-derived, every field of the merge other than
    [__proto__] is the value of the last source in which the field is
    truthy, and the merge never has a field called [__proto__].  With
    the disciplines General, Structural, Electrical the merge has
    Electrical; when the AI source has no discipline the merge has the
    (truthy) discipline of the path source. *)
Theorem mergeMetadata_priority :
  (forall (content path ai : DocumentMetadata) (key : string),
     key <> "__proto__" ->
     mergeMetadata [content; path; ai] !! key
     = lastTruthy key [content; path; ai])
  /\ (forall content path ai : DocumentMetadata,
        mergeMetadata [content; path; ai] !! "__proto__" = None)
  /\ mergeMetadata [ {["discipline" := VStr "General"]};
                     {["discipline" := VStr "Structural"]};
                     {["discipline" := VStr "Electrical"]} ] !! "discipline"
     = Some (VStr "Electrical")
  /\ (forall (content path ai : DocumentMetadata) (v : Value),
        ai !! "discipline" = None ->
        path !! "discipline" = Some v ->
        truthy v = true ->
        mergeMetadata [content; path; ai] !! "discipline" = Some v).
Proof.
  split; [|split; [|split]].
  - intros. by apply mergeMetadata_lookup.
  - intros. apply mergeMetadata_proto.
  - by rewrite mergeMetadata_lookup.
  - intros content path ai v Hai Hpath Hv. rewrite mergeMetadata_lookup by done.
    assert (truthyField "discipline" ai = None) as Ea
      by (unfold truthyField; by rewrite Hai).
    assert (truthyField "discipline" path = Some v) as Ep
      by (unfold truthyField; by rewrite Hpath, Hv).
    unfold lastTruthy. cbn [omap list_omap]. rewrite Ea, Ep.
    by destruct (truthyField _ content).
Qed.

Lemma mergeMetadata_priority_witness :
  mergeMetadata [ {["discipline" := VStr "General"]};
                  {["discipline" := VStr "Structural"]};
                  {["phase" := VStr "Bid"]} ] !! "discipline"
  = Some (VStr "Structural").
Proof.
  destruct mergeMetadata_priority as (_ & _ & _ & H).
  apply H; reflexivity.
Defined.

(** ** Path-derived metadata *)

Section PathFacts.

Implicit Types (metadata : DocumentMetadata) (key : string).

Lemma assign_lookup_ne key key' (value : option Value) metadata :
  key <> key' -> assign key value metadata !! key' = metadata !! key'.
Proof.
  intros Hne. unfold assign. destruct value.
  - by rewrite lookup_insert_ne.
  - by rewrite lookup_delete_ne.
Qed.

Lemma assign_lookup_eq key (value : option Value) metadata :
  assign key value metadata !! key = value.
Proof.
  unfold assign. destruct value.
  - by rewrite lookup_insert_eq.
  - by rewrite lookup_delete_eq.
Qed.

(** The project block writes the [project] field only. *)
Lemma withProject_lookup_ne pathParts metadata key :
  key <> "project" ->
  withProject pathParts metadata !! key = metadata !! key.
Proof.
  intros Hne. unfold withProject.
  repeat case_match; rewrite ?assign_lookup_ne by done;
    by rewrite lookup_insert_ne.
Qed.

(** The drawing block leaves the [project] field alone. *)
Lemma withDrawingNumber_lookup_project drawingNumber metadata :
  withDrawingNumber drawingNumber metadata !! "project" = metadata !! "project".
Proof.
  unfold withDrawingNumber.
  repeat case_match;
    rewrite ?lookup_insert_ne, ?assign_lookup_ne by done; done.
Qed.

Lemma withDocumentType_drawing normalizedPath filename metadata :
  includes "/Drawings/" normalizedPath = true ->
  withDocumentType normalizedPath filename metadata
  = <["documentType" := VStr "Drawing"]> metadata.
Proof. intros H. unfold withDocumentType. by rewrite H. Qed.

(** The metadata on which the drawing block runs, for a path with a
    Drawings folder. *)
Lemma drawing_block_input filePath :
  includes "/Drawings/" (normalizePath filePath) = true ->
  exists metadata,
    extractMetadataFromPath filePath = withDrawingNumber (stem filePath) metadata
    /\ metadata !! "documentType" = Some (VStr "Drawing")
    /\ metadata !! "discipline" = None
    /\ metadata !! "buildingArea" = None
    /\ metadata !! "sheetNumber" = None
    /\ metadata !! "drawingType" = None.
Proof.
  intros H. eexists. split; [reflexivity|].
  rewrite !withProject_lookup_ne by done.
  rewrite withDocumentType_drawing by done.
  repeat split; by simplify_map_eq.
Qed.

(** [findIndex] stops at the first element that satisfies the test. *)
Lemma findIndex_first {A} (pred : A -> bool) (pre : list A) x rest :
  Forall (fun y => pred y = false) pre -> pred x = true ->
  findIndex pred (pre ++ x :: rest) = Some (length pre).
Proof.
  intros Hpre Hx. induction Hpre as [|y pre Hy _ IH]; cbn.
  - by rewrite Hx.
  - by rewrite Hy, IH.
Qed.

Lemma findIndex_Some {A} (pred : A -> bool) (l : list A) i :
  findIndex pred l = Some i ->
  exists x, l !! i = Some x /\ pred x = true.
Proof.
  revert i. induction l as [|y l IH]; intros i; cbn; [done|].
  destruct (pred y) eqn:Hy.
  - intros [= <-]. eauto.
  - destruct (findIndex pred l) as [j|]; [|done].
    intros [= <-]. apply (IH j). done.
Qed.

Lemma namesProjects_not_root part :
  namesProjects part = true -> namesRoot part = false.
Proof.
  unfold namesProjects, namesRoot.
  intros [H|H]%orb_true_iff; apply String.eqb_eq in H; by rewrite H.
Qed.

Lemma isProjectFolder_split part :
  isProjectFolder part = namesProjects part || namesRoot part.
Proof. reflexivity. Qed.

(** The project block, when the first project-like segment is named
    "projects" or "project" and has a successor. *)
Lemma withProject_override pre seg next rest metadata :
  Forall (fun p => isProjectFolder p = false) pre ->
  namesProjects seg = true ->
  withProject (pre ++ seg :: next :: rest) metadata !! "project"
  = Some (VStr next).
Proof.
  intros Hpre Hseg. unfold withProject.
  rewrite findIndex_first; [|done|by rewrite isProjectFolder_split, Hseg].
  assert (length pre + 1 < length (pre ++ seg :: next :: rest))%nat as Hlt
    by (rewrite length_app; cbn; lia).
  apply Nat.ltb_lt in Hlt. rewrite Hlt.
  rewrite (list_lookup_middle pre (next :: rest) seg (length pre) eq_refl).
  cbn [default from_option id]. apply namesProjects_not_root in Hseg.
  unfold namesRoot in Hseg. rewrite Hseg. cbn [negb].
  replace (pre ++ seg :: next :: rest) with ((pre ++ [seg]) ++ next :: rest)
    by by rewrite <- app_assoc.
  rewrite (list_lookup_middle (pre ++ [seg]) rest next)
    by (rewrite length_app; cbn; lia).
  apply assign_lookup_eq.
Qed.

(** The project block, when the first project-like segment is the
    application's root folder. *)
Lemma withProject_root pre seg rest metadata :
  Forall (fun p => isProjectFolder p = false) pre ->
  namesRoot seg = true ->
  withProject (pre ++ seg :: rest) metadata !! "project"
  = Some (VStr "PDFdrawings").
Proof.
  intros Hpre Hseg. unfold withProject.
  rewrite findIndex_first;
    [|done|by rewrite isProjectFolder_split, Hseg, orb_true_r].
  rewrite (list_lookup_middle pre rest seg (length pre) eq_refl).
  cbn [default from_option id]. unfold namesRoot in Hseg. rewrite Hseg. cbn [negb].
  destruct (_ <? _)%nat; by rewrite lookup_insert_eq.
Qed.

(** The project block, when no segment with a successor is named
    "projects" or "project". *)
Lemma withProject_default pathParts metadata :
  (forall pre seg next rest,
     pathParts = pre ++ seg :: next :: rest -> namesProjects seg = false) ->
  withProject pathParts metadata !! "project" = Some (VStr "PDFdrawings").
Proof.
  intros Hnone. unfold withProject.
  destruct (findIndex isProjectFolder pathParts) as [i|] eqn:Hi;
    [|by rewrite lookup_insert_eq].
  destruct (i + 1 <? length pathParts)%nat eqn:Hlt;
    [|by rewrite lookup_insert_eq].
  apply Nat.ltb_lt in Hlt.
  apply findIndex_Some in Hi as (seg & Hseg & Hp).
  rewrite Hseg. cbn [default from_option id].
  destruct (String.eqb (toLowerCase seg) "pdfdrawings-mcp") eqn:Hroot;
    cbn [negb]; [by rewrite lookup_insert_eq|].
  exfalso.
  destruct (lookup_lt_is_Some_2 pathParts (i + 1)%nat Hlt) as [next Hnext].
  rewrite isProjectFolder_split in Hp. unfold namesRoot in Hp.
  rewrite Hroot, orb_false_r in Hp.
  rewrite (Hnone (take i pathParts) seg next (drop (S (S i)) pathParts)) in Hp;
    [done|].
  rewrite <- (take_drop_middle pathParts i seg Hseg) at 1. f_equal. f_equal.
  replace (i + 1)%nat with (S i) in Hnext by lia.
  by rewrite (drop_S _ next (S i)).
Qed.

(** The fields that the path extractor can set. *)
Lemma withDocumentType_lookup_other normalizedPath filename metadata key :
  key <> "documentType" -> key <> "discipline" ->
  withDocumentType normalizedPath filename metadata !! key = metadata !! key.
Proof.
  intros H1 H2. unfold withDocumentType.
  repeat case_match; by rewrite ?lookup_insert_ne by done.
Qed.

Lemma withDrawingNumber_lookup_other drawingNumber metadata key :
  key <> "discipline" -> key <> "buildingArea" ->
  key <> "sheetNumber" -> key <> "drawingType" ->
  withDrawingNumber drawingNumber metadata !! key = metadata !! key.
Proof.
  intros H1 H2 H3 H4. unfold withDrawingNumber.
  repeat case_match;
    rewrite ?lookup_insert_ne, ?assign_lookup_ne by done; done.
Qed.

Lemma extractMetadataFromPath_lacks filePath key :
  key ∉ ["drawingNumber"; "documentType"; "discipline"; "project";
         "buildingArea"; "sheetNumber"; "drawingType"] ->
  extractMetadataFromPath filePath !! key = None.
Proof.
  intros Hkey. unfold extractMetadataFromPath.
  rewrite withDrawingNumber_lookup_other, withProject_lookup_ne,
    withDocumentType_lookup_other, lookup_insert_ne;
    [done | | | | | | | |]; intros Heq; apply Hkey; rewrite Heq; set_solver.
Qed.

(** The metadata of [extractMetadata] has a field only if one of the
    three extractors yields it. *)
Lemma extractMetadata_lacks
    (extractMetadataFromContent : string -> DocumentMetadata)
    (extractPdfInformation : string -> Exc (option DocumentMetadata))
    (key : string) :
  key ∉ ["drawingNumber"; "documentType"; "discipline"; "project";
         "buildingArea"; "sheetNumber"; "drawingType"] ->
  (forall c, extractMetadataFromContent c !! key = None) ->
  (forall f ai, extractPdfInformation f = Ok (Some ai) -> ai !! key = None) ->
  forall filePath content md,
    MetadataExtractor.extractMetadata
      extractMetadataFromContent extractPdfInformation filePath content
    = Ok md ->
    md !! key = None.
Proof.
  intros Hkey Hcontent Hai filePath content md.
  unfold MetadataExtractor.extractMetadata.
  set (contentMetadata := match content with Some _ => _ | None => _ end).
  assert (contentMetadata !! key = None) as Hc.
  { subst contentMetadata. destruct content as [c|]; [|done].
    by destruct (negb _). }
  set (aiMetadata := if endsWith _ _ then _ else _).
  assert (forall ai, aiMetadata = Some ai -> ai !! key = None) as Ha.
  { subst aiMetadata. intros ai. destruct (endsWith _ _); [|by intros [= <-]].
    destruct (extractPdfInformation filePath) as [o|] eqn:E;
      [intros ->; by eapply Hai | by intros [= <-]]. }
  destruct aiMetadata as [ai|]; [|done]. intros [= <-].
  destruct (decide (key = "__proto__")) as [->|Hproto];
    [apply mergeMetadata_proto|].
  rewrite mergeMetadata_lookup by done. unfold lastTruthy, truthyField.
  cbn [omap list_omap].
  by rewrite Hc, (extractMetadataFromPath_lacks filePath key Hkey), (Ha ai eq_refl).
Qed.

End PathFacts.

(** The Finishes branch of the division table can never be taken: a
    division number equal to 9 has already been answered by the
    1-14 range. *)
Lemma getSpecificationDiscipline_never_Finishes divisionNumber :
  getSpecificationDiscipline divisionNumber <> "Finishes".
Proof.
  unfold getSpecificationDiscipline.
  destruct (parseInt divisionNumber) as [n|]; cbn [numGe numLe numEq]; [|done].
  repeat case_match; try done.
  apply Z.eqb_eq in H3. subst n. done.
Qed.

Section DivisionFacts.

Implicit Types (metadata : DocumentMetadata) (s ws ds rest : string).

Lemma takeWhile_app f s1 s2 :
  allChars f s1 = true ->
  takeWhile f (s1 +:+ s2) = s1 +:+ takeWhile f s2.
Proof.
  induction s1 as [|c s1 IH]; [done|].
  intros [Hc H]%andb_true_iff.
  change (String c s1 +:+ s2) with (String c (s1 +:+ s2)).
  cbn [takeWhile]. by rewrite Hc, IH.
Qed.

Lemma dropWhile_app f s1 s2 :
  allChars f s1 = true ->
  dropWhile f (s1 +:+ s2) = dropWhile f s2.
Proof.
  induction s1 as [|c s1 IH]; [done|].
  intros [Hc H]%andb_true_iff.
  change (String c s1 +:+ s2) with (String c (s1 +:+ s2)).
  cbn [dropWhile]. by rewrite Hc, IH.
Qed.

Lemma isDigit_not_isWhiteSpace c : isDigit c = true -> isWhiteSpace c = false.
Proof. destruct c as [[] [] [] [] [] [] [] []]; by vm_compute. Qed.

Lemma takeWhile_isWhiteSpace_digits ds rest :
  allChars isDigit ds = true -> ds <> "" ->
  takeWhile isWhiteSpace (ds +:+ rest) = ""
  /\ dropWhile isWhiteSpace (ds +:+ rest) = ds +:+ rest.
Proof.
  destruct ds as [|c ds]; [done|].
  intros [Hc _]%andb_true_iff _.
  change (String c ds +:+ rest) with (String c (ds +:+ rest)).
  cbn [takeWhile dropWhile]. by rewrite (isDigit_not_isWhiteSpace c Hc).
Qed.

Lemma app_empty_r s : s +:+ "" = s.
Proof.
  induction s as [|c s IH]; [done|].
  change (String c s +:+ "") with (String c (s +:+ "")). by rewrite IH.
Qed.

Lemma app_nonempty s1 s2 : s1 <> "" -> s1 +:+ s2 <> "".
Proof. by destruct s1. Qed.

Lemma matchDivision_unfold s :
  matchDivision s
  = match matchDivisionAt s with
    | Some ds => Some ds
    | None => match s with
              | EmptyString => None
              | String _ s' => matchDivision s'
              end
    end.
Proof. by destruct s. Qed.

(** The regular expression on a file name that opens with the word
    Division, white space and a number: the capture is the number. *)
Lemma matchDivision_leading ws ds rest :
  allChars isWhiteSpace ws = true -> ws <> "" ->
  allChars isDigit ds = true -> ds <> "" ->
  takeWhile isDigit rest = "" ->
  matchDivision ("Division" +:+ ws +:+ ds +:+ rest) = Some ds.
Proof.
  intros Hws Hws' Hds Hds' Hrest.
  rewrite matchDivision_unfold.
  assert (matchDivisionAt ("Division" +:+ ws +:+ ds +:+ rest) = Some ds) as ->;
    [|done].
  unfold matchDivisionAt.
  change (stripPrefixCI "division" ("Division" +:+ ws +:+ ds +:+ rest))
    with (Some (ws +:+ ds +:+ rest)).
  destruct (takeWhile_isWhiteSpace_digits ds rest Hds Hds') as [Ht Hd].
  rewrite takeWhile_app, dropWhile_app, Ht, Hd, app_empty_r by done.
  apply String.eqb_neq in Hws' as ->.
  rewrite takeWhile_app, Hrest, app_empty_r by done.
  by apply String.eqb_neq in Hds' as ->.
Qed.

Lemma getSpecificationDiscipline_9 ds :
  parseInt ds = Some 9%Z -> getSpecificationDiscipline ds = "Architectural".
Proof. intros H. unfold getSpecificationDiscipline. by rewrite H. Qed.

Lemma withDrawingNumber_not_drawing drawingNumber metadata :
  metadata !! "documentType" <> Some (VStr "Drawing") ->
  withDrawingNumber drawingNumber metadata = metadata.
Proof.
  intros H. unfold withDrawingNumber.
  by rewrite (bool_decide_eq_false_2 _ H), andb_false_r.
Qed.

(** The metadata of a file of the TextDocs folder whose name starts
    with Division. *)
Lemma specification_metadata filePath :
  includes "/Drawings/" (normalizePath filePath) = false ->
  includes "/TextDocs/" (normalizePath filePath) = true ->
  startsWith "Division" (basename (normalizePath filePath) None) = true ->
  extractMetadataFromPath filePath !! "documentType" = Some (VStr "Specification")
  /\ extractMetadataFromPath filePath !! "discipline"
     = (fun d => VStr (getSpecificationDiscipline d))
         <$> matchDivision (basename (normalizePath filePath) None).
Proof.
  intros Hd Ht Hs. unfold extractMetadataFromPath.
  set (m := withProject _ _).
  assert (m !! "documentType" = Some (VStr "Specification")
          /\ m !! "discipline"
             = (fun d => VStr (getSpecificationDiscipline d))
                 <$> matchDivision (basename (normalizePath filePath) None))
    as [Hdoc Hdisc].
  { subst m. rewrite !withProject_lookup_ne by done.
    unfold withDocumentType. rewrite Hd, Ht, Hs.
    destruct (matchDivision _); split; by simplify_map_eq. }
  rewrite withDrawingNumber_not_drawing by (rewrite Hdoc; congruence).
  done.
Qed.

End DivisionFacts.

(** C3. A specification in the TextDocs folder whose file name starts
    with "Division 09" or "Division 9" is classified as a Specification,
    but its discipline comes out as Architectural, not Finishes.  This
    holds of every path with a TextDocs folder and no Drawings folder
    whose file name opens with Division, white space and a number that
    reads as 9; and no division number at all is mapped to Finishes. *)
Theorem division_9_discipline :
  extractMetadataFromPath
    "/Users/pm/Desktop/PDFdrawings-MCP/InputDocs/TextDocs/Division 09 - Finishes.pdf"
    !! "documentType" = Some (VStr "Specification")
  /\ extractMetadataFromPath
    "/Users/pm/Desktop/PDFdrawings-MCP/InputDocs/TextDocs/Division 09 - Finishes.pdf"
    !! "discipline" = Some (VStr "Architectural")
  /\ extractMetadataFromPath
    "/Users/pm/Desktop/PDFdrawings-MCP/InputDocs/TextDocs/Division 9 - Painting.pdf"
    !! "discipline" = Some (VStr "Architectural")
  /\ (forall filePath ws ds rest : string,
        includes "/Drawings/" (normalizePath filePath) = false ->
        includes "/TextDocs/" (normalizePath filePath) = true ->
        basename (normalizePath filePath) None = "Division" +:+ ws +:+ ds +:+ rest ->
        allChars isWhiteSpace ws = true -> ws <> "" ->
        allChars isDigit ds = true -> ds <> "" ->
        takeWhile isDigit rest = "" ->
        parseInt ds = Some 9%Z ->
        extractMetadataFromPath filePath !! "documentType"
        = Some (VStr "Specification")
        /\ extractMetadataFromPath filePath !! "discipline"
           = Some (VStr "Architectural"))
  /\ (forall divisionNumber : string,
        getSpecificationDiscipline divisionNumber <> "Finishes").
Proof.
  split; [by vm_compute|]. split; [by vm_compute|]. split; [by vm_compute|].
  split; [|apply getSpecificationDiscipline_never_Finishes].
  intros filePath ws ds rest Hd Ht Hname Hws Hws' Hds Hds' Hrest H9.
  destruct (specification_metadata filePath Hd Ht) as [Hdoc Hdisc].
  { rewrite Hname. by destruct (ws +:+ ds +:+ rest). }
  split; [done|].
  rewrite Hdisc, Hname, matchDivision_leading by done.
  cbn. by rewrite getSpecificationDiscipline_9.
Qed.

Lemma division_9_discipline_witness :
  extractMetadataFromPath "/in/TextDocs/Division  009_Finishes.pdf"
    !! "discipline" = Some (VStr "Architectural").
Proof.
  destruct division_9_discipline as (_ & _ & _ & H & _).
  apply (H "/in/TextDocs/Division  009_Finishes.pdf" "  " "009" "_Finishes.pdf");
    try reflexivity; done.
Defined.

Section DrawingFacts.

Implicit Types (metadata : DocumentMetadata).

Lemma withDrawingNumber_S_46_1001 metadata :
  metadata !! "documentType" = Some (VStr "Drawing") ->
  withDrawingNumber "S-46-1001" metadata
  = <["sheetNumber" := VStr "1001"]>
      (<["buildingArea" := VStr "46"]>
         (<["discipline" := VStr "Structural"]> metadata)).
Proof.
  intros H. unfold withDrawingNumber.
  rewrite (bool_decide_eq_true_2 _ H). reflexivity.
Qed.

Lemma split_third_nonempty (sep : ascii) (s third : string) :
  split sep s !! 2%nat = Some third -> s <> "".
Proof. by intros H ->. Qed.

Lemma withDrawingNumber_sheet_150 drawingNumber metadata :
  metadata !! "documentType" = Some (VStr "Drawing") ->
  split "-" drawingNumber !! 2%nat = Some "150" ->
  withDrawingNumber drawingNumber metadata !! "drawingType"
  = Some (VStr "Plans").
Proof.
  intros Hdoc Hthird. unfold withDrawingNumber.
  rewrite (bool_decide_eq_true_2 _ Hdoc).
  pose proof (split_third_nonempty _ _ _ Hthird) as Hne.
  apply String.eqb_neq in Hne. rewrite Hne. cbn [negb andb].
  apply lookup_lt_Some in Hthird as Hlen.
  assert ((1 <? length (split "-" drawingNumber))%nat = true) as ->
    by (apply Nat.ltb_lt; lia).
  rewrite Hthird. cbn [String.eqb Ascii.eqb Bool.eqb negb].
  change (sheetBand (parseInt "150")) with (Some "Plans").
  cbv iota. by rewrite lookup_insert_eq.
Qed.

End DrawingFacts.

(** C4. For a path with a Drawings folder whose file name without
    extension is S-46-1001, the path-derived metadata has discipline
    Structural, building area 46, sheet number 1001 and no drawing
    type; when the third hyphen-separated part of the name is 150 the
    drawing type is Plans. *)
Theorem drawing_number_decoding :
  (forall filePath : string,
     includes "/Drawings/" (normalizePath filePath) = true ->
     stem filePath = "S-46-1001" ->
     extractMetadataFromPath filePath !! "discipline" = Some (VStr "Structural")
     /\ extractMetadataFromPath filePath !! "buildingArea" = Some (VStr "46")
     /\ extractMetadataFromPath filePath !! "sheetNumber" = Some (VStr "1001")
     /\ extractMetadataFromPath filePath !! "drawingType" = None)
  /\ (forall filePath : string,
        includes "/Drawings/" (normalizePath filePath) = true ->
        split "-" (stem filePath) !! 2%nat = Some "150" ->
        extractMetadataFromPath filePath !! "drawingType" = Some (VStr "Plans")).
Proof.
  split.
  - intros filePath Hdir Hstem.
    destruct (drawing_block_input filePath Hdir)
      as (metadata & -> & Hdoc & Hdisc & Harea & Hsheet & Htype).
    rewrite Hstem, withDrawingNumber_S_46_1001 by done.
    repeat split; by simplify_map_eq.
  - intros filePath Hdir Hthird.
    destruct (drawing_block_input filePath Hdir) as (metadata & -> & Hdoc & _).
    by apply withDrawingNumber_sheet_150.
Qed.

Lemma drawing_number_decoding_witness :
  (extractMetadataFromPath
     "/Users/pm/Desktop/PDFdrawings-MCP/InputDocs/Drawings/S-46-1001.pdf"
     !! "sheetNumber" = Some (VStr "1001")
   /\ extractMetadataFromPath
     "/Users/pm/Desktop/PDFdrawings-MCP/InputDocs/Drawings/S-46-1001.pdf"
     !! "drawingType" = None)
  /\ extractMetadataFromPath
     "/Users/pm/Desktop/PDFdrawings-MCP/InputDocs/Drawings/A-12-150.pdf"
     !! "drawingType" = Some (VStr "Plans").
Proof.
  destruct drawing_number_decoding as [H1 H2]. split.
  - destruct (H1 "/Users/pm/Desktop/PDFdrawings-MCP/InputDocs/Drawings/S-46-1001.pdf")
      as (_ & _ & Hs & Ht); [reflexivity | reflexivity |].
    split; [exact Hs | exact Ht].
  - apply H2; reflexivity.
Defined.

(** C8. The project of the path-derived metadata.  When the first
    segment of the normalised path that is named like a project folder
    is "projects" or "project" (in any case) and another segment
    follows it, the project is that next segment; when that first
    segment is the application's root folder name the project stays
    "PDFdrawings"; and when no segment followed by another one is named
    "projects" or "project" the project is "PDFdrawings". *)
Theorem project_of_path (filePath : string) :
  let pathParts := split "/" (normalizePath filePath) in
  let project := extractMetadataFromPath filePath !! "project" in
  (forall pre seg next rest,
     pathParts = pre ++ seg :: next :: rest ->
     Forall (fun p => isProjectFolder p = false) pre ->
     namesProjects seg = true ->
     project = Some (VStr next))
  /\ (forall pre seg rest,
        pathParts = pre ++ seg :: rest ->
        Forall (fun p => isProjectFolder p = false) pre ->
        namesRoot seg = true ->
        project = Some (VStr "PDFdrawings"))
  /\ ((forall pre seg next rest,
         pathParts = pre ++ seg :: next :: rest -> namesProjects seg = false) ->
      project = Some (VStr "PDFdrawings")).
Proof.
  intros pathParts project. subst project. unfold extractMetadataFromPath.
  fold pathParts. rewrite withDrawingNumber_lookup_project.
  repeat split.
  - intros pre seg next rest -> Hpre Hseg. by apply withProject_override.
  - intros pre seg rest -> Hpre Hseg. by apply withProject_root.
  - intros Hnone. by apply withProject_default.
Qed.

Lemma project_of_path_witness :
  extractMetadataFromPath "/srv/Projects/Lift Station/Drawings/S-46-1001.pdf"
    !! "project" = Some (VStr "Lift Station")
  /\ extractMetadataFromPath
       "/Users/pm/Desktop/PDFdrawings-MCP/projects/Lift Station/S-46-1001.pdf"
       !! "project" = Some (VStr "PDFdrawings")
  /\ extractMetadataFromPath "/srv/docs/project" !! "project"
     = Some (VStr "PDFdrawings").
Proof.
  split; [|split].
  - destruct (project_of_path "/srv/Projects/Lift Station/Drawings/S-46-1001.pdf")
      as (H & _ & _).
    apply (H [""; "srv"] "Projects" "Lift Station" ["Drawings"; "S-46-1001.pdf"]);
      [reflexivity | repeat constructor | reflexivity].
  - destruct (project_of_path
                "/Users/pm/Desktop/PDFdrawings-MCP/projects/Lift Station/S-46-1001.pdf")
      as (_ & H & _).
    apply (H [""; "Users"; "pm"; "Desktop"] "PDFdrawings-MCP"
             ["projects"; "Lift Station"; "S-46-1001.pdf"]);
      [reflexivity | repeat constructor | reflexivity].
  - destruct (project_of_path "/srv/docs/project") as (_ & _ & H).
    apply H. intros pre seg next rest Heq.
    destruct pre as [|? [|? [|? [|? pre]]]]; cbn in Heq; try done;
      injection Heq as <- <- <-; try done; by destruct pre.
Defined.

(** ** Chunk enrichment *)

Section EnhanceFacts.

Implicit Types (docs records : list Document) (doc record : Document).

Lemma map_as_fmap {A B} (f : A -> B) (l : list A) : map f l = f <$> l.
Proof. induction l; [done|]. cbn. by f_equal. Qed.

Lemma flat_map_as_bind {A B} (f : A -> list B) (l : list A) :
  flat_map f l = l ≫= f.
Proof. induction l; [done|]. cbn. by f_equal. Qed.

Lemma bySource_snoc records record :
  bySource (records ++ [record])
  = <[sourceOf record := metadata record]> (bySource records).
Proof. unfold bySource. by rewrite foldl_app. Qed.

(** Every entry of the map is the metadata of a record with that source. *)
Lemma bySource_Some records key md :
  bySource records !! key = Some md ->
  exists record, record ∈ records /\ sourceOf record = key /\ metadata record = md.
Proof.
  induction records as [|record records IH] using rev_ind; [done|].
  rewrite bySource_snoc.
  destruct (decide (sourceOf record = key)) as [<-|Hne].
  - rewrite lookup_insert_eq. intros [= <-].
    exists record. split; [|done]. apply elem_of_app. right. by left.
  - rewrite lookup_insert_ne by done. intros (r & Hr & ?)%IH.
    exists r. split; [|done]. apply elem_of_app. by left.
Qed.

Lemma bySource_None records key :
  Forall (fun record => sourceOf record <> key) records ->
  bySource records !! key = None.
Proof.
  intros Hall. destruct (bySource records !! key) as [md|] eqn:E; [|done].
  apply bySource_Some in E as (r & Hr & Hk & _).
  rewrite Forall_forall in Hall. by destruct (Hall r Hr).
Qed.

(** The last record of a source is the one that stays in the map. *)
Lemma bySource_last pre record post :
  Forall (fun r => sourceOf r <> sourceOf record) post ->
  bySource (pre ++ record :: post) !! sourceOf record = Some (metadata record).
Proof.
  induction post as [|r post IH] using rev_ind; intros Hpost.
  - rewrite bySource_snoc. apply lookup_insert_eq.
  - apply Forall_app in Hpost as [Hpost Hr].
    apply Forall_inv in Hr.
    replace (pre ++ record :: post ++ [r]) with ((pre ++ record :: post) ++ [r])
      by by rewrite <- app_assoc.
    rewrite bySource_snoc, lookup_insert_ne by done. by apply IH.
Qed.

Lemma enhance_as_fmap docs records :
  enhanceDocumentsWithMetadata docs records = enhanceOne records <$> docs.
Proof. unfold enhanceDocumentsWithMetadata. rewrite map_as_fmap. reflexivity. Qed.

Lemma enhanceOne_pageContent records doc :
  pageContent (enhanceOne records doc) = pageContent doc.
Proof. unfold enhanceOne. by destruct (bySource records !! _). Qed.

Lemma enhanceOne_source records doc :
  sourceOf (enhanceOne records doc) = sourceOf doc.
Proof.
  unfold enhanceOne. destruct (bySource records !! _) as [md|] eqn:E; [|done].
  apply bySource_Some in E as (r & _ & Hk & <-).
  unfold sourceOf at 1. cbn [metadata]. by rewrite assign_lookup_ne.
Qed.

Lemma enhanceOne_loc records doc :
  locOf (enhanceOne records doc) = locOf doc.
Proof.
  unfold enhanceOne. destruct (bySource records !! _) as [md|] eqn:E; [|done].
  unfold locOf at 1. cbn [metadata]. apply assign_lookup_eq.
Qed.

End EnhanceFacts.

(** C7. A chunk whose source has a catalog record gets the metadata of
    that record (the last one, should several records have the source),
    with its own [loc] kept; its text is untouched.  A chunk whose
    source has no catalog record is left as it is. *)
Theorem enhance_replaces_metadata
    (docs records : list Document) (i : nat) (doc : Document) :
  docs !! i = Some doc ->
  (forall pre record post,
     records = pre ++ record :: post ->
     sourceOf record = sourceOf doc ->
     Forall (fun r => sourceOf r <> sourceOf doc) post ->
     exists out,
       enhanceDocumentsWithMetadata docs records !! i = Some out
       /\ pageContent out = pageContent doc
       /\ locOf out = locOf doc
       /\ (forall key, key <> "loc" ->
             metadata out !! key = metadata record !! key))
  /\ (Forall (fun r => sourceOf r <> sourceOf doc) records ->
      enhanceDocumentsWithMetadata docs records !! i = Some doc).
Proof.
  intros Hdoc. rewrite enhance_as_fmap, list_lookup_fmap, Hdoc. cbn [fmap option_fmap option_map].
  split.
  - intros pre record post -> Hsrc Hpost. eexists. split; [reflexivity|].
    rewrite <- Hsrc in Hpost.
    pose proof (bySource_last pre record post Hpost) as Hlast.
    assert (enhanceOne (pre ++ record :: post) doc
            = {| pageContent := pageContent doc;
                 metadata := assign "loc" (locOf doc) (metadata record) |}) as ->
      by (unfold enhanceOne; by rewrite <- Hsrc, Hlast).
    repeat split.
    + unfold locOf at 1. cbn [metadata]. apply assign_lookup_eq.
    + intros key Hkey. cbn [metadata]. by apply assign_lookup_ne.
  - intros Hnone. unfold enhanceOne. by rewrite bySource_None.
Qed.

Lemma enhance_replaces_metadata_witness :
  let chunk := {| pageContent := "SLAB ON GRADE";
                  metadata := {[ "loc" := VLoc 1 1 4;
                                 "source" := VStr "/in/Drawings/S-46-1001.pdf" ]} |} in
  let other := {| pageContent := "PAINT";
                  metadata := {[ "loc" := VLoc 2 1 1;
                                 "source" := VStr "/in/TextDocs/Division 09.pdf" ]} |} in
  let record := {| pageContent := "Structural plan of the lift station.";
                   metadata := {[ "source" := VStr "/in/Drawings/S-46-1001.pdf";
                                  "hash" := VStr "ab12";
                                  "discipline" := VStr "Structural" ]} |} in
  (exists out,
     enhanceDocumentsWithMetadata [chunk; other] [record] !! 0%nat = Some out
     /\ pageContent out = "SLAB ON GRADE"
     /\ locOf out = Some (VLoc 1 1 4)
     /\ (forall key, key <> "loc" -> metadata out !! key = metadata record !! key))
  /\ enhanceDocumentsWithMetadata [chunk; other] [record] !! 1%nat = Some other.
Proof.
  intros chunk other record. split.
  - destruct (enhance_replaces_metadata [chunk; other] [record] 0 chunk eq_refl)
      as [H _].
    apply (H [] record []); [reflexivity | reflexivity | constructor].
  - destruct (enhance_replaces_metadata [chunk; other] [record] 1 other eq_refl)
      as [_ H].
    apply H. repeat constructor. by vm_compute.
Defined.

(** C10. The enricher returns as many chunks as it was given, in the
    same order, and each keeps its text and its source. *)
Theorem enhance_preserves_chunks (docs records : list Document) :
  length (enhanceDocumentsWithMetadata docs records) = length docs
  /\ (forall (i : nat) (doc : Document),
        docs !! i = Some doc ->
        exists out,
          enhanceDocumentsWithMetadata docs records !! i = Some out
          /\ pageContent out = pageContent doc
          /\ sourceOf out = sourceOf doc).
Proof.
  rewrite enhance_as_fmap. split.
  - apply length_fmap.
  - intros i doc Hdoc. exists (enhanceOne records doc).
    rewrite list_lookup_fmap, Hdoc.
    split; [done|]. split; [apply enhanceOne_pageContent | apply enhanceOne_source].
Qed.

Lemma enhance_preserves_chunks_witness :
  let chunk := {| pageContent := "SLAB ON GRADE";
                  metadata := {[ "loc" := VLoc 1 1 4;
                                 "source" := VStr "/in/Drawings/S-46-1001.pdf" ]} |} in
  let record := {| pageContent := "Structural plan of the lift station.";
                   metadata := {[ "source" := VStr "/in/Drawings/S-46-1001.pdf";
                                  "discipline" := VStr "Structural" ]} |} in
  exists out,
    enhanceDocumentsWithMetadata [chunk; chunk] [record] !! 1%nat = Some out
    /\ pageContent out = "SLAB ON GRADE"
    /\ sourceOf out = Some (VStr "/in/Drawings/S-46-1001.pdf").
Proof.
  intros chunk record.
  destruct (enhance_preserves_chunks [chunk; chunk] [record]) as [_ H].
  apply (H 1%nat chunk). reflexivity.
Defined.

(** ** The catalog gate and the seeding run *)

Section SeedFacts.

Variable env : Env.
Variable catalogTable : option (list Document).
Variable skipExistsCheck : bool.

Implicit Types (rawDocs docs : list Document) (doc : Document) (source : string).

(** The loop adds the contribution of every entry, in order, whatever
    happened to the entries before it. *)
Lemma processSource_fold (entries : list (string * list Document)) (st : Processed) :
  let p := foldl (processSource env catalogTable skipExistsCheck) st entries in
  skipSources p
    = skipSources st ++ omap (skippedBy env catalogTable skipExistsCheck) entries
  /\ catalogRecords p
    = catalogRecords st ++ omap (stagedBy env catalogTable skipExistsCheck) entries
  /\ console p
    = console st ++ (loggedBy env catalogTable skipExistsCheck <$> entries).
Proof.
  revert st. induction entries as [|[source docs] entries IH]; intros st.
  - cbn. by rewrite !app_nil_r.
  - cbn [foldl]. destruct (IH (processSource env catalogTable skipExistsCheck st
                                  (source, docs))) as (IH1 & IH2 & IH3).
    cbn zeta. rewrite IH1, IH2, IH3. clear IH IH1 IH2 IH3.
    unfold processSource, skippedBy, stagedBy, loggedBy.
    cbn [omap list_omap fmap list_fmap fst snd].
    destruct (tryDocument env catalogTable skipExistsCheck source docs)
      as [[hash|overview record]|e]; cbn [skipSources catalogRecords console];
      rewrite <- ?app_assoc; done.
Qed.

Lemma pushDoc_keys (acc : list (string * list Document)) source doc :
  (pushDoc acc source doc).*1
  = if decide (source ∈ acc.*1) then acc.*1 else acc.*1 ++ [source].
Proof.
  induction acc as [|[k ds] acc IH]; [done|].
  cbn [pushDoc]. destruct (String.eqb k source) eqn:E.
  - apply String.eqb_eq in E as ->. rewrite !fmap_cons. cbn [fst].
    rewrite decide_True; [done | by left].
  - apply String.eqb_neq in E. rewrite !fmap_cons, IH. cbn [fst].
    destruct (decide (source ∈ acc.*1)) as [Hin|Hnin].
    + rewrite decide_True; [done | by right].
    + rewrite decide_False; [done|]. intros [?|?]%elem_of_cons; by subst.
Qed.

Lemma groupBySource_snoc rawDocs doc :
  groupBySource (rawDocs ++ [doc])
  = pushDoc (groupBySource rawDocs) (toPropertyKey (sourceOf doc)) doc.
Proof. unfold groupBySource. by rewrite foldl_app. Qed.

(** Each source is one entry of the grouping. *)
Lemma groupBySource_NoDup rawDocs : NoDup (groupBySource rawDocs).*1.
Proof.
  induction rawDocs as [|doc rawDocs IH] using rev_ind; [constructor|].
  rewrite groupBySource_snoc, pushDoc_keys. case_decide; [done|].
  apply NoDup_app. split; [done|]. split; [|apply NoDup_singleton].
  intros k Hk ->%list_elem_of_singleton. done.
Qed.

(** The entries are the sources of the documents. *)
Lemma groupBySource_keys rawDocs (key : string) :
  key ∈ (groupBySource rawDocs).*1
  <-> exists doc, doc ∈ rawDocs /\ toPropertyKey (sourceOf doc) = key.
Proof.
  induction rawDocs as [|doc rawDocs IH] using rev_ind.
  - split; [by intros ?%elem_of_nil | by intros (? & ?%elem_of_nil & _)].
  - rewrite groupBySource_snoc, pushDoc_keys.
    assert (key ∈ (groupBySource rawDocs).*1 ++ [toPropertyKey (sourceOf doc)]
            <-> exists d, d ∈ rawDocs ++ [doc] /\ toPropertyKey (sourceOf d) = key)
      as Happ.
    { rewrite elem_of_app, IH, list_elem_of_singleton. split.
      - intros [(d & Hd & <-)| ->].
        + exists d. split; [|done]. apply elem_of_app. by left.
        + exists doc. split; [|done]. apply elem_of_app. right. by left.
      - intros (d & [Hd| ->%list_elem_of_singleton]%elem_of_app & <-); eauto. }
    case_decide as Hin; [|done].
    rewrite <- Happ, elem_of_app, list_elem_of_singleton.
    split; [by left | by intros [?| ->]].
Qed.

Lemma group_of_document rawDocs doc source :
  doc ∈ rawDocs -> sourceOf doc = Some (VStr source) ->
  exists docs, (source, docs) ∈ groupBySource rawDocs.
Proof.
  intros Hdoc Hsrc.
  assert (source ∈ (groupBySource rawDocs).*1) as Hin.
  { apply groupBySource_keys. exists doc. split; [done|]. by rewrite Hsrc. }
  apply list_elem_of_fmap in Hin as ([k docs] & -> & Hin). eauto.
Qed.

Lemma NoDup_fst_unique {A B} (l : list (A * B)) x y1 y2 :
  NoDup l.*1 -> (x, y1) ∈ l -> (x, y2) ∈ l -> y1 = y2.
Proof.
  induction l as [|[a b] l IH]; [by intros _ ?%elem_of_nil|].
  rewrite fmap_cons. intros [Ha Hnd]%NoDup_cons. cbn [fst] in Ha.
  intros [[= -> ->]|H1]%elem_of_cons [[= ->]|H2]%elem_of_cons.
  - done.
  - destruct Ha. apply list_elem_of_fmap. by exists (a, y2).
  - subst. destruct Ha. apply list_elem_of_fmap. by exists (a, y1).
  - by apply IH.
Qed.

Lemma group_unique rawDocs source docs docs' :
  (source, docs) ∈ groupBySource rawDocs ->
  (source, docs') ∈ groupBySource rawDocs ->
  docs = docs'.
Proof.
  pose proof (groupBySource_NoDup rawDocs) as Hnd.
  intros H1 H2. by eapply NoDup_fst_unique.
Qed.

(** The predicate query finds a row exactly when one has the hash. *)
Lemma catalogRecordExists_true (rows : list Document) (hash : string) :
  (exists row, row ∈ rows /\ metadata row !! "hash" = Some (VStr hash)) ->
  catalogRecordExists rows hash = true.
Proof.
  intros (row & Hrow & Hhash). unfold catalogRecordExists.
  destruct (filter _ rows) as [|r rs] eqn:E; [|done].
  exfalso. eapply (filter_nil_not_elem_of _ _ row); [exact E | exact Hhash | done].
Qed.

(** The ways in which the [try] block of a source throws: while the
    file is read, while the catalog is queried, while the metadata is
    extracted, or while the overview is generated. *)
Lemma tryDocument_Throw source docs e :
  tryDocument env catalogTable skipExistsCheck source docs = Throw e
  <-> readFile env source = Throw e
      \/ exists fileContent,
           readFile env source = Ok fileContent
           /\ ((if skipExistsCheck then Ok false
                else queryCatalog catalogTable (sha256hex env fileContent))
               = Throw e
               \/ (if skipExistsCheck then Ok false
                   else queryCatalog catalogTable (sha256hex env fileContent))
                  = Ok false
                  /\ (extractMetadata env source
                        (Some (join " " (map pageContent docs))) = Throw e
                      \/ exists md,
                           extractMetadata env source
                             (Some (join " " (map pageContent docs))) = Ok md
                           /\ generateContentOverview env docs = Throw e)).
Proof.
  unfold tryDocument, bind.
  destruct (readFile env source) as [fileContent|e0].
  - destruct (if skipExistsCheck then Ok false else _) as [[|]|e1] eqn:Hex.
    + split; [done|].
      intros [?|(fc & ? & [?|[? _]])]; simplify_eq; congruence.
    + destruct (extractMetadata env source _) as [md|e2].
      * destruct (generateContentOverview env docs) as [ov|e3].
        -- split; [done|].
           intros [?|(fc & ? & [?|[_ [?|(? & ? & ?)]]])]; simplify_eq; congruence.
        -- split.
           ++ intros [= ->]. right. exists fileContent. split; [done|].
              right. split; [done|]. right. by exists md.
           ++ intros [?|(fc & ? & [?|[_ [?|(? & ? & ?)]]])];
                simplify_eq; congruence.
      * split.
        -- intros [= ->]. right. exists fileContent. split; [done|].
           right. split; [done|]. by left.
        -- intros [?|(fc & ? & [?|[_ [?|(? & ? & ?)]]])];
             simplify_eq; congruence.
    + split.
      * intros [= ->]. right. exists fileContent. split; [done|]. by left.
      * intros [?|(fc & ? & [?|[? _]])]; simplify_eq; congruence.
  - split; [intros [= ->]; by left|].
    intros [?|(fc & ? & _)]; by simplify_eq.
Qed.

(** A source whose file hashes to a row of the catalog is skipped,
    whatever its documents are. *)
Lemma tryDocument_AlreadyIndexed rows source docs fileContent :
  catalogTable = Some rows -> skipExistsCheck = false ->
  readFile env source = Ok fileContent ->
  (exists row, row ∈ rows
     /\ metadata row !! "hash" = Some (VStr (sha256hex env fileContent))) ->
  tryDocument env catalogTable skipExistsCheck source docs
  = Ok (AlreadyIndexed (sha256hex env fileContent)).
Proof.
  intros -> -> Hread Hrow. unfold tryDocument. rewrite Hread.
  cbn [bind queryCatalog]. by rewrite catalogRecordExists_true.
Qed.

End SeedFacts.

Section PipelineFacts.

Variable env : Env.

Implicit Types (rawDocs docs : list Document) (doc chunk : Document)
  (source : string) (p : Processed).

Lemma essentialMetadata_source doc :
  sourceOf (essentialMetadata doc) = sourceOf doc.
Proof.
  unfold sourceOf at 1, essentialMetadata. cbn [metadata].
  rewrite assign_lookup_ne by done. apply assign_lookup_eq.
Qed.

Lemma pieceOf_source doc piece : sourceOf (pieceOf doc piece) = sourceOf doc.
Proof. unfold sourceOf, pieceOf. cbn [metadata]. by rewrite lookup_insert_ne. Qed.

Lemma splitDocuments_elem docs chunk :
  chunk ∈ splitDocuments env docs
  <-> exists doc piece,
        doc ∈ docs /\ piece ∈ splitPieces env doc /\ chunk = pieceOf doc piece.
Proof.
  unfold splitDocuments. rewrite flat_map_as_bind, list_elem_of_bind.
  split.
  - intros (doc & Hchunk & Hdoc). rewrite map_as_fmap in Hchunk.
    apply list_elem_of_fmap in Hchunk as ([text loc] & -> & Hpiece).
    by exists doc, (text, loc).
  - intros (doc & [text loc] & Hdoc & Hpiece & ->). exists doc. split; [|done].
    rewrite map_as_fmap. apply list_elem_of_fmap. by exists (text, loc).
Qed.

Lemma filteredRawDocs_elem rawDocs p doc :
  doc ∈ filteredRawDocs rawDocs p
  <-> notSkipped (skipSources p) doc = true /\ doc ∈ rawDocs.
Proof. unfold filteredRawDocs. by rewrite list_elem_of_filter. Qed.

Lemma notSkipped_source sources doc source :
  sourceOf doc = Some (VStr source) ->
  notSkipped sources doc = true <-> source ∉ sources.
Proof.
  intros Hsrc. unfold notSkipped. rewrite Hsrc, negb_true_iff.
  by rewrite bool_decide_eq_false.
Qed.

(** A chunk handed to the embedding model has the source of a document
    that passed the filter. *)
Lemma chunkDocs_source rawDocs p chunk :
  chunk ∈ chunkDocs env rawDocs p ->
  exists doc, doc ∈ filteredRawDocs rawDocs p /\ sourceOf chunk = sourceOf doc.
Proof.
  unfold chunkDocs. rewrite enhance_as_fmap.
  intros (c0 & -> & Hc0)%list_elem_of_fmap.
  apply splitDocuments_elem in Hc0 as (doc & piece & Hdoc & _ & ->).
  exists doc. split; [done|].
  by rewrite enhanceOne_source, pieceOf_source.
Qed.

Lemma omap_nil {A B} (f : A -> option B) (l : list A) :
  (forall x, x ∈ l -> f x = None) -> omap f l = [].
Proof.
  induction l as [|x l IH]; intros H; [done|].
  cbn. rewrite (H x) by by left. apply IH. intros y Hy. apply H. by right.
Qed.

Lemma filter_none {A} (P : A -> Prop) `{forall x, Decision (P x)} (l : list A) :
  (forall x, x ∈ l -> ~ P x) -> filter P l = [].
Proof.
  induction l as [|x l IH]; intros Hl; [done|].
  rewrite filter_cons_False by (apply Hl; by left).
  apply IH. intros y Hy. apply Hl. by right.
Qed.

(** The shape of a freshly staged record. *)
Lemma tryDocument_NewRecord catalogTable skipExistsCheck source docs overview record :
  tryDocument env catalogTable skipExistsCheck source docs
  = Ok (NewRecord overview record) ->
  exists fileContent md,
    readFile env source = Ok fileContent
    /\ extractMetadata env source (Some (join " " (map pageContent docs))) = Ok md
    /\ record = {| pageContent := overview;
                   metadata := md ∪ <["source" := VStr source]>
                                      (<["hash" := VStr (sha256hex env fileContent)]> ∅) |}.
Proof.
  unfold tryDocument, bind.
  destruct (readFile env source) as [fileContent|]; [|done].
  destruct (if skipExistsCheck then Ok false else _) as [[|]|]; [done| |done].
  destruct (extractMetadata env source _) as [md|]; [|done].
  destruct (generateContentOverview env docs) as [ov|]; [|done].
  intros [= <- <-]. by exists fileContent, md.
Qed.

Lemma processDocuments_Ok rawDocs catalogTable skipExistsCheck :
  mkdirTemp env = Ok tt ->
  processDocuments env rawDocs catalogTable skipExistsCheck
  = Ok (foldl (processSource env catalogTable skipExistsCheck)
              {| skipSources := []; catalogRecords := []; console := [] |}
              (groupBySource rawDocs)).
Proof. intros H. unfold processDocuments. by rewrite H. Qed.

Lemma processed_skipSources rawDocs catalogTable skipExistsCheck source :
  source ∈ skipSources
             (foldl (processSource env catalogTable skipExistsCheck)
                    {| skipSources := []; catalogRecords := []; console := [] |}
                    (groupBySource rawDocs))
  <-> exists docs hash,
        (source, docs) ∈ groupBySource rawDocs
        /\ tryDocument env catalogTable skipExistsCheck source docs
           = Ok (AlreadyIndexed hash).
Proof.
  destruct (processSource_fold env catalogTable skipExistsCheck
              (groupBySource rawDocs)
              {| skipSources := []; catalogRecords := []; console := [] |})
    as (-> & _ & _).
  cbn [skipSources app]. rewrite list_elem_of_omap. unfold skippedBy. split.
  - intros ([s docs] & Hin & Hs). cbn [fst snd] in Hs.
    destruct (tryDocument env catalogTable skipExistsCheck s docs)
      as [[hash|]|] eqn:E; simplify_eq. eauto.
  - intros (docs & hash & Hin & Htry). exists (source, docs).
    split; [done|]. cbn [fst snd]. by rewrite Htry.
Qed.

Lemma processed_catalogRecords rawDocs catalogTable skipExistsCheck record :
  record ∈ catalogRecords
             (foldl (processSource env catalogTable skipExistsCheck)
                    {| skipSources := []; catalogRecords := []; console := [] |}
                    (groupBySource rawDocs))
  <-> exists source docs overview,
        (source, docs) ∈ groupBySource rawDocs
        /\ tryDocument env catalogTable skipExistsCheck source docs
           = Ok (NewRecord overview record).
Proof.
  destruct (processSource_fold env catalogTable skipExistsCheck
              (groupBySource rawDocs)
              {| skipSources := []; catalogRecords := []; console := [] |})
    as (_ & -> & _).
  cbn [catalogRecords app]. rewrite list_elem_of_omap. unfold stagedBy. split.
  - intros ([s docs] & Hin & Hs). cbn [fst snd] in Hs.
    destruct (tryDocument env catalogTable skipExistsCheck s docs)
      as [[|overview r]|] eqn:E; simplify_eq. eauto.
  - intros (source & docs & overview & Hin & Htry). exists (source, docs).
    split; [done|]. cbn [fst snd]. by rewrite Htry.
Qed.


End PipelineFacts.

Section RunFacts.

Variable env : Env.
Hypothesis mkdir_ok : mkdirTemp env = Ok tt.

Implicit Types (rawDocs loaded rows : list Document) (doc : Document)
  (source : string) (db : Database).

(** A source whose file hash has a catalog row is in the skip set. *)
Lemma indexed_source_skipped rows rawDocs doc source fileContent :
  doc ∈ rawDocs ->
  sourceOf doc = Some (VStr source) ->
  readFile env source = Ok fileContent ->
  (exists row, row ∈ rows
     /\ metadata row !! "hash" = Some (VStr (sha256hex env fileContent))) ->
  source ∈ skipSources
             (foldl (processSource env (Some rows) false)
                    {| skipSources := []; catalogRecords := []; console := [] |}
                    (groupBySource rawDocs)).
Proof.
  intros Hdoc Hsrc Hread Hrow.
  destruct (group_of_document rawDocs doc source Hdoc Hsrc) as [docs Hin].
  apply processed_skipSources. exists docs, (sha256hex env fileContent).
  split; [done|]. by eapply tryDocument_AlreadyIndexed.
Qed.

(** A run in which every loaded document is already in the catalog
    changes nothing. *)
Lemma seed_all_indexed rows db loaded :
  catalog db = Some rows ->
  loadDirectory env = Ok loaded ->
  (forall doc, doc ∈ loaded ->
     exists source fileContent,
       sourceOf doc = Some (VStr source)
       /\ readFile env source = Ok fileContent
       /\ exists row, row ∈ rows
            /\ metadata row !! "hash" = Some (VStr (sha256hex env fileContent))) ->
  seed env false db = (Ok tt, db).
Proof.
  intros Hcat Hload Hall. unfold seed.
  rewrite Hload, Hcat.
  rewrite (bool_decide_eq_true_2 (is_Some (Some rows))) by eauto.
  cbn [orb negb]. rewrite processDocuments_Ok by done.
  set (rawDocs := map essentialMetadata loaded).
  set (p := foldl _ _ _).
  assert (forall doc, doc ∈ rawDocs ->
            exists source fileContent,
              sourceOf doc = Some (VStr source)
              /\ readFile env source = Ok fileContent
              /\ exists row, row ∈ rows
                   /\ metadata row !! "hash"
                      = Some (VStr (sha256hex env fileContent))) as Hall'.
  { intros doc Hdoc. subst rawDocs. rewrite map_as_fmap in Hdoc.
    apply list_elem_of_fmap in Hdoc as (d0 & -> & Hd0).
    rewrite essentialMetadata_source. by apply Hall. }
  assert (catalogRecords p = []) as Hrec.
  { destruct (processSource_fold env (Some rows) false (groupBySource rawDocs)
                {| skipSources := []; catalogRecords := []; console := [] |})
      as (_ & Hr & _).
    fold p in Hr. rewrite Hr. cbn [catalogRecords app].
    apply omap_nil. intros [s docs] Hin. unfold stagedBy. cbn [fst snd].
    assert (s ∈ (groupBySource rawDocs).*1) as Hkey
      by (apply list_elem_of_fmap; by exists (s, docs)).
    apply groupBySource_keys in Hkey as (doc & Hdoc & Hs).
    destruct (Hall' doc Hdoc) as (source & fileContent & Hsrc & Hread & Hrow).
    rewrite Hsrc in Hs. cbn in Hs. subst s.
    by rewrite (tryDocument_AlreadyIndexed env (Some rows) false rows source docs
                  fileContent eq_refl eq_refl Hread Hrow). }
  assert (filteredRawDocs rawDocs p = []) as Hfil.
  { unfold filteredRawDocs. apply filter_none. intros doc Hdoc Hkeep.
    destruct (Hall' doc Hdoc) as (source & fileContent & Hsrc & Hread & Hrow).
    apply (notSkipped_source _ _ _ Hsrc) in Hkeep. apply Hkeep.
    by apply (indexed_source_skipped rows rawDocs doc source fileContent). }
  unfold chunkDocs. rewrite Hrec, Hfil. cbn.
  destruct db as [c k]. cbn in Hcat. by subst c.
Qed.

(** The converse reading of the predicate query and of a skip. *)
Lemma catalogRecordExists_inv rows (hash : string) :
  catalogRecordExists rows hash = true ->
  exists row, row ∈ rows /\ metadata row !! "hash" = Some (VStr hash).
Proof.
  unfold catalogRecordExists.
  destruct (filter _ rows) as [|row rest] eqn:E; [done|]. intros _.
  assert (row ∈ filter (fun row => metadata row !! "hash" = Some (VStr hash)) rows)
    as Hrow by (rewrite E; by left).
  apply list_elem_of_filter in Hrow as [Hhash Hrow]. eauto.
Qed.

Lemma tryDocument_AlreadyIndexed_inv catalogTable skipExistsCheck source
    (docs : list Document) hash :
  tryDocument env catalogTable skipExistsCheck source docs
  = Ok (AlreadyIndexed hash) ->
  exists fileContent rows row,
    readFile env source = Ok fileContent
    /\ skipExistsCheck = false
    /\ catalogTable = Some rows
    /\ row ∈ rows
    /\ metadata row !! "hash" = Some (VStr (sha256hex env fileContent)).
Proof.
  unfold tryDocument, bind.
  destruct (readFile env source) as [fileContent|]; [|done].
  destruct skipExistsCheck.
  - destruct (extractMetadata env source _); [|done].
    by destruct (generateContentOverview env docs).
  - destruct catalogTable as [rows|]; [|done]. cbn [queryCatalog].
    destruct (catalogRecordExists rows _) eqn:E.
    + intros _. apply catalogRecordExists_inv in E as (row & Hrow & Hhash).
      by exists fileContent, rows, row.
    + destruct (extractMetadata env source _); [|done].
      by destruct (generateContentOverview env docs).
Qed.

(** A run, in terms of what [processDocuments] stages: each table is
    written when there is something to write to it, the catalog
    first. *)
Lemma seed_run (overwrite : bool) db loaded :
  loadDirectory env = Ok loaded ->
  let rawDocs := map essentialMetadata loaded in
  let p := foldl (processSource env (catalog db)
                    (overwrite || negb (bool_decide (is_Some (catalog db)))))
                 {| skipSources := []; catalogRecords := []; console := [] |}
                 (groupBySource rawDocs) in
  let base := if overwrite then {| catalog := None; chunks := None |} else db in
  seed env overwrite db
  = match (if (0 <? length (catalogRecords p))%nat
           then fromDocuments env (catalogRecords p)
           else Ok (catalog base)) with
    | Throw e => (Throw e, base)
    | Ok catalog' =>
        match (if (0 <? length (chunkDocs env rawDocs p))%nat
               then fromDocuments env (chunkDocs env rawDocs p)
               else Ok (chunks base)) with
        | Throw e => (Throw e, {| catalog := catalog'; chunks := chunks base |})
        | Ok chunks' => (Ok tt, {| catalog := catalog'; chunks := chunks' |})
        end
    end.
Proof.
  intros Hload rawDocs p base. unfold seed. rewrite Hload.
  assert ((overwrite || negb (if overwrite then false
                              else bool_decide (is_Some (catalog db))))
          = (overwrite || negb (bool_decide (is_Some (catalog db)))))
    as -> by by destruct overwrite.
  rewrite processDocuments_Ok by done. fold rawDocs. fold p. fold base.
  destruct (if (0 <? length (catalogRecords p))%nat then _ else _); [|done].
  cbn [chunks catalog].
  by destruct (if (0 <? length (chunkDocs env rawDocs p))%nat then _ else _).
Qed.

Lemma fromDocuments_Ok docs table :
  fromDocuments env docs = Ok table ->
  embedDocuments env docs = Ok tt /\ table = Some docs.
Proof.
  unfold fromDocuments. destruct (embedDocuments env docs) as [[]|]; [|done].
  by intros [= <-].
Qed.


Lemma length_pos_nil {A} (l : list A) : (0 <? length l)%nat = false <-> l = [].
Proof.
  destruct l; cbn; [done|]. split; [|done].
  discriminate.
Qed.

(** The tables that a run leaves behind when it ends well: a table is
    what was staged for it when something was staged, and is untouched
    (dropped, for [--overwrite]) otherwise.  What a written table held
    before is not kept. *)
Lemma seed_Ok (overwrite : bool) db db' loaded :
  loadDirectory env = Ok loaded ->
  seed env overwrite db = (Ok tt, db') ->
  let rawDocs := map essentialMetadata loaded in
  let p := foldl (processSource env (catalog db)
                    (overwrite || negb (bool_decide (is_Some (catalog db)))))
                 {| skipSources := []; catalogRecords := []; console := [] |}
                 (groupBySource rawDocs) in
  let base := if overwrite then {| catalog := None; chunks := None |} else db in
  catalog db' = (if (0 <? length (catalogRecords p))%nat
                 then Some (catalogRecords p) else catalog base)
  /\ chunks db' = (if (0 <? length (chunkDocs env rawDocs p))%nat
                   then Some (chunkDocs env rawDocs p) else chunks base)
  /\ ((0 <? length (catalogRecords p))%nat = true ->
      embedDocuments env (catalogRecords p) = Ok tt)
  /\ ((0 <? length (chunkDocs env rawDocs p))%nat = true ->
      embedDocuments env (chunkDocs env rawDocs p) = Ok tt).
Proof.
  intros Hload Hrun rawDocs p base.
  rewrite (seed_run overwrite db loaded Hload) in Hrun.
  fold rawDocs in Hrun. fold p in Hrun. fold base in Hrun.
  destruct (0 <? length (catalogRecords p))%nat.
  - destruct (fromDocuments env (catalogRecords p)) as [c|] eqn:Hc;
      [|by inversion Hrun].
    apply fromDocuments_Ok in Hc as [Hc ->].
    destruct (0 <? length (chunkDocs env rawDocs p))%nat.
    + destruct (fromDocuments env (chunkDocs env rawDocs p)) as [k|] eqn:Hk;
        [|by inversion Hrun].
      apply fromDocuments_Ok in Hk as [Hk ->]. by inversion Hrun.
    + inversion Hrun. repeat split; done.
  - destruct (0 <? length (chunkDocs env rawDocs p))%nat.
    + destruct (fromDocuments env (chunkDocs env rawDocs p)) as [k|] eqn:Hk;
        [|by inversion Hrun].
      apply fromDocuments_Ok in Hk as [Hk ->]. by inversion Hrun.
    + inversion Hrun. repeat split; done.
Qed.


(** Without the existence check no source counts as indexed. *)
Lemma tryDocument_unchecked catalogTable source (docs : list Document) hash :
  tryDocument env catalogTable true source docs <> Ok (AlreadyIndexed hash).
Proof.
  unfold tryDocument, bind.
  destruct (readFile env source) as [fileContent|]; [|done].
  destruct (extractMetadata env source _); [|done].
  by destruct (generateContentOverview env docs).
Qed.

(** A second run over the same files.  If the first run ended well
    and staged a record for every source, and the extractor yields no
    [hash] field, then running again without the overwrite flag changes
    nothing. *)
Lemma seed_rerun (overwrite : bool) db0 db1 loaded :
  loadDirectory env = Ok loaded ->
  (forall doc, doc ∈ loaded -> exists source, sourceOf doc = Some (VStr source)) ->
  (forall filePath content md,
     extractMetadata env filePath content = Ok md -> md !! "hash" = None) ->
  (forall source docs,
     (source, docs) ∈ groupBySource (map essentialMetadata loaded) ->
     exists overview record,
       tryDocument env (catalog db0)
                   (overwrite || negb (bool_decide (is_Some (catalog db0))))
                   source docs = Ok (NewRecord overview record)) ->
  seed env overwrite db0 = (Ok tt, db1) ->
  seed env false db1 = (Ok tt, db1).
Proof.
  intros Hload Hsrc Hnohash Hstaged Hrun.
  destruct (seed_Ok overwrite db0 db1 loaded Hload Hrun) as (Hcat1 & _ & _ & _).
  set (skip := overwrite || negb (bool_decide (is_Some (catalog db0)))) in *.
  set (rawDocs := map essentialMetadata loaded) in *.
  set (p := foldl (processSource env (catalog db0) skip)
              {| skipSources := []; catalogRecords := []; console := [] |}
              (groupBySource rawDocs)) in *.
  (* every document of the first run left a record with its hash *)
  assert (forall doc, doc ∈ loaded ->
            exists source fileContent,
              sourceOf doc = Some (VStr source)
              /\ readFile env source = Ok fileContent
              /\ exists row,
                   row ∈ catalogRecords p
                   /\ metadata row !! "hash"
                      = Some (VStr (sha256hex env fileContent))) as Hrows.
  { intros doc Hdoc. destruct (Hsrc doc Hdoc) as [source Hs].
    assert (essentialMetadata doc ∈ rawDocs) as Hraw
      by (subst rawDocs; rewrite map_as_fmap; by apply list_elem_of_fmap_2).
    destruct (group_of_document rawDocs (essentialMetadata doc) source Hraw)
      as [docs Hin]; [by rewrite essentialMetadata_source|].
    exists source.
    destruct (Hstaged source docs Hin) as (overview & record & Htry).
    pose proof Htry as Hrec.
    apply tryDocument_NewRecord in Htry as (fileContent & md & Hread & Hmd & ->).
    exists fileContent. split; [done|]. split; [done|].
    eexists. split.
    - apply processed_catalogRecords. by exists source, docs, overview.
    - cbn [metadata]. rewrite lookup_union_r by by eapply Hnohash.
      rewrite lookup_insert_ne by done. by rewrite lookup_insert_eq. }
  destruct loaded as [|doc0 loaded'].
  { (* nothing was loaded *)
    unfold seed. rewrite Hload. cbn [map]. rewrite processDocuments_Ok by done.
    cbn. by destruct db1. }
  assert (catalog db1 = Some (catalogRecords p)) as Hc1.
  { rewrite Hcat1. destruct (0 <? length (catalogRecords p))%nat eqn:Hlen; [done|].
    apply length_pos_nil in Hlen.
    assert (doc0 ∈ doc0 :: loaded') as Hdoc0 by by left.
    destruct (Hrows doc0 Hdoc0) as (s & fc & _ & _ & row & Hrow & _).
    rewrite Hlen in Hrow. by apply elem_of_nil in Hrow. }
  apply (seed_all_indexed (catalogRecords p) db1 (doc0 :: loaded') Hc1 Hload).
  intros doc Hdoc.
  destruct (Hrows doc Hdoc) as (source & fileContent & Hs & Hread & row & Hrow & Hhash).
  exists source, fileContent. split; [done|]. split; [done|]. by exists row.
Qed.

End RunFacts.

(** C2. With an existing catalog table and no overwrite, a source
    whose file hash already has a catalog row is put in the skip set,
    every staged catalog record stems from another source, its
    documents are not handed to the splitter and no chunk handed to
    the embedding model has it as source; when this holds of every
    loaded document, the seeding run leaves the database as it was.
    But a run that stages records writes each table anew: the catalog
    it leaves holds the staged records only, and the rows by which the
    other sources were recognised are gone.  So on a database in which
    only the drawing is indexed, a first run over the drawing and the
    specification leaves a catalog with the specification only, and a
    second run over the same two files stages the drawing again, with
    the hash that the catalog had held before the first run. *)
Theorem indexed_sources_are_skipped :
  (forall (env : Env) (rows : list Document),
     mkdirTemp env = Ok tt ->
     (forall rawDocs : list Document,
      exists p,
        processDocuments env rawDocs (Some rows) false = Ok p
        /\ forall doc source fileContent,
             doc ∈ rawDocs ->
             sourceOf doc = Some (VStr source) ->
             readFile env source = Ok fileContent ->
             (exists row, row ∈ rows
                /\ metadata row !! "hash" = Some (VStr (sha256hex env fileContent))) ->
             source ∈ skipSources p
             /\ (forall record, record ∈ catalogRecords p ->
                   exists source' docs' overview,
                     source' <> source
                     /\ tryDocument env (Some rows) false source' docs'
                        = Ok (NewRecord overview record))
             /\ (doc ∉ filteredRawDocs rawDocs p)
             /\ (forall chunk, chunk ∈ chunkDocs env rawDocs p ->
                   sourceOf chunk <> Some (VStr source)))
     /\ (forall (db : Database) (loaded : list Document),
           catalog db = Some rows ->
           loadDirectory env = Ok loaded ->
           (forall doc, doc ∈ loaded ->
              exists source fileContent,
                sourceOf doc = Some (VStr source)
                /\ readFile env source = Ok fileContent
                /\ exists row, row ∈ rows
                     /\ metadata row !! "hash"
                        = Some (VStr (sha256hex env fileContent))) ->
           seed env false db = (Ok tt, db))
     /\ (forall (db db' : Database) (loaded : list Document),
           catalog db = Some rows ->
           loadDirectory env = Ok loaded ->
           seed env false db = (Ok tt, db') ->
           exists p,
             processDocuments env (map essentialMetadata loaded) (Some rows) false
             = Ok p
             /\ (catalogRecords p <> [] -> catalog db' = Some (catalogRecords p))
             /\ (catalogRecords p = [] -> catalog db' = Some rows)))
  /\ (let env := Examples.env Examples.corpus in
      exists db1 db2 specRecord drawingRecord,
        seed env false Examples.drawingIndexed = (Ok tt, db1)
        /\ seed env false db1 = (Ok tt, db2)
        /\ catalog db1 = Some [specRecord]
        /\ sourceOf specRecord = Some (VStr Examples.specPath)
        /\ catalog db2 = Some [drawingRecord]
        /\ sourceOf drawingRecord = Some (VStr Examples.drawingPath)
        /\ metadata drawingRecord !! "hash"
           = Some (VStr (Examples.digest "%PDF-1.7 drawing"))).
Proof.
  split.
  - intros env rows Hmk. split; [|split].
    + intros rawDocs. eexists. split; [by apply processDocuments_Ok|].
      intros doc source fileContent Hdoc Hsrc Hread Hrow.
      pose proof (indexed_source_skipped env rows rawDocs doc source fileContent
                    Hdoc Hsrc Hread Hrow) as Hs.
      split; [done|]. split; [|split].
      * intros record
          (source' & docs' & overview & Hin & Htry)%processed_catalogRecords.
        exists source', docs', overview. split; [|done]. intros ->.
        rewrite (tryDocument_AlreadyIndexed env (Some rows) false rows source docs'
                   fileContent eq_refl eq_refl Hread Hrow) in Htry.
        done.
      * intros [Hkeep _]%filteredRawDocs_elem.
        by apply (notSkipped_source _ _ _ Hsrc) in Hkeep.
      * intros chunk (d & [Hkeep _]%filteredRawDocs_elem & Hd)%chunkDocs_source Hc.
        rewrite Hc in Hd. symmetry in Hd.
        by apply (notSkipped_source _ _ _ Hd) in Hkeep.
    + intros db loaded. by apply seed_all_indexed.
    + intros db db' loaded Hcat Hload Hrun.
      destruct (seed_Ok env Hmk false db db' loaded Hload Hrun) as (Hc & _ & _ & _).
      rewrite Hcat in Hc.
      rewrite (bool_decide_eq_true_2 (is_Some (Some rows))) in Hc by eauto.
      cbn [orb negb] in Hc.
      eexists. split; [by apply processDocuments_Ok|].
      split.
      * intros Hne. rewrite Hc.
        destruct (0 <? length _)%nat eqn:Hlen; [done|].
        by apply length_pos_nil in Hlen.
      * intros Hnil. rewrite Hc, Hnil. reflexivity.
  - cbv zeta. do 4 eexists.
    split; [vm_compute; reflexivity|].
    split; [vm_compute; reflexivity|].
    split; [reflexivity|]. split; [reflexivity|].
    split; [reflexivity|]. split; reflexivity.
Qed.

Lemma indexed_sources_are_skipped_witness :
  (exists p,
     processDocuments (Examples.env Examples.corpus) Examples.corpus
                      (Some Examples.indexedRows) false = Ok p
     /\ Examples.drawingPath ∈ skipSources p
     /\ (Examples.page Examples.drawingPath "SLAB ON GRADE"
         ∉ filteredRawDocs Examples.corpus p))
  /\ seed (Examples.env Examples.corpus) false
          {| catalog := Some Examples.indexedRows; chunks := Some [] |}
     = (Ok tt, {| catalog := Some Examples.indexedRows; chunks := Some [] |}).
Proof.
  destruct indexed_sources_are_skipped as [Hgeneral _].
  destruct (Hgeneral (Examples.env Examples.corpus) Examples.indexedRows eq_refl)
    as (Hsource & Hrun & _).
  split.
  - destruct (Hsource Examples.corpus) as (p & Hp & Hdoc).
    exists p. split; [exact Hp|].
    destruct (Hdoc (Examples.page Examples.drawingPath "SLAB ON GRADE")
                Examples.drawingPath "%PDF-1.7 drawing")
      as (Hskip & _ & Hfiltered & _).
    + by left.
    + reflexivity.
    + reflexivity.
    + exists (Examples.catalogRow Examples.drawingPath "%PDF-1.7 drawing").
      split; [by left | reflexivity].
    + split; [exact Hskip | exact Hfiltered].
  - apply (Hrun _ Examples.corpus); [reflexivity | reflexivity |].
    intros doc Hdoc.
    apply elem_of_cons in Hdoc as [->|Hdoc];
      [|apply list_elem_of_singleton in Hdoc as ->].
    + exists Examples.drawingPath, "%PDF-1.7 drawing".
      split; [reflexivity|]. split; [reflexivity|].
      exists (Examples.catalogRow Examples.drawingPath "%PDF-1.7 drawing").
      split; [by left | reflexivity].
    + exists Examples.specPath, "%PDF-1.7 specification".
      split; [reflexivity|]. split; [reflexivity|].
      exists (Examples.catalogRow Examples.specPath "%PDF-1.7 specification").
      split; [right; by left | reflexivity].
Defined.




(** ** Retrieval tools *)

Section FilterFacts.

Implicit Types (result : Document) (param : option string) (name : string).

Lemma rejects_false_given param (field : option Value) :
  rejects param field = false
  <-> forall v, param = Some v -> v <> "" -> field = Some (VStr v).
Proof.
  unfold rejects. destruct param as [s|]; [|by split].
  destruct (String.eqb s "") eqn:E; cbn [negb andb].
  - apply String.eqb_eq in E. split; [|done]. by intros _ v [= <-] ?.
  - apply String.eqb_neq in E. rewrite negb_false_iff, bool_decide_eq_true.
    split; [by intros H v [= <-] _ | eauto].
Qed.

Lemma filtersOf_cons name param (fields : list (string * option string)) result :
  Forall (satisfies result) (filtersOf ((name, param) :: fields))
  <-> rejects param (metadata result !! name) = false
      /\ Forall (satisfies result) (filtersOf fields).
Proof.
  unfold filtersOf at 1. cbn [omap list_omap fst snd]. fold (filtersOf fields).
  unfold rejects. destruct param as [s|]; [|by intuition].
  destruct (String.eqb s ""); cbn [negb andb]; [by intuition|].
  rewrite Forall_cons, negb_false_iff, bool_decide_eq_true. done.
Qed.

Lemma given_false_filtersOf name param (fields : list (string * option string)) :
  given param = false ->
  filtersOf ((name, param) :: fields) = filtersOf fields.
Proof.
  unfold given, filtersOf. cbn [omap list_omap fst snd].
  destruct param as [s|]; [|done].
  by destruct (String.eqb s "").
Qed.

Lemma filter_all {A} (P : A -> Prop) `{forall x, Decision (P x)} (l : list A) :
  (forall x, P x) -> filter P l = l.
Proof.
  intros HP. induction l as [|x l IH]; [done|].
  rewrite filter_cons_True by done. by rewrite IH.
Qed.

(** The callback of the chunk search keeps exactly the results that
    satisfy every supplied filter. *)
Lemma chunks_keeps_spec params result :
  ChunksSearchTool.keeps params result = true
  <-> Forall (satisfies result) (ToolSpec.chunksFilters params).
Proof.
  unfold ToolSpec.chunksFilters. rewrite !filtersOf_cons.
  unfold ChunksSearchTool.keeps.
  repeat (destruct (rejects _ _); [by intuition|]).
  split; [|done]. intros _. repeat split. constructor.
Qed.

Lemma broad_keeps_spec params result :
  BroadSearchTool.keeps params result = true
  <-> Forall (satisfies result) (ToolSpec.broadFilters params).
Proof.
  unfold ToolSpec.broadFilters. rewrite !filtersOf_cons.
  unfold BroadSearchTool.keeps.
  repeat (destruct (rejects _ _); [by intuition|]).
  split; [|done]. intros _. repeat split. constructor.
Qed.

Lemma chunks_filteredResults_spec params (results : list Document) :
  ChunksSearchTool.filteredResults params results
  = filter (fun result => Forall (satisfies result) (ToolSpec.chunksFilters params))
           results.
Proof.
  unfold ChunksSearchTool.filteredResults.
  apply list_filter_iff. intros result. apply chunks_keeps_spec.
Qed.

Lemma broad_returnedResults_spec params (results : list Document) :
  BroadSearchTool.returnedResults params results
  = filter (fun result => Forall (satisfies result) (ToolSpec.broadFilters params))
           results.
Proof.
  unfold BroadSearchTool.returnedResults.
  destruct (given (BroadSearchTool.project params)) eqn:E1; cbn [orb];
    [apply list_filter_iff; intros result; apply broad_keeps_spec|].
  destruct (given (BroadSearchTool.discipline params)) eqn:E2; cbn [orb];
    [apply list_filter_iff; intros result; apply broad_keeps_spec|].
  destruct (given (BroadSearchTool.drawingType params)) eqn:E3; cbn [orb];
    [apply list_filter_iff; intros result; apply broad_keeps_spec|].
  destruct (given (BroadSearchTool.phase params)) eqn:E4;
    [apply list_filter_iff; intros result; apply broad_keeps_spec|].
  unfold ToolSpec.broadFilters.
  rewrite !given_false_filtersOf by done.
  symmetry. apply filter_all. intros result. constructor.
Qed.

End FilterFacts.

(** C5 as stated fails when a filter is supplied as the empty string:
    the filter is ignored, so [chunks_search] with the discipline
    filter "" returns a chunk whose discipline is Structural. *)
Lemma chunk_search_empty_filter_counterexample :
  let params := {| ChunksSearchTool.text := "slab";
                   ChunksSearchTool.source := None;
                   ChunksSearchTool.project := None;
                   ChunksSearchTool.discipline := Some "";
                   ChunksSearchTool.drawingNumber := None;
                   ChunksSearchTool.drawingType := None;
                   ChunksSearchTool.phase := None |} in
  let result := {| pageContent := "SLAB ON GRADE";
                   metadata := {[ "discipline" := VStr "Structural" ]} |} in
  ChunksSearchTool.discipline params = Some ""
  /\ ChunksSearchTool.execute (fun _ => Ok [result]) Examples.render
                              Examples.report params
     = Ok {| content := ["SLAB ON GRADE"]; isError := false |}
  /\ result ∈ ChunksSearchTool.filteredResults params [result]
  /\ metadata result !! "discipline" = Some (VStr "Structural")
  /\ metadata result !! "discipline" <> Some (VStr "").
Proof.
  intros params result. split; [reflexivity|]. split; [reflexivity|].
  split; [by left|]. split; [reflexivity|].
  subst result. cbn [metadata]. by rewrite lookup_singleton_eq.
Qed.

(** C5, amended. When the retriever answers, [chunks_search] and
    [all_chunks_search] return, without an error flag, exactly the
    similarity results that satisfy every supplied non-empty filter by
    string equality on the filtered field, in the retriever's order;
    with no such filter they return all results; and no returned
    result has a discipline other than a supplied non-empty discipline
    filter. *)
Theorem chunk_search_filters
    (retrieve : string -> Exc (list Document))
    (stringify : list Document -> string)
    (handleError : string -> Exc ToolResponse)
    (results : list Document) :
  (forall params : ChunksSearchTool.ChunksSearchParams,
     retrieve (ChunksSearchTool.text params) = Ok results ->
     ChunksSearchTool.execute retrieve stringify handleError params
     = Ok {| content :=
               [stringify
                  (filter (fun result =>
                             Forall (satisfies result) (ToolSpec.chunksFilters params))
                          results)];
             isError := false |}
     /\ (ToolSpec.chunksFilters params = [] ->
         ChunksSearchTool.execute retrieve stringify handleError params
         = Ok {| content := [stringify results]; isError := false |})
     /\ (forall d result,
           ChunksSearchTool.discipline params = Some d -> d <> "" ->
           result ∈ ChunksSearchTool.filteredResults params results ->
           metadata result !! "discipline" = Some (VStr d)))
  /\ (forall params : BroadSearchTool.BroadSearchParams,
        retrieve (BroadSearchTool.text params) = Ok results ->
        BroadSearchTool.execute retrieve stringify handleError params
        = Ok {| content :=
                  [stringify
                     (filter (fun result =>
                                Forall (satisfies result) (ToolSpec.broadFilters params))
                             results)];
                isError := false |}
        /\ (ToolSpec.broadFilters params = [] ->
            BroadSearchTool.execute retrieve stringify handleError params
            = Ok {| content := [stringify results]; isError := false |})
        /\ (forall d result,
              BroadSearchTool.discipline params = Some d -> d <> "" ->
              result ∈ BroadSearchTool.returnedResults params results ->
              metadata result !! "discipline" = Some (VStr d))).
Proof.
  split.
  - intros params Hret. unfold ChunksSearchTool.execute. rewrite Hret.
    rewrite chunks_filteredResults_spec. split; [done|]. split.
    + intros ->. f_equal. f_equal. f_equal. f_equal.
      apply filter_all. intros result. constructor.
    + intros d result Hd Hne [Hkeep _]%list_elem_of_filter.
      unfold ToolSpec.chunksFilters in Hkeep.
      rewrite !filtersOf_cons in Hkeep.
      destruct Hkeep as (_ & _ & Hkeep & _).
      by apply (proj1 (rejects_false_given _ _) Hkeep).
  - intros params Hret. unfold BroadSearchTool.execute. rewrite Hret.
    rewrite broad_returnedResults_spec. split; [done|]. split.
    + intros ->. f_equal. f_equal. f_equal. f_equal.
      apply filter_all. intros result. constructor.
    + intros d result Hd Hne [Hkeep _]%list_elem_of_filter.
      unfold ToolSpec.broadFilters in Hkeep.
      rewrite !filtersOf_cons in Hkeep.
      destruct Hkeep as (_ & Hkeep & _).
      by apply (proj1 (rejects_false_given _ _) Hkeep).
Qed.

Lemma chunk_search_filters_witness :
  ChunksSearchTool.execute Examples.retriever Examples.render Examples.report
    {| ChunksSearchTool.text := "slab";
       ChunksSearchTool.source := None;
       ChunksSearchTool.project := Some "Lift Station";
       ChunksSearchTool.discipline := Some "Structural";
       ChunksSearchTool.drawingNumber := None;
       ChunksSearchTool.drawingType := Some "";
       ChunksSearchTool.phase := None |}
  = Ok {| content := ["SLAB ON GRADE"]; isError := false |}
  /\ BroadSearchTool.execute Examples.retriever Examples.render Examples.report
       {| BroadSearchTool.text := "slab";
          BroadSearchTool.project := None;
          BroadSearchTool.discipline := None;
          BroadSearchTool.drawingType := None;
          BroadSearchTool.phase := None |}
     = Ok {| content := ["SLAB ON GRADE; PANEL SCHEDULE; GENERAL NOTES"];
             isError := false |}.
Proof.
  destruct (chunk_search_filters Examples.retriever Examples.render
              Examples.report Examples.hits) as [Hchunks Hbroad].
  split.
  - destruct (Hchunks {| ChunksSearchTool.text := "slab";
                         ChunksSearchTool.source := None;
                         ChunksSearchTool.project := Some "Lift Station";
                         ChunksSearchTool.discipline := Some "Structural";
                         ChunksSearchTool.drawingNumber := None;
                         ChunksSearchTool.drawingType := Some "";
                         ChunksSearchTool.phase := None |} eq_refl)
      as (H & _ & _).
    exact H.
  - destruct (Hbroad {| BroadSearchTool.text := "slab";
                        BroadSearchTool.project := None;
                        BroadSearchTool.discipline := None;
                        BroadSearchTool.drawingType := None;
                        BroadSearchTool.phase := None |} eq_refl)
      as (_ & H & _).
    apply H. reflexivity.
Defined.

(** C9. With the image vector store unset, [image_search] returns the
    error-flagged response with the guidance text and lets no exception
    escape, whatever the collaborators do.  Connection set-up returns
    normally, with the image store still unset, when only the image
    table cannot be opened; it throws when the chunks table or the
    catalog table cannot be opened. *)
Theorem image_search_unavailable :
  (forall (embedQuery : string -> Exc unit)
          (retrieve : VectorStore -> string -> Exc (list Document))
          (similarityText : Value -> string)
          (stringify : list ImageSearchTool.FormattedResult -> string)
          (handleError : string -> Exc ToolResponse)
          (g : Globals) (params : ImageSearchTool.ImageSearchParams),
     imageVectorStore g = None ->
     ImageSearchTool.execute embedQuery retrieve similarityText stringify
                             handleError g params
     = Ok {| content := [ImageSearchTool.unavailableText]; isError := true |})
  /\ (forall (connect : string -> Exc string)
             (openTable : string -> string -> Exc string)
             (embedding imageEmbedding : string) (g : Globals)
             (url chunksName catalogName imageName c tChunks tCatalog e : string),
        imageVectorStore g = None ->
        connect url = Ok c ->
        openTable c chunksName = Ok tChunks ->
        openTable c catalogName = Ok tCatalog ->
        openTable c imageName = Throw e ->
        exists g' log,
          connectToLanceDB connect openTable embedding imageEmbedding g
                           url chunksName catalogName imageName
          = (Ok tt, g', log)
          /\ imageVectorStore g' = None
          /\ chunksVectorStore g'
             = Some {| embeddingModel := embedding; storeTable := tChunks |}
          /\ catalogVectorStore g'
             = Some {| embeddingModel := embedding; storeTable := tCatalog |})
  /\ (forall (connect : string -> Exc string)
             (openTable : string -> string -> Exc string)
             (embedding imageEmbedding : string) (g : Globals)
             (url chunksName catalogName imageName c e : string),
        connect url = Ok c ->
        openTable c chunksName = Throw e ->
        (connectToLanceDB connect openTable embedding imageEmbedding g
                          url chunksName catalogName imageName).1.1
        = Throw e)
  /\ (forall (connect : string -> Exc string)
             (openTable : string -> string -> Exc string)
             (embedding imageEmbedding : string) (g : Globals)
             (url chunksName catalogName imageName c tChunks e : string),
        connect url = Ok c ->
        openTable c chunksName = Ok tChunks ->
        openTable c catalogName = Throw e ->
        (connectToLanceDB connect openTable embedding imageEmbedding g
                          url chunksName catalogName imageName).1.1
        = Throw e).
Proof.
  repeat split.
  - intros * Hnone. unfold ImageSearchTool.execute. by rewrite Hnone.
  - intros * Hnone Hc Hchunks Hcatalog Himage. unfold connectToLanceDB.
    rewrite Hc, Hchunks, Hcatalog, Himage. cbn.
    eexists _, _. split; [reflexivity|]. by cbn.
  - intros * Hc Hchunks. unfold connectToLanceDB. by rewrite Hc, Hchunks.
  - intros * Hc Hchunks Hcatalog. unfold connectToLanceDB.
    by rewrite Hc, Hchunks, Hcatalog.
Qed.

Lemma image_search_unavailable_witness :
  (exists g log,
     connectToLanceDB Examples.connectTo Examples.tablesWithoutImages
                      "nomic-embed-text" "clip" uninitialized
                      "/db" "chunks" "catalog" "images"
     = (Ok tt, g, log)
     /\ ImageSearchTool.execute (fun _ => Throw "no model")
          (fun _ _ => Throw "no store") (fun _ => "N/A") (fun _ => "[]")
          (fun e => Throw e) g
          {| ImageSearchTool.description := "foundation plan";
             ImageSearchTool.source := None;
             ImageSearchTool.project := None;
             ImageSearchTool.discipline := None;
             ImageSearchTool.drawingType := None |}
        = Ok {| content := [ImageSearchTool.unavailableText]; isError := true |})
  /\ (connectToLanceDB Examples.connectTo Examples.noTables
                       "nomic-embed-text" "clip" uninitialized
                       "/db" "chunks" "catalog" "images").1.1
     = Throw "Table 'chunks' was not found"
  /\ (connectToLanceDB Examples.connectTo Examples.tablesWithoutCatalog
                       "nomic-embed-text" "clip" uninitialized
                       "/db" "chunks" "catalog" "images").1.1
     = Throw "Table 'catalog' was not found".
Proof.
  destruct image_search_unavailable as (Hexec & Hconn & Hchunks & Hcatalog).
  split; [|split].
  - destruct (Hconn Examples.connectTo Examples.tablesWithoutImages
                "nomic-embed-text" "clip" uninitialized
                "/db" "chunks" "catalog" "images" "/db" "chunks" "catalog"
                "Table 'images' was not found"
                eq_refl eq_refl eq_refl eq_refl eq_refl)
      as (g & log & Hrun & Hnone & _).
    exists g, log. split; [exact Hrun|]. by apply Hexec.
  - by apply (Hchunks _ _ _ _ _ _ _ _ _ "/db").
  - by apply (Hcatalog _ _ _ _ _ _ _ _ _ "/db" "chunks").
Defined.

(** * Further properties *)

Import Derived.

(** ** Laws of the metadata merge *)

Section MergeLaws.

Implicit Types (sources xs ys : list DocumentMetadata) (key : string).

Lemma lastTruthy_elem key sources v :
  lastTruthy key sources = Some v ->
  truthy v = true /\ exists source, source ∈ sources /\ source !! key = Some v.
Proof.
  unfold lastTruthy. intros Hlast.
  apply last_Some_elem_of in Hlast.
  apply list_elem_of_omap in Hlast as (source & Hin & Hf).
  unfold truthyField in Hf.
  destruct (source !! key) as [w|] eqn:Hw; [|discriminate].
  destruct (truthy w) eqn:Ht; [|discriminate].
  simplify_eq. eauto.
Qed.

Lemma lastTruthy_is_Some key sources source v :
  source ∈ sources -> source !! key = Some v -> truthy v = true ->
  is_Some (lastTruthy key sources).
Proof.
  intros Hin Hv Ht. unfold lastTruthy. apply last_is_Some. intros Hnil.
  assert (v ∈ omap (truthyField key) sources) as Hel.
  { apply list_elem_of_omap. exists source. split; [done|].
    unfold truthyField. by rewrite Hv, Ht. }
  rewrite Hnil in Hel. by apply elem_of_nil in Hel.
Qed.

Lemma truthyField_mergeMetadata key sources :
  key <> "__proto__" ->
  truthyField key (mergeMetadata sources) = lastTruthy key sources.
Proof.
  intros Hkey. unfold truthyField. rewrite mergeMetadata_lookup by done.
  destruct (lastTruthy key sources) as [v|] eqn:Hl; [|done].
  apply lastTruthy_elem in Hl as [-> _]. done.
Qed.

Lemma lastTruthy_app key xs ys :
  lastTruthy key (xs ++ ys)
  = match lastTruthy key ys with
    | Some v => Some v
    | None => lastTruthy key xs
    end.
Proof. unfold lastTruthy. by rewrite omap_app, last_app. Qed.

Lemma lastTruthy_cons key (x : DocumentMetadata) ys :
  lastTruthy key (x :: ys)
  = match lastTruthy key ys with
    | Some v => Some v
    | None => truthyField key x
    end.
Proof.
  change (x :: ys) with ([x] ++ ys). rewrite lastTruthy_app.
  destruct (lastTruthy key ys); [done|].
  unfold lastTruthy. cbn. by destruct (truthyField key x).
Qed.

End MergeLaws.

(** X1. Every field of a merged object is a truthy value that one of
    the sources holds in that field, and a field other than [__proto__]
    that is truthy in some source is present in the merged object:
    merging invents no value and drops no field but [__proto__]. *)
Theorem mergeMetadata_fields (sources : list DocumentMetadata) (key : string) :
  (forall v, mergeMetadata sources !! key = Some v ->
     truthy v = true
     /\ exists source, source ∈ sources /\ source !! key = Some v)
  /\ (forall source v,
        key <> "__proto__" ->
        source ∈ sources -> source !! key = Some v -> truthy v = true ->
        is_Some (mergeMetadata sources !! key)).
Proof.
  split.
  - intros v H. destruct (decide (key = "__proto__")) as [->|Hkey].
    + by rewrite mergeMetadata_proto in H.
    + rewrite mergeMetadata_lookup in H by done. by apply lastTruthy_elem.
  - intros source v Hkey Hin Hv Ht. rewrite mergeMetadata_lookup by done.
    by eapply lastTruthy_is_Some.
Qed.

Lemma mergeMetadata_fields_witness :
  (truthy (VStr "Civil") = true
   /\ exists source,
        source ∈ [ ({["discipline" := VStr "Civil"]} : DocumentMetadata);
                   {["discipline" := VStr ""]} ]
        /\ source !! "discipline" = Some (VStr "Civil"))
  /\ is_Some (mergeMetadata [ {["discipline" := VStr "Civil"]};
                              {["discipline" := VStr ""]} ] !! "discipline").
Proof.
  destruct (mergeMetadata_fields
              [ {["discipline" := VStr "Civil"]}; {["discipline" := VStr ""]} ]
              "discipline") as [Hvalue Hfield].
  split.
  - apply Hvalue. reflexivity.
  - apply (Hfield {["discipline" := VStr "Civil"]} (VStr "Civil")).
    + discriminate.
    + apply elem_of_cons. by left.
    + reflexivity.
    + reflexivity.
Defined.

(** X2. Merging can be done in stages: merging a list of sources gives
    the same object as merging the later sources over the merge of the
    earlier ones, and merging a merged object alone gives it back. *)
Theorem mergeMetadata_staged :
  (forall xs ys : list DocumentMetadata,
     mergeMetadata (xs ++ ys) = mergeMetadata (mergeMetadata xs :: ys))
  /\ (forall xs : list DocumentMetadata,
        mergeMetadata [mergeMetadata xs] = mergeMetadata xs).
Proof.
  assert (forall xs ys : list DocumentMetadata,
            mergeMetadata (xs ++ ys) = mergeMetadata (mergeMetadata xs :: ys)) as H.
  { intros xs ys. apply map_eq. intros key.
    destruct (decide (key = "__proto__")) as [->|Hkey];
      [by rewrite !mergeMetadata_proto|].
    rewrite !mergeMetadata_lookup, lastTruthy_app, lastTruthy_cons by done.
    by rewrite truthyField_mergeMetadata. }
  split; [exact H|].
  intros xs. rewrite <- (H xs []). by rewrite app_nil_r.
Qed.

(** ** Shape of the metadata read off a path *)

Section PathShape.

Implicit Types (metadata : DocumentMetadata).

Lemma withProject_project pathParts metadata :
  exists project, withProject pathParts metadata !! "project" = Some (VStr project).
Proof.
  unfold withProject.
  destruct (findIndex isProjectFolder pathParts) as [i|];
    [|eexists; apply lookup_insert_eq].
  destruct (i + 1 <? length pathParts)%nat eqn:Hlt;
    [|eexists; apply lookup_insert_eq].
  destruct (negb _); [|eexists; apply lookup_insert_eq].
  apply Nat.ltb_lt in Hlt.
  destruct (lookup_lt_is_Some_2 pathParts (i + 1) Hlt) as [next Hnext].
  rewrite Hnext. exists next. cbn. apply lookup_insert_eq.
Qed.

(** Every value is a string. *)
Lemma strings_insert key s metadata :
  map_Forall (fun _ v => exists s, v = VStr s) metadata ->
  map_Forall (fun _ v => exists s, v = VStr s) (<[key := VStr s]> metadata).
Proof. intros H. apply map_Forall_insert_2; eauto. Qed.

Lemma strings_assign key (value : option Value) metadata :
  (forall v, value = Some v -> exists s, v = VStr s) ->
  map_Forall (fun _ v => exists s, v = VStr s) metadata ->
  map_Forall (fun _ v => exists s, v = VStr s) (assign key value metadata).
Proof.
  intros Hv H. destruct value as [v|]; cbn.
  - apply map_Forall_insert_2; eauto.
  - by apply map_Forall_delete.
Qed.

Lemma withDocumentType_strings normalizedPath filename metadata :
  map_Forall (fun _ v => exists s, v = VStr s) metadata ->
  map_Forall (fun _ v => exists s, v = VStr s)
             (withDocumentType normalizedPath filename metadata).
Proof.
  intros H. unfold withDocumentType.
  repeat case_match; repeat apply strings_insert; done.
Qed.

Lemma withProject_strings pathParts metadata :
  map_Forall (fun _ v => exists s, v = VStr s) metadata ->
  map_Forall (fun _ v => exists s, v = VStr s) (withProject pathParts metadata).
Proof.
  intros H. unfold withProject.
  repeat case_match; try (by apply strings_insert).
  apply strings_assign; [|by apply strings_insert].
  all: intros v Hv; apply fmap_Some in Hv as (next & _ & ->); eauto.
Qed.

Lemma withDrawingNumber_strings drawingNumber metadata :
  map_Forall (fun _ v => exists s, v = VStr s) metadata ->
  map_Forall (fun _ v => exists s, v = VStr s)
             (withDrawingNumber drawingNumber metadata).
Proof.
  intros H. unfold withDrawingNumber.
  destruct (_ && _); [|done].
  set (m0 := if negb _ then _ else metadata).
  assert (map_Forall (fun _ v => exists s, v = VStr s) m0) as H0.
  { subst m0. destruct (negb _); [|done].
    apply strings_assign; [|done].
    intros v Hv. destruct (disciplineMap _); simplify_eq; eauto. }
  clearbody m0.
  destruct (1 <? _)%nat; [|done].
  set (m1 := match split "-" drawingNumber !! 1%nat with
             | Some _ => _ | None => _ end).
  assert (map_Forall (fun _ v => exists s, v = VStr s) m1) as H1.
  { subst m1. repeat case_match; try apply strings_insert; done. }
  clearbody m1.
  repeat case_match; repeat apply strings_insert; done.
Qed.

(** The drawing block on a drawing with a non-empty number, field by
    field. *)
Lemma withDrawingNumber_drawing drawingNumber metadata :
  metadata !! "documentType" = Some (VStr "Drawing") ->
  drawingNumber <> "" ->
  let parts := split "-" drawingNumber in
  let md := withDrawingNumber drawingNumber metadata in
  md !! "discipline"
  = match disciplineMap (toUpperCase (charAt0 drawingNumber)) with
    | Some d => Some (VStr d)
    | None => metadata !! "discipline"
    end
  /\ md !! "buildingArea"
     = match parts !! 1%nat with
       | Some p1 => if String.eqb p1 "" then metadata !! "buildingArea"
                    else Some (VStr p1)
       | None => metadata !! "buildingArea"
       end
  /\ md !! "sheetNumber"
     = match parts !! 2%nat with
       | Some p2 => if String.eqb p2 "" then metadata !! "sheetNumber"
                    else Some (VStr p2)
       | None => metadata !! "sheetNumber"
       end
  /\ md !! "drawingType"
     = match parts !! 2%nat with
       | Some p2 => if String.eqb p2 "" then metadata !! "drawingType"
                    else match sheetBand (parseInt p2) with
                         | Some t => Some (VStr t)
                         | None => metadata !! "drawingType"
                         end
       | None => metadata !! "drawingType"
       end.
Proof.
  intros Hdoc Hne parts md. subst md. unfold withDrawingNumber.
  rewrite (bool_decide_eq_true_2 _ Hdoc).
  apply String.eqb_neq in Hne as Hne'. rewrite Hne'. cbn [negb andb].
  assert (negb (charAt0 drawingNumber =? "")%string = true) as ->
    by (by destruct drawingNumber).
  set (m0 := assign "discipline" _ metadata).
  assert (m0 !! "discipline"
          = match disciplineMap (toUpperCase (charAt0 drawingNumber)) with
            | Some d => Some (VStr d)
            | None => metadata !! "discipline"
            end) as Hdisc by (subst m0; apply assign_lookup_eq).
  assert (forall key, key <> "discipline" -> m0 !! key = metadata !! key) as Hframe
    by (intros key Hk; subst m0; by apply assign_lookup_ne).
  clearbody m0. fold parts.
  destruct (1 <? length parts)%nat eqn:Hlen.
  - destruct (parts !! 1%nat) as [p1|]; [destruct (String.eqb p1 "")|];
      (destruct (parts !! 2%nat) as [p2|];
         [destruct (String.eqb p2 ""); [|destruct (sheetBand (parseInt p2))]|]);
      cbn [negb]; simplify_map_eq;
      rewrite ?(Hframe "buildingArea"), ?(Hframe "sheetNumber"),
        ?(Hframe "drawingType") by done;
      done.
  - apply Nat.ltb_ge in Hlen.
    rewrite !(lookup_ge_None_2 parts) by lia.
    by rewrite (Hframe "buildingArea"), (Hframe "sheetNumber"),
      (Hframe "drawingType").
Qed.

Lemma sheetBand_hundreds (n : Z) :
  sheetBand (Some n)
  = if ((1 <=? n) && (n <=? 699))%Z then drawingTypes !! Z.to_nat (n / 100)
    else None.
Proof.
  unfold sheetBand, numGe, numLe.
  assert (n < 1 \/ 700 <= n
          \/ exists k, 0 <= k <= 6 /\ 100 * k <= n <= 100 * k + 99 /\ 1 <= n)%Z
    as [Hlow|[Hhigh|(k & Hk & Hn & Hpos)]].
  { destruct (Z.ltb_spec n 1) as [?|Hge]; [by left|].
    destruct (Z.leb_spec 700 n) as [?|Hlt]; [right; by left|].
    right. right. exists (n / 100)%Z.
    pose proof (Z.div_mod n 100 ltac:(lia)) as Hdiv.
    pose proof (Z.mod_pos_bound n 100 ltac:(lia)) as Hmod.
    lia. }
  - repeat match goal with
           | |- context [(?a <=? ?b)%Z] =>
               first [ rewrite (proj2 (Z.leb_le a b)) by lia
                     | rewrite (proj2 (Z.leb_gt a b)) by lia ]
           end.
    reflexivity.
  - repeat match goal with
           | |- context [(?a <=? ?b)%Z] =>
               first [ rewrite (proj2 (Z.leb_le a b)) by lia
                     | rewrite (proj2 (Z.leb_gt a b)) by lia ]
           end.
    reflexivity.
  - replace (n / 100)%Z with k
      by (apply (Z.div_unique n 100 k (n - 100 * k)); lia).
    assert (k = 0 \/ k = 1 \/ k = 2 \/ k = 3 \/ k = 4 \/ k = 5 \/ k = 6)%Z
      as Hks by lia.
    destruct Hks as [->|[->|[->|[->|[->|[->| ->]]]]]];
      repeat match goal with
             | |- context [(?a <=? ?b)%Z] =>
                 first [ rewrite (proj2 (Z.leb_le a b)) by lia
                       | rewrite (proj2 (Z.leb_gt a b)) by lia ]
             end;
      reflexivity.
Qed.

Lemma replaceAll_backslashes (filePath : string) :
  normalizePath (replaceAll "/" "\" filePath) = normalizePath filePath.
Proof.
  unfold normalizePath, replaceAll.
  induction filePath as [|c rest IH]; [done|].
  cbn [mapString]. rewrite IH. f_equal.
  destruct (Ascii.eqb_spec c "/") as [->|Hc]; [done|].
  done.
Qed.

Lemma normalizePath_idempotent (filePath : string) :
  normalizePath (normalizePath filePath) = normalizePath filePath.
Proof.
  unfold normalizePath, replaceAll.
  induction filePath as [|c rest IH]; [done|].
  cbn [mapString]. rewrite IH. f_equal.
  destruct (Ascii.eqb_spec c "\") as [->|Hc]; [done|].
  by apply Ascii.eqb_neq in Hc as ->.
Qed.

(** The path block on a file outside the Drawings folders. *)
Lemma not_drawing_block filePath :
  includes "/Drawings/" (normalizePath filePath) = false ->
  exists metadata,
    extractMetadataFromPath filePath
    = withProject (split "/" (normalizePath filePath)) metadata
    /\ metadata
       = withDocumentType (normalizePath filePath)
           (basename (normalizePath filePath) None)
           {["drawingNumber" := VStr (stem filePath)]}
    /\ metadata !! "documentType" <> Some (VStr "Drawing").
Proof.
  intros Hd. eexists. split; [|split; [reflexivity|]].
  - unfold extractMetadataFromPath.
    rewrite withDrawingNumber_not_drawing; [reflexivity|].
    rewrite withProject_lookup_ne by done.
    unfold withDocumentType. rewrite Hd.
    repeat case_match; by simplify_map_eq.
  - unfold withDocumentType. rewrite Hd.
    repeat case_match; by simplify_map_eq.
Qed.

Lemma path_metadata_shape_facts filePath :
  extractMetadataFromPath filePath !! "drawingNumber"
  = Some (VStr (stem filePath))
  /\ exists project,
       extractMetadataFromPath filePath !! "project" = Some (VStr project).
Proof.
  split.
  - unfold extractMetadataFromPath.
    rewrite withDrawingNumber_lookup_other by done.
    rewrite withProject_lookup_ne by done.
    rewrite withDocumentType_lookup_other by done.
    apply lookup_insert_eq.
  - unfold extractMetadataFromPath.
    rewrite withDrawingNumber_lookup_project.
    apply withProject_project.
Qed.

End PathShape.

(** X3. Whatever the path, the metadata read off it has a drawing
    number, the file name without its extension, and a project; it has
    no field besides the seven of the path extractor, and the value of
    every field is a string. *)
Theorem path_metadata_shape (filePath : string) :
  extractMetadataFromPath filePath !! "drawingNumber"
  = Some (VStr (stem filePath))
  /\ (exists project,
        extractMetadataFromPath filePath !! "project" = Some (VStr project))
  /\ (forall key v,
        extractMetadataFromPath filePath !! key = Some v ->
        key ∈ pathFields /\ exists s, v = VStr s).
Proof.
  destruct (path_metadata_shape_facts filePath) as [Hnumber Hproject].
  split; [done|]. split; [done|].
  intros key v Hv. split.
  - destruct (decide (key ∈ pathFields)) as [|Hnot]; [done|].
    rewrite (extractMetadataFromPath_lacks filePath key Hnot) in Hv.
    discriminate.
  - revert key v Hv. change (map_Forall (fun _ v => exists s, v = VStr s)
                                 (extractMetadataFromPath filePath)).
    unfold extractMetadataFromPath.
    apply withDrawingNumber_strings, withProject_strings,
      withDocumentType_strings, strings_insert, map_Forall_empty.
Qed.

Lemma path_metadata_shape_witness :
  "project" ∈ pathFields /\ exists s, VStr "Lift Station" = VStr s.
Proof.
  destruct (path_metadata_shape "/srv/Projects/Lift Station/Drawings/S-46-1001.pdf")
    as (_ & _ & Hfields).
  apply Hfields. reflexivity.
Defined.

(** X4. The metadata read off a path does not depend on the kind of
    separators: a path written with backslashes, and a path already
    normalised, give the metadata of the path written with slashes. *)
Theorem path_metadata_separators (filePath : string) :
  extractMetadataFromPath (replaceAll "/" "\" filePath)
  = extractMetadataFromPath filePath
  /\ extractMetadataFromPath (normalizePath filePath)
     = extractMetadataFromPath filePath.
Proof.
  unfold extractMetadataFromPath.
  by rewrite replaceAll_backslashes, normalizePath_idempotent.
Qed.

(** X5. A file is a drawing exactly when its path has a Drawings
    folder.  Any other file gets no building area, sheet number or
    drawing type, whatever its name, and gets a discipline only as a
    specification. *)
Theorem drawing_fields_only_for_drawings (filePath : string) :
  (extractMetadataFromPath filePath !! "documentType" = Some (VStr "Drawing")
   <-> includes "/Drawings/" (normalizePath filePath) = true)
  /\ (includes "/Drawings/" (normalizePath filePath) = false ->
      extractMetadataFromPath filePath !! "buildingArea" = None
      /\ extractMetadataFromPath filePath !! "sheetNumber" = None
      /\ extractMetadataFromPath filePath !! "drawingType" = None
      /\ (is_Some (extractMetadataFromPath filePath !! "discipline") ->
          extractMetadataFromPath filePath !! "documentType"
          = Some (VStr "Specification"))).
Proof.
  assert (includes "/Drawings/" (normalizePath filePath) = false ->
          extractMetadataFromPath filePath !! "documentType"
          <> Some (VStr "Drawing")
          /\ extractMetadataFromPath filePath !! "buildingArea" = None
          /\ extractMetadataFromPath filePath !! "sheetNumber" = None
          /\ extractMetadataFromPath filePath !! "drawingType" = None
          /\ (is_Some (extractMetadataFromPath filePath !! "discipline") ->
              extractMetadataFromPath filePath !! "documentType"
              = Some (VStr "Specification"))) as Hother.
  { intros Hd.
    destruct (not_drawing_block filePath Hd) as (metadata & -> & Hm & Hdoc).
    rewrite !withProject_lookup_ne by done.
    split; [done|].
    rewrite Hm, !withDocumentType_lookup_other by done.
    repeat split; try by simplify_map_eq.
    rewrite <- Hm. subst metadata. unfold withDocumentType. rewrite Hd.
    repeat case_match; simplify_map_eq; try done; by intros [? ?]. }
  split; [split|].
  - intros Hdoc. destruct (includes "/Drawings/" _) eqn:Hd; [done|].
    by destruct (Hother eq_refl) as [Hne _].
  - intros Hd. destruct (drawing_block_input filePath Hd)
      as (metadata & -> & Hdoc & _).
    by rewrite withDrawingNumber_lookup_other.
  - intros Hd. by destruct (Hother Hd) as (_ & ? & ? & ? & ?).
Qed.

Lemma drawing_fields_only_for_drawings_witness :
  extractMetadataFromPath "/srv/Submittals/S-46-150.pdf" !! "buildingArea" = None
  /\ extractMetadataFromPath "/srv/Submittals/S-46-150.pdf" !! "sheetNumber" = None
  /\ extractMetadataFromPath "/srv/Submittals/S-46-150.pdf" !! "drawingType" = None
  /\ (is_Some (extractMetadataFromPath "/srv/Submittals/S-46-150.pdf"
               !! "discipline") ->
      extractMetadataFromPath "/srv/Submittals/S-46-150.pdf" !! "documentType"
      = Some (VStr "Specification")).
Proof.
  destruct (drawing_fields_only_for_drawings "/srv/Submittals/S-46-150.pdf")
    as [_ H].
  apply H. reflexivity.
Defined.

(** X6. The third dash-separated part of a drawing number is the sheet
    number, and the drawing type goes by its hundreds: sheets 1 to 699
    get the type of their hundred, General for 1 to 99 up to Diagrams
    for 600 to 699, and any other sheet gets none. *)
Theorem sheet_number_bands (filePath sheet : string) :
  includes "/Drawings/" (normalizePath filePath) = true ->
  split "-" (stem filePath) !! 2%nat = Some sheet ->
  sheet <> "" ->
  extractMetadataFromPath filePath !! "sheetNumber" = Some (VStr sheet)
  /\ extractMetadataFromPath filePath !! "drawingType"
     = match parseInt sheet with
       | Some n =>
           if ((1 <=? n) && (n <=? 699))%Z
           then VStr <$> drawingTypes !! Z.to_nat (n / 100)
           else None
       | None => None
       end.
Proof.
  intros Hd Hsheet Hne.
  destruct (drawing_block_input filePath Hd)
    as (metadata & -> & Hdoc & _ & _ & Hs & Ht).
  pose proof (split_third_nonempty _ _ _ Hsheet) as Hstem.
  destruct (withDrawingNumber_drawing (stem filePath) metadata Hdoc Hstem)
    as (_ & _ & Hsn & Hdt).
  rewrite Hsn, Hdt, Hsheet.
  apply String.eqb_neq in Hne as ->. split; [done|].
  destruct (parseInt sheet) as [n|] eqn:Hn.
  - rewrite sheetBand_hundreds.
    destruct ((1 <=? n) && (n <=? 699))%Z; [|done].
    by destruct (drawingTypes !! Z.to_nat (n / 100)).
  - done.
Qed.

Lemma sheet_number_bands_witness :
  extractMetadataFromPath "/in/Drawings/E-2-0615.pdf" !! "sheetNumber"
  = Some (VStr "0615")
  /\ extractMetadataFromPath "/in/Drawings/E-2-0615.pdf" !! "drawingType"
     = match parseInt "0615" with
       | Some n =>
           if ((1 <=? n) && (n <=? 699))%Z
           then VStr <$> drawingTypes !! Z.to_nat (n / 100)
           else None
       | None => None
       end.
Proof.
  apply (sheet_number_bands "/in/Drawings/E-2-0615.pdf" "0615");
    [reflexivity | reflexivity | discriminate].
Defined.

(** X7. The discipline of a drawing is the one its number's first
    letter stands for, in either case, and is unset for any other first
    character; the building area is the second dash-separated part of
    the number when that part is not empty. *)
Theorem drawing_discipline_and_area (filePath : string) (c : ascii) (rest : string) :
  includes "/Drawings/" (normalizePath filePath) = true ->
  stem filePath = String c rest ->
  extractMetadataFromPath filePath !! "discipline"
  = VStr <$> disciplineMap (String (upperChar c) "")
  /\ extractMetadataFromPath filePath !! "buildingArea"
     = match split "-" (stem filePath) !! 1%nat with
       | Some area => if String.eqb area "" then None else Some (VStr area)
       | None => None
       end.
Proof.
  intros Hd Hstem.
  destruct (drawing_block_input filePath Hd)
    as (metadata & -> & Hdoc & Hdisc & Harea & _).
  assert (stem filePath <> "") as Hne by (rewrite Hstem; discriminate).
  destruct (withDrawingNumber_drawing (stem filePath) metadata Hdoc Hne)
    as (-> & -> & _).
  rewrite Hdisc, Harea, Hstem. cbn [charAt0 toUpperCase mapString].
  split.
  - by destruct (disciplineMap _).
  - by repeat case_match.
Qed.

Lemma drawing_discipline_and_area_witness :
  extractMetadataFromPath "/in/Drawings/e-2-0615.pdf" !! "discipline"
  = VStr <$> disciplineMap (String (upperChar "e") "")
  /\ extractMetadataFromPath "/in/Drawings/e-2-0615.pdf" !! "buildingArea"
     = match split "-" (stem "/in/Drawings/e-2-0615.pdf") !! 1%nat with
       | Some area => if String.eqb area "" then None else Some (VStr area)
       | None => None
       end.
Proof.
  apply (drawing_discipline_and_area "/in/Drawings/e-2-0615.pdf" "e" "-2-0615");
    reflexivity.
Defined.

(** ** Grouping, accounting and the state of the database *)

Section GroupFacts.

Implicit Types (rawDocs docs : list Document) (doc : Document).

Lemma pushDoc_Forall (Q : string * list Document -> Prop)
    (acc : list (string * list Document)) source doc :
  NoDup acc.*1 ->
  (forall k ds, (k, ds) ∈ acc -> k <> source -> Q (k, ds)) ->
  (forall ds, (source, ds) ∈ acc -> Q (source, ds ++ [doc])) ->
  (source ∉ acc.*1 -> Q (source, [doc])) ->
  Forall Q (pushDoc acc source doc).
Proof.
  induction acc as [|[k ds] acc IH]; intros Hnd Hother Hsame Hnew.
  - cbn. constructor; [|constructor]. apply Hnew. by intros ?%elem_of_nil.
  - rewrite fmap_cons in Hnd. apply NoDup_cons in Hnd as [Hk Hnd]. cbn [fst] in Hk.
    cbn [pushDoc]. destruct (String.eqb_spec k source) as [->|Hne].
    + constructor; [apply Hsame; by left|].
      apply Forall_forall. intros [k' ds'] Hin. apply Hother; [by right|].
      intros ->. apply Hk. apply list_elem_of_fmap. by exists (source, ds').
    + constructor; [apply Hother; [by left | done]|].
      apply IH; [done | | |].
      * intros k' ds' Hin. apply Hother. by right.
      * intros ds' Hin. apply Hsame. by right.
      * intros Hnin. apply Hnew. rewrite fmap_cons. cbn [fst].
        intros [?|?]%elem_of_cons; by subst.
Qed.

Lemma filter_snoc {A} (P : A -> Prop) `{forall x, Decision (P x)} (l : list A) x :
  filter P (l ++ [x]) = filter P l ++ (if decide (P x) then [x] else []).
Proof.
  by rewrite filter_app.
Qed.

(** Each group holds the documents of its source, in their order. *)
Lemma groupBySource_groups rawDocs :
  Forall (fun entry : string * list Document =>
            entry.2 <> []
            /\ entry.2 = filter (fun doc => toPropertyKey (sourceOf doc) = entry.1)
                                rawDocs)
         (groupBySource rawDocs).
Proof.
  induction rawDocs as [|doc rawDocs IH] using rev_ind; [constructor|].
  rewrite groupBySource_snoc. rewrite Forall_forall in IH.
  apply pushDoc_Forall; [apply groupBySource_NoDup| | |].
  - intros k ds Hin Hne. destruct (IH _ Hin) as [Hnil Hds]. cbn [fst snd] in *.
    split; [done|]. rewrite filter_snoc, decide_False by done.
    by rewrite app_nil_r.
  - intros ds Hin. destruct (IH _ Hin) as [Hnil Hds]. cbn [fst snd] in *.
    split; [by destruct ds|]. rewrite filter_snoc, decide_True by done.
    by rewrite <- Hds.
  - intros Hnin. cbn [fst snd]. split; [done|].
    rewrite filter_snoc, decide_True by done.
    rewrite filter_none; [done|].
    intros d Hd Hkey. apply Hnin. apply groupBySource_keys. by exists d.
Qed.

End GroupFacts.

(** X8. Grouping by source is a partition of the loaded documents:
    each source has exactly one group, no group is empty, a group holds
    the documents of its source in the order in which they were loaded,
    and every document falls into the group of its source. *)
Theorem groupBySource_partition (rawDocs : list Document) :
  NoDup (groupBySource rawDocs).*1
  /\ (forall source docs,
        (source, docs) ∈ groupBySource rawDocs ->
        docs <> []
        /\ docs = filter (fun doc => toPropertyKey (sourceOf doc) = source) rawDocs)
  /\ (forall doc,
        doc ∈ rawDocs ->
        exists docs,
          (toPropertyKey (sourceOf doc), docs) ∈ groupBySource rawDocs
          /\ doc ∈ docs).
Proof.
  pose proof (groupBySource_groups rawDocs) as Hgroups.
  rewrite Forall_forall in Hgroups.
  split; [apply groupBySource_NoDup|]. split.
  - intros source docs Hin. exact (Hgroups _ Hin).
  - intros doc Hdoc.
    assert (toPropertyKey (sourceOf doc) ∈ (groupBySource rawDocs).*1) as Hkey
      by (apply groupBySource_keys; by exists doc).
    apply list_elem_of_fmap in Hkey as ([k docs] & Hk & Hin). cbn [fst] in Hk.
    subst k. exists docs. split; [done|].
    destruct (Hgroups _ Hin) as [_ Hdocs]. cbn [fst snd] in Hdocs.
    rewrite Hdocs. by apply list_elem_of_filter.
Qed.

Lemma groupBySource_partition_witness :
  let first := Examples.page Examples.drawingPath "SLAB ON GRADE" in
  let second := Examples.page Examples.specPath "PAINTING" in
  let third := Examples.page Examples.drawingPath "FOOTINGS" in
  [first; third] <> []
  /\ [first; third]
     = filter (fun doc => toPropertyKey (sourceOf doc) = Examples.drawingPath)
              [first; second; third].
Proof.
  intros first second third.
  destruct (groupBySource_partition [first; second; third]) as (_ & Hgroup & _).
  apply Hgroup. vm_compute. left.
Defined.

Section AccountFacts.

Variable env : Env.
Variable catalogTable : option (list Document).
Variable skipExistsCheck : bool.

Lemma outcome_count (entries : list (string * list Document)) :
  (length (omap (skippedBy env catalogTable skipExistsCheck) entries)
   + length (omap (stagedBy env catalogTable skipExistsCheck) entries)
   + length (failures (loggedBy env catalogTable skipExistsCheck <$> entries))
   = length entries)%nat.
Proof.
  induction entries as [|[source docs] entries IH]; [done|].
  unfold failures in *. rewrite fmap_cons. cbn [omap list_omap length].
  unfold skippedBy at 1, stagedBy at 1, loggedBy at 1. cbn [fst snd].
  destruct (tryDocument env catalogTable skipExistsCheck source docs)
    as [[hash|overview record]|e]; cbn [length]; lia.
Qed.

Lemma reported_not_skipped (entries : list (string * list Document)) source :
  source ∈ reported (loggedBy env catalogTable skipExistsCheck <$> entries) ->
  exists docs,
    (source, docs) ∈ entries
    /\ skippedBy env catalogTable skipExistsCheck (source, docs) = None.
Proof.
  unfold reported. intros Hin.
  apply list_elem_of_omap in Hin as (entry & Hentry & Hsrc).
  apply list_elem_of_fmap in Hentry as ([s docs] & -> & Hin).
  unfold loggedBy in Hsrc. cbn [fst snd] in Hsrc.
  destruct (tryDocument env catalogTable skipExistsCheck s docs)
    as [[hash|overview record]|e] eqn:Htry; simplify_eq;
    (exists docs; split; [done|]; unfold skippedBy; cbn [fst snd];
     by rewrite Htry).
Qed.

Lemma NoDup_omap_skipped (entries : list (string * list Document)) :
  NoDup entries.*1 ->
  NoDup (omap (skippedBy env catalogTable skipExistsCheck) entries).
Proof.
  induction entries as [|[source docs] entries IH]; [constructor|].
  rewrite fmap_cons. intros [Hk Hnd]%NoDup_cons. cbn [fst] in Hk.
  cbn [omap list_omap]. destruct (skippedBy _ _ _ (source, docs)) as [s|] eqn:Hs;
    [|by apply IH].
  apply NoDup_cons. split; [|by apply IH].
  intros Hin. apply list_elem_of_omap in Hin as ([s' docs'] & Hin & Hs').
  unfold skippedBy in Hs, Hs'. cbn [fst snd] in *.
  repeat case_match; simplify_eq.
  apply Hk. apply list_elem_of_fmap. by exists (s, docs').
Qed.

End AccountFacts.

(** X9. When [processDocuments] returns, every source has exactly one
    outcome: the skipped sources, the new catalog records and the
    failures reported on the console add up to the number of sources,
    the console has one entry per source, no source is skipped twice,
    and a skipped source is reported neither with an overview nor with
    an error. *)
Theorem processDocuments_accounting (env : Env) (rawDocs : list Document)
    (catalogTable : option (list Document)) (skipExistsCheck : bool)
    (p : Processed) :
  processDocuments env rawDocs catalogTable skipExistsCheck = Ok p ->
  (length (skipSources p) + length (catalogRecords p)
   + length (failures (console p))
   = length (groupBySource rawDocs))%nat
  /\ length (console p) = length (groupBySource rawDocs)
  /\ NoDup (skipSources p)
  /\ (forall source, source ∈ skipSources p -> source ∉ reported (console p)).
Proof.
  unfold processDocuments. destruct (mkdirTemp env) as [[]|e]; [|discriminate].
  cbn [bind]. intros [= <-].
  destruct (processSource_fold env catalogTable skipExistsCheck
              (groupBySource rawDocs)
              {| skipSources := []; catalogRecords := []; console := [] |})
    as (Hs & Hr & Hc).
  cbn zeta in Hs, Hr, Hc. rewrite Hs, Hr, Hc. cbn [skipSources catalogRecords console app].
  split; [apply outcome_count|]. split; [by rewrite length_fmap|].
  split; [apply NoDup_omap_skipped, groupBySource_NoDup|].
  intros source Hskip Hrep.
  apply reported_not_skipped in Hrep as (docs & Hin & Hnone).
  apply list_elem_of_omap in Hskip as ([s docs'] & Hin' & Hsome).
  assert (s = source) as ->.
  { unfold skippedBy in Hsome. cbn [fst snd] in Hsome.
    by repeat case_match; simplify_eq. }
  rewrite (NoDup_fst_unique _ _ _ _ (groupBySource_NoDup rawDocs) Hin Hin') in Hnone.
  congruence.
Qed.

Lemma processDocuments_accounting_witness :
  let rawDocs := [ Examples.page Examples.drawingPath "SLAB ON GRADE";
                   Examples.page Examples.missingPath "FLOOR PLAN";
                   Examples.page Examples.specPath "PAINTING" ] in
  let p := {| skipSources := [Examples.drawingPath];
              catalogRecords :=
                [ {| pageContent := "A construction document.";
                     metadata :=
                       {[ "documentType" := VStr "Specification";
                          "discipline" := VStr "Architectural";
                          "drawingNumber" := VStr "Division 09 - Finishes";
                          "project" := VStr "PDFdrawings";
                          "source" := VStr Examples.specPath;
                          "hash" := VStr "sha256:%PDF-1.7 specification" ]} |} ];
              console :=
                [ LogExists "sha256:%PDF-1.7 drawing";
                  LogError Examples.missingPath "ENOENT: no such file or directory";
                  LogOverview Examples.specPath "A construction document." ] |} in
  (length (skipSources p) + length (catalogRecords p)
   + length (failures (console p))
   = length (groupBySource rawDocs))%nat
  /\ length (console p) = length (groupBySource rawDocs)
  /\ NoDup (skipSources p)
  /\ (forall source, source ∈ skipSources p -> source ∉ reported (console p)).
Proof.
  intros rawDocs p.
  apply (processDocuments_accounting (Examples.env rawDocs) rawDocs
           (Some [Examples.catalogRow Examples.drawingPath "%PDF-1.7 drawing"])
           false p).
  vm_compute. reflexivity.
Defined.

Section OverwriteFacts.

Variable env : Env.

Lemma notSkipped_nil doc : notSkipped [] doc = true.
Proof. unfold notSkipped. by repeat case_match. Qed.

Lemma skippedBy_unchecked catalogTable (entry : string * list Document) :
  skippedBy env catalogTable true entry = None.
Proof.
  unfold skippedBy.
  destruct (tryDocument env catalogTable true entry.1 entry.2)
    as [[hash|overview record]|e] eqn:Htry; try done.
  by apply tryDocument_AlreadyIndexed_inv in Htry as (? & ? & ? & _ & ? & _).
Qed.

End OverwriteFacts.

(** X10. When the existence check is switched off, as it is for
    [--overwrite] and for a database without catalog, the catalog table
    plays no role: the outcome is the same for any table, no source is
    skipped and every loaded document goes on to the splitter.  A run
    with [--overwrite] ends the same whatever the database held. *)
Theorem unchecked_run_ignores_catalog (env : Env) (rawDocs : list Document)
    (catalogTable : option (list Document)) :
  (forall catalogTable',
     processDocuments env rawDocs catalogTable true
     = processDocuments env rawDocs catalogTable' true)
  /\ (forall p,
        processDocuments env rawDocs catalogTable true = Ok p ->
        skipSources p = [] /\ filteredRawDocs rawDocs p = rawDocs)
  /\ (forall db,
        seed env true db = seed env true {| catalog := None; chunks := None |}).
Proof.
  split; [reflexivity|]. split; [|reflexivity].
  intros p. unfold processDocuments.
  destruct (mkdirTemp env) as [[]|e]; [|discriminate].
  cbn [bind]. intros [= <-].
  destruct (processSource_fold env catalogTable true (groupBySource rawDocs)
              {| skipSources := []; catalogRecords := []; console := [] |})
    as (Hs & _).
  cbn zeta in Hs. cbn [skipSources app] in Hs.
  assert (skipSources
            (foldl (processSource env catalogTable true)
                   {| skipSources := []; catalogRecords := []; console := [] |}
                   (groupBySource rawDocs)) = []) as Hnil.
  { rewrite Hs. apply omap_nil. intros entry _. apply skippedBy_unchecked. }
  split; [done|].
  unfold filteredRawDocs. rewrite Hnil. apply filter_all.
  intros doc. apply notSkipped_nil.
Qed.

Lemma unchecked_run_ignores_catalog_witness :
  let rawDocs := [ Examples.page Examples.drawingPath "SLAB ON GRADE" ] in
  let p := {| skipSources := [];
              catalogRecords :=
                [ {| pageContent := "A construction document.";
                     metadata :=
                       {[ "documentType" := VStr "Drawing";
                          "discipline" := VStr "Structural";
                          "buildingArea" := VStr "46";
                          "sheetNumber" := VStr "1001";
                          "drawingNumber" := VStr "S-46-1001";
                          "project" := VStr "PDFdrawings";
                          "source" := VStr Examples.drawingPath;
                          "hash" := VStr "sha256:%PDF-1.7 drawing" ]} |} ];
              console :=
                [ LogOverview Examples.drawingPath "A construction document." ] |} in
  skipSources p = [] /\ filteredRawDocs rawDocs p = rawDocs.
Proof.
  intros rawDocs p.
  destruct (unchecked_run_ignores_catalog (Examples.env rawDocs) rawDocs
              (Some Examples.indexedRows)) as (_ & H & _).
  apply H. vm_compute. reflexivity.
Defined.

(** X11. A run writes a table only by creating it anew from what the
    run staged for it.  Once the documents are loaded, the catalog that
    the run leaves is exactly the staged catalog records when there are
    any and their embedding succeeds, and the table as the run found it
    (dropped, for [--overwrite]) otherwise; the chunks table is exactly
    the chunks of the run when the run ends well and there are any, and
    as found otherwise.  So the rows that a table held before a run
    without [--overwrite] are not kept when the run writes to it. *)
Theorem seed_writes_tables_anew (env : Env) (overwrite : bool)
    (db db' : Database) (loaded : list Document) (result : Exc unit) :
  mkdirTemp env = Ok tt ->
  loadDirectory env = Ok loaded ->
  seed env overwrite db = (result, db') ->
  let rawDocs := map essentialMetadata loaded in
  let base := if overwrite then {| catalog := None; chunks := None |} else db in
  exists p,
    processDocuments env rawDocs (catalog db)
                     (overwrite || negb (bool_decide (is_Some (catalog db))))
    = Ok p
    /\ (catalogRecords p = [] -> catalog db' = catalog base)
    /\ (catalogRecords p <> [] ->
        embedDocuments env (catalogRecords p) = Ok tt ->
        catalog db' = Some (catalogRecords p))
    /\ (forall e,
          catalogRecords p <> [] ->
          embedDocuments env (catalogRecords p) = Throw e ->
          result = Throw e /\ db' = base)
    /\ (result = Ok tt ->
        chunkDocs env rawDocs p <> [] ->
        chunks db' = Some (chunkDocs env rawDocs p))
    /\ (result = Ok tt -> chunkDocs env rawDocs p = [] -> chunks db' = chunks base)
    /\ (forall e, result = Throw e -> chunks db' = chunks base).
Proof.
  intros Hmk Hload Hrun rawDocs base.
  eexists. split; [by apply processDocuments_Ok|].
  set (p := foldl _ _ _).
  rewrite (seed_run env Hmk overwrite db loaded Hload) in Hrun.
  fold rawDocs in Hrun. fold p in Hrun. fold base in Hrun.
  unfold fromDocuments in Hrun.
  destruct (catalogRecords p) as [|record records] eqn:Hrecords;
    cbn [length Nat.ltb Nat.leb] in Hrun.
  - destruct (chunkDocs env rawDocs p) as [|chunk docs] eqn:Hdocs;
      cbn [length Nat.ltb Nat.leb] in Hrun.
    + injection Hrun as <- <-. repeat split; try done.
    + destruct (embedDocuments env (chunk :: docs)) as [[]|e0];
        cbn [bind] in Hrun; injection Hrun as <- <-; repeat split; try done.
  - destruct (embedDocuments env (record :: records)) as [[]|e0] eqn:Hembed;
      cbn [bind] in Hrun.
    + destruct (chunkDocs env rawDocs p) as [|chunk docs] eqn:Hdocs;
        cbn [length Nat.ltb Nat.leb] in Hrun.
      * injection Hrun as <- <-. repeat split; try done.
      * destruct (embedDocuments env (chunk :: docs)) as [[]|e1];
          cbn [bind] in Hrun; injection Hrun as <- <-; repeat split; try done.
    + injection Hrun as <- <-. repeat split; try done.
      all: by intros e _ [= ->].
Qed.

Lemma seed_writes_tables_anew_witness :
  let env := Examples.env Examples.corpus in
  let db' := snd (seed env false Examples.drawingIndexed) in
  exists p,
    processDocuments env Examples.corpus (catalog Examples.drawingIndexed) false
    = Ok p
    /\ catalog db' = Some (catalogRecords p)
    /\ Examples.catalogRow Examples.drawingPath "%PDF-1.7 drawing"
       ∉ catalogRecords p.
Proof.
  intros env db'.
  destruct (seed_writes_tables_anew env false Examples.drawingIndexed db'
              Examples.corpus (Ok tt))
    as (p & Hp & _ & Hcatalog & _).
  - reflexivity.
  - reflexivity.
  - vm_compute. reflexivity.
  - exists p. split; [exact Hp|].
    assert (p = {| skipSources := skipSources p;
                   catalogRecords := catalogRecords p;
                   console := console p |}) as Hrecord by by destruct p.
    injection Hp as <-.
    split.
    + apply Hcatalog; [discriminate | reflexivity].
    + apply (bool_decide_unpack _). vm_compute. reflexivity.
Defined.

(** X12. Seeding is idempotent after a run that staged a record for
    every source: a second run without [--overwrite] on the same files
    ends well and leaves the database as the first run left it.  A run
    with [--overwrite], or on a database without catalog table, in
    which the processing of no source fails is such a run. *)
Theorem seed_twice (env : Env) (overwrite : bool) (db0 db1 : Database)
    (loaded : list Document) :
  mkdirTemp env = Ok tt ->
  loadDirectory env = Ok loaded ->
  (forall doc, doc ∈ loaded -> exists source, sourceOf doc = Some (VStr source)) ->
  (forall filePath content md,
     extractMetadata env filePath content = Ok md -> md !! "hash" = None) ->
  seed env overwrite db0 = (Ok tt, db1) ->
  let skipExistsCheck := overwrite || negb (bool_decide (is_Some (catalog db0))) in
  let staged :=
    forall source docs,
      (source, docs) ∈ groupBySource (map essentialMetadata loaded) ->
      exists overview record,
        tryDocument env (catalog db0) skipExistsCheck source docs
        = Ok (NewRecord overview record) in
  (staged -> seed env false db1 = (Ok tt, db1))
  /\ (skipExistsCheck = true ->
      (forall source docs e,
         (source, docs) ∈ groupBySource (map essentialMetadata loaded) ->
         tryDocument env (catalog db0) skipExistsCheck source docs <> Throw e) ->
      seed env false db1 = (Ok tt, db1)).
Proof.
  intros Hmk Hload Hsrc Hnohash Hrun skipExistsCheck staged.
  assert (staged -> seed env false db1 = (Ok tt, db1)) as Hstaged.
  { intros Hall. by apply (seed_rerun env Hmk overwrite db0 db1 loaded). }
  split; [exact Hstaged|].
  intros Hskip Hfine. apply Hstaged. intros source docs Hin.
  specialize (Hfine source docs).
  destruct (tryDocument env (catalog db0) skipExistsCheck source docs)
    as [[hash|overview record]|e] eqn:Htry.
  - rewrite Hskip in Htry. by apply tryDocument_unchecked in Htry.
  - eauto.
  - by destruct (Hfine e Hin).
Qed.

Lemma seed_twice_witness :
  let db1 := snd (seed (Examples.env Examples.corpus) true
                       {| catalog := None; chunks := None |}) in
  seed (Examples.env Examples.corpus) false db1 = (Ok tt, db1).
Proof.
  intros db1.
  destruct (seed_twice (Examples.env Examples.corpus) true
              {| catalog := None; chunks := None |} db1 Examples.corpus)
    as [_ Hunchecked].
  - reflexivity.
  - reflexivity.
  - intros doc Hdoc.
    apply elem_of_cons in Hdoc as [->|Hdoc];
      [|apply list_elem_of_singleton in Hdoc as ->]; eexists; reflexivity.
  - intros filePath content md.
    apply (extractMetadata_lacks (fun _ => ∅) (fun _ => Ok (Some ∅)) "hash").
    + intros Hin. repeat (apply elem_of_cons in Hin as [Hin|Hin]; [discriminate|]).
      by apply elem_of_nil in Hin.
    + intros c. apply lookup_empty.
    + intros f ai [= <-]. apply lookup_empty.
  - vm_compute. reflexivity.
  - apply Hunchecked; [reflexivity|].
    intros source docs e Hin. vm_compute in Hin.
    apply elem_of_cons in Hin as [Hin|Hin];
      [|apply list_elem_of_singleton in Hin];
      injection Hin as -> ->; vm_compute; discriminate.
Defined.

(** X13. The existence check looks at the catalog as it was when the
    run began.  Two files of one run with the same content therefore
    share their fate: either both are skipped or neither is, and when
    both are processed, both get a catalog record; the two records
    carry the hash of the file, and so the same hash, as long as the
    metadata extractor yields no [hash] field, which would take the
    place of the file hash in the record. *)
Theorem identical_files_share_their_fate (env : Env) (rawDocs : list Document)
    (catalogTable : option (list Document)) (skipExistsCheck : bool)
    (p : Processed) (source1 source2 : string) (docs1 docs2 : list Document)
    (fileContent : string) :
  processDocuments env rawDocs catalogTable skipExistsCheck = Ok p ->
  (source1, docs1) ∈ groupBySource rawDocs ->
  (source2, docs2) ∈ groupBySource rawDocs ->
  readFile env source1 = Ok fileContent ->
  readFile env source2 = Ok fileContent ->
  (source1 ∈ skipSources p <-> source2 ∈ skipSources p)
  /\ (forall overview1 record1 overview2 record2,
        tryDocument env catalogTable skipExistsCheck source1 docs1
        = Ok (NewRecord overview1 record1) ->
        tryDocument env catalogTable skipExistsCheck source2 docs2
        = Ok (NewRecord overview2 record2) ->
        record1 ∈ catalogRecords p
        /\ record2 ∈ catalogRecords p
        /\ ((forall filePath content md,
               extractMetadata env filePath content = Ok md ->
               md !! "hash" = None) ->
            metadata record1 !! "hash" = Some (VStr (sha256hex env fileContent))
            /\ metadata record2 !! "hash"
               = Some (VStr (sha256hex env fileContent)))).
Proof.
  unfold processDocuments. destruct (mkdirTemp env) as [[]|e]; [|discriminate].
  cbn [bind]. intros [= <-] Hin1 Hin2 Hread1 Hread2.
  assert (forall source docs source' docs',
            (source, docs) ∈ groupBySource rawDocs ->
            (source', docs') ∈ groupBySource rawDocs ->
            readFile env source = Ok fileContent ->
            readFile env source' = Ok fileContent ->
            source ∈ skipSources
                       (foldl (processSource env catalogTable skipExistsCheck)
                              {| skipSources := []; catalogRecords := [];
                                 console := [] |}
                              (groupBySource rawDocs)) ->
            source' ∈ skipSources
                        (foldl (processSource env catalogTable skipExistsCheck)
                               {| skipSources := []; catalogRecords := [];
                                  console := [] |}
                               (groupBySource rawDocs))) as Hskip.
  { intros source docs source' docs' Hin Hin' Hread Hread' Hs.
    apply processed_skipSources in Hs as (docs0 & hash & _ & Htry).
    apply tryDocument_AlreadyIndexed_inv in Htry
      as (fc & rows & row & Hfc & -> & -> & Hrow & Hhash).
    rewrite Hread in Hfc. injection Hfc as <-.
    apply processed_skipSources. exists docs', (sha256hex env fileContent).
    split; [done|].
    apply (tryDocument_AlreadyIndexed env (Some rows) false rows source' docs'
             fileContent eq_refl eq_refl Hread').
    by exists row. }
  split; [split; eauto|].
  intros overview1 record1 overview2 record2 Htry1 Htry2.
  split; [apply processed_catalogRecords; by exists source1, docs1, overview1|].
  split; [apply processed_catalogRecords; by exists source2, docs2, overview2|].
  intros Hnohash.
  apply tryDocument_NewRecord in Htry1 as (fc1 & md1 & Hfc1 & Hmd1 & ->).
  apply tryDocument_NewRecord in Htry2 as (fc2 & md2 & Hfc2 & Hmd2 & ->).
  rewrite Hread1 in Hfc1. rewrite Hread2 in Hfc2.
  injection Hfc1 as <-. injection Hfc2 as <-. cbn [metadata].
  rewrite !lookup_union_r by by eapply Hnohash.
  rewrite !lookup_insert_ne by done. by rewrite !lookup_insert_eq.
Qed.

Lemma identical_files_share_their_fate_witness :
  let p := {| skipSources := [];
              catalogRecords :=
                [ {| pageContent := "A construction document.";
                     metadata :=
                       {[ "documentType" := VStr "Drawing";
                          "discipline" := VStr "Structural";
                          "buildingArea" := VStr "46";
                          "sheetNumber" := VStr "1001";
                          "drawingNumber" := VStr "S-46-1001";
                          "project" := VStr "PDFdrawings";
                          "source" := VStr "/in/Drawings/S-46-1001.pdf";
                          "hash" := VStr "sha256:%PDF-1.7 copy" ]} |};
                  {| pageContent := "A construction document.";
                     metadata :=
                       {[ "documentType" := VStr "Drawing";
                          "discipline" := VStr "Structural";
                          "buildingArea" := VStr "46";
                          "sheetNumber" := VStr "1001 (1)";
                          "drawingNumber" := VStr "S-46-1001 (1)";
                          "project" := VStr "PDFdrawings";
                          "source" := VStr "/in/Drawings/S-46-1001 (1).pdf";
                          "hash" := VStr "sha256:%PDF-1.7 copy" ]} |} ];
              console :=
                [ LogOverview "/in/Drawings/S-46-1001.pdf" "A construction document.";
                  LogOverview "/in/Drawings/S-46-1001 (1).pdf"
                              "A construction document." ] |} in
  "/in/Drawings/S-46-1001.pdf" ∈ skipSources p
  <-> "/in/Drawings/S-46-1001 (1).pdf" ∈ skipSources p.
Proof.
  intros p.
  destruct (identical_files_share_their_fate
              (MoreExamples.copies MoreExamples.twoCopies) MoreExamples.twoCopies
              (Some []) false p
              "/in/Drawings/S-46-1001.pdf" "/in/Drawings/S-46-1001 (1).pdf"
              [Examples.page "/in/Drawings/S-46-1001.pdf" "SLAB ON GRADE"]
              [Examples.page "/in/Drawings/S-46-1001 (1).pdf" "SLAB ON GRADE"]
              "%PDF-1.7 copy") as [Hfate _].
  - vm_compute. reflexivity.
  - vm_compute. left.
  - vm_compute. right. left.
  - reflexivity.
  - reflexivity.
  - exact Hfate.
Defined.

Section IdempotenceFacts.

Lemma enhanceOne_idempotent records doc :
  enhanceOne records (enhanceOne records doc) = enhanceOne records doc.
Proof.
  unfold enhanceOne at 2.
  destruct (bySource records !! sourceOf doc) as [catalogMetadata|] eqn:Hm.
  - pose proof (enhanceOne_source records doc) as Hsrc.
    pose proof (enhanceOne_loc records doc) as Hloc.
    unfold enhanceOne in Hsrc, Hloc. rewrite Hm in Hsrc, Hloc.
    unfold enhanceOne. rewrite Hsrc, Hm, Hloc. done.
  - unfold enhanceOne. by rewrite Hm.
Qed.

Lemma bySource_nil : bySource [] = ∅.
Proof. done. Qed.

End IdempotenceFacts.

(** X14. Enriching is idempotent: chunks that were enriched with the
    metadata of some catalog records are left as they are when they are
    enriched with the same records again; and without catalog records
    the chunks are returned as they are. *)
Theorem enhance_idempotent (docs records : list Document) :
  enhanceDocumentsWithMetadata (enhanceDocumentsWithMetadata docs records) records
  = enhanceDocumentsWithMetadata docs records
  /\ enhanceDocumentsWithMetadata docs [] = docs.
Proof.
  split.
  - rewrite !enhance_as_fmap, <- list_fmap_compose.
    apply list_fmap_ext. intros i doc _. apply enhanceOne_idempotent.
  - rewrite enhance_as_fmap. rewrite <- (list_fmap_id docs) at 2.
    apply list_fmap_ext. intros i doc _. unfold enhanceOne.
    by rewrite bySource_nil, lookup_empty.
Qed.

(** ** Splitting and loading of PDF files *)

Section SplitFacts.

Variable sys : PdfProcessor.Sys.

(** With enough fuel the loop adds to the chunks a tiling of the pages
    from [startPage] to [pageCount]. *)
Lemma pageRanges_tiling (fuel : nat) (outputDir fileName : string)
    (pageCount pagesPerChunk startPage : Z) (chunks : list PdfProcessor.Chunk) :
  (1 <= pagesPerChunk)%Z ->
  (Z.to_nat (pageCount - startPage + 1) <= fuel)%nat ->
  exists new,
    PdfProcessor.pageRanges sys fuel outputDir fileName pageCount pagesPerChunk
                            startPage chunks
    = chunks ++ new
    /\ new ≫= pagesOf = seqZ startPage (pageCount - startPage + 1)
    /\ Forall (fun chunk =>
                 (startPage <= PdfProcessor.startPage chunk)%Z
                 /\ (PdfProcessor.startPage chunk <= PdfProcessor.endPage chunk)%Z
                 /\ (PdfProcessor.endPage chunk <= pageCount)%Z
                 /\ (PdfProcessor.endPage chunk - PdfProcessor.startPage chunk
                     < pagesPerChunk)%Z) new.
Proof.
  intros Hppc. revert startPage chunks.
  induction fuel as [|fuel IH]; intros startPage chunks Hfuel.
  - exists []. cbn. rewrite app_nil_r. split; [done|].
    split; [by rewrite seqZ_nil by lia | constructor].
  - cbn [PdfProcessor.pageRanges].
    destruct (Z.leb_spec startPage pageCount) as [Hle|Hgt].
    + set (chunk := PdfProcessor.mkChunk _ _ _ _).
      destruct (IH (startPage + pagesPerChunk)%Z (chunks ++ [chunk]))
        as (new & -> & Hpages & Hall); [lia|].
      exists (chunk :: new). rewrite <- app_assoc. split; [done|]. split.
      * cbn [mbind list_bind]. fold (new ≫= pagesOf). rewrite Hpages.
        unfold pagesOf, chunk. cbn [PdfProcessor.startPage PdfProcessor.endPage].
        destruct (Z.min_spec (startPage + pagesPerChunk - 1) pageCount)
          as [[Hlt ->]|[Hge ->]].
        -- replace (pageCount - startPage + 1)%Z
             with (pagesPerChunk + (pageCount - (startPage + pagesPerChunk) + 1))%Z
             by lia.
           replace (startPage + pagesPerChunk - 1 - startPage + 1)%Z
             with pagesPerChunk by lia.
           by rewrite (seqZ_app startPage pagesPerChunk) by lia.
        -- rewrite (seqZ_nil (startPage + pagesPerChunk)) by lia.
           by rewrite app_nil_r.
      * constructor.
        -- unfold chunk. cbn [PdfProcessor.startPage PdfProcessor.endPage]. lia.
        -- eapply Forall_impl; [exact Hall|]. cbn beta. intros c. lia.
    + exists []. rewrite app_nil_r. split; [done|].
      split; [by rewrite seqZ_nil by lia | constructor].
Qed.

Lemma shouldSplitPdf_Throw pdfPath e :
  PdfProcessor.shouldSplitPdf sys pdfPath = Throw e
  <-> PdfProcessor.stat sys pdfPath = Throw e.
Proof.
  unfold PdfProcessor.shouldSplitPdf.
  destruct (PdfProcessor.stat sys pdfPath) as [size|e']; cbn [bind]; [|split; intros [= ->]; reflexivity].
  repeat case_match; split; discriminate.
Qed.

End SplitFacts.

(** X15. When the split folder can be made and the PDF can be read,
    the chunks planned for it tile its pages: put one after the other,
    their page ranges are the pages from 1 to the page count, each once
    and in order, and no chunk has more than twenty pages. *)
Theorem split_chunks_tile_the_pages (sys : PdfProcessor.Sys)
    (pdfPath outputDir dataBuffer : string) :
  PdfProcessor.mkdir sys
    (PdfProcessor.pathJoin sys outputDir
       (basename pdfPath (Some (extname pdfPath)) +:+ "_split")) = Ok tt ->
  PdfProcessor.readFile sys pdfPath = Ok dataBuffer ->
  let pageCount :=
    PdfProcessor.numpages (PdfProcessor.pdfParse sys dataBuffer (Some 0%Z)) in
  let chunks := PdfProcessor.chunks
                  (PdfProcessor.splitPdfIntoChunks sys pdfPath outputDir) in
  chunks ≫= pagesOf = seqZ 1 pageCount
  /\ Forall (fun chunk =>
               (1 <= PdfProcessor.startPage chunk)%Z
               /\ (PdfProcessor.startPage chunk <= PdfProcessor.endPage chunk)%Z
               /\ (PdfProcessor.endPage chunk <= pageCount)%Z
               /\ (PdfProcessor.endPage chunk - PdfProcessor.startPage chunk
                   < 20)%Z) chunks.
Proof.
  intros Hmkdir Hread pageCount chunks. subst chunks.
  unfold PdfProcessor.splitPdfIntoChunks. rewrite Hmkdir. cbn [bind].
  unfold PdfProcessor.splitByPageRanges. rewrite Hread. cbn [bind].
  fold pageCount. cbn [PdfProcessor.chunks].
  destruct (pageRanges_tiling sys (Z.to_nat pageCount)
              (PdfProcessor.pathJoin sys outputDir
                 (basename pdfPath (Some (extname pdfPath)) +:+ "_split"))
              (basename pdfPath (Some (extname pdfPath)))
              pageCount Config.maxPagesPerChunk 1 [])
    as (new & -> & Hpages & Hall); [done | lia |].
  cbn [app]. split.
  - rewrite Hpages. f_equal. lia.
  - exact Hall.
Qed.

Lemma split_chunks_tile_the_pages_witness :
  let chunks := PdfProcessor.chunks
                  (PdfProcessor.splitPdfIntoChunks MoreExamples.pdfSys
                     MoreExamples.setPath "/db/_temp_processing") in
  chunks ≫= pagesOf = seqZ 1 45
  /\ Forall (fun chunk =>
               (1 <= PdfProcessor.startPage chunk)%Z
               /\ (PdfProcessor.startPage chunk <= PdfProcessor.endPage chunk)%Z
               /\ (PdfProcessor.endPage chunk <= 45)%Z
               /\ (PdfProcessor.endPage chunk - PdfProcessor.startPage chunk
                   < 20)%Z) chunks.
Proof.
  apply (split_chunks_tile_the_pages MoreExamples.pdfSys MoreExamples.setPath
           "/db/_temp_processing" MoreExamples.setPath); reflexivity.
Defined.

Section LoadFacts.

Variable sys : PdfProcessor.Sys.

(** A PDF is of normal size when it has at most ten megabytes, can be
    read, and has at most twenty pages; a PDF that [pdf-parse] rejects
    counts as one page. *)
Lemma shouldSplitPdf_false pdfPath :
  PdfProcessor.shouldSplitPdf sys pdfPath = Ok false
  <-> exists size dataBuffer,
        PdfProcessor.stat sys pdfPath = Ok size
        /\ (size <= 10485760)%Z
        /\ PdfProcessor.readFile sys pdfPath = Ok dataBuffer
        /\ (PdfProcessor.numpages (PdfProcessor.pdfParse sys dataBuffer (Some 0%Z))
            <= 20)%Z.
Proof.
  unfold PdfProcessor.shouldSplitPdf.
  destruct (PdfProcessor.stat sys pdfPath) as [size|e]; cbn [bind];
    [|split; [discriminate | by intros (? & ? & ? & _)]].
  change (Config.maxSizeMb * (1024 * 1024))%Z with 10485760%Z.
  change Config.maxPagesPerChunk with 20%Z.
  destruct (Z.ltb_spec 10485760 size) as [Hbig|Hsmall].
  { split; [discriminate|]. intros (? & ? & [= <-] & ? & _). lia. }
  destruct (PdfProcessor.readFile sys pdfPath) as [dataBuffer|e].
  - destruct (Z.ltb_spec 20 (PdfProcessor.numpages
                               (PdfProcessor.pdfParse sys dataBuffer (Some 0%Z))))
      as [Hmany|Hfew].
    + split; [discriminate|]. intros (? & ? & _ & _ & [= <-] & ?). lia.
    + split; [|done]. intros _. by exists size, dataBuffer.
  - split; [discriminate|]. by intros (? & ? & _ & _ & ? & _).
Qed.

Lemma withWarning_spec doc :
  pageContent (EnhancedPDFLoader.withWarning doc) = pageContent doc
  /\ (exists w, metadata (EnhancedPDFLoader.withWarning doc) !! "warning" = Some w
                /\ truthy w = true)
  /\ (forall key, key <> "warning" ->
        metadata (EnhancedPDFLoader.withWarning doc) !! key = metadata doc !! key).
Proof.
  unfold EnhancedPDFLoader.withWarning.
  destruct (metadata doc !! "warning") as [w|] eqn:Hw;
    [destruct (truthy w) eqn:Ht|]; cbn [pageContent metadata].
  - split; [done|]. split; [by exists w | done].
  - split; [done|]. split.
    + eexists. by rewrite lookup_insert_eq.
    + intros key Hkey. by rewrite lookup_insert_ne.
  - split; [done|]. split.
    + eexists. by rewrite lookup_insert_eq.
    + intros key Hkey. by rewrite lookup_insert_ne.
Qed.

End LoadFacts.

(** X16. The loader of PDF files lets a failure escape in one case
    only: the PDF is of normal size, that is, it has at most ten
    megabytes, can be read and has at most twenty pages, and the
    parent's loader fails on it.  When the size of the file cannot be
    determined, and when the parent's loader fails on a large PDF, the
    loader answers with one document that carries the error.  The pages
    of a large PDF that loads keep their text and their metadata and
    carry a warning. *)
Theorem load_failures (sys : PdfProcessor.Sys)
    (superLoad : string -> Exc (list Document)) (sourcePath : string) :
  (forall e,
     EnhancedPDFLoader.load sys superLoad sourcePath = Throw e
     <-> superLoad sourcePath = Throw e
         /\ exists size dataBuffer,
              PdfProcessor.stat sys sourcePath = Ok size
              /\ (size <= 10485760)%Z
              /\ PdfProcessor.readFile sys sourcePath = Ok dataBuffer
              /\ (PdfProcessor.numpages
                    (PdfProcessor.pdfParse sys dataBuffer (Some 0%Z)) <= 20)%Z)
  /\ (forall e,
        PdfProcessor.stat sys sourcePath = Throw e ->
        EnhancedPDFLoader.load sys superLoad sourcePath
        = Ok [EnhancedPDFLoader.errorDocument sourcePath e])
  /\ (forall e,
        PdfProcessor.shouldSplitPdf sys sourcePath = Ok true ->
        superLoad sourcePath = Throw e ->
        EnhancedPDFLoader.load sys superLoad sourcePath
        = Ok [EnhancedPDFLoader.errorDocument sourcePath e])
  /\ (forall docs,
        PdfProcessor.shouldSplitPdf sys sourcePath = Ok true ->
        superLoad sourcePath = Ok docs ->
        exists out,
          EnhancedPDFLoader.load sys superLoad sourcePath = Ok out
          /\ length out = length docs
          /\ forall i doc,
               docs !! i = Some doc ->
               exists page,
                 out !! i = Some page
                 /\ pageContent page = pageContent doc
                 /\ (exists w, metadata page !! "warning" = Some w
                               /\ truthy w = true)
                 /\ (forall key, key <> "warning" ->
                       metadata page !! key = metadata doc !! key)).
Proof.
  split; [|split; [|split]].
  - intros e. rewrite <- shouldSplitPdf_false.
    unfold EnhancedPDFLoader.load.
    destruct (PdfProcessor.shouldSplitPdf sys sourcePath) as [[]|e'].
    + destruct (superLoad sourcePath); split; try discriminate;
        by intros [_ ?].
    + split; [by intros H | by intros [H _]].
    + split; [discriminate | by intros [_ ?]].
  - intros e Hstat. unfold EnhancedPDFLoader.load.
    apply shouldSplitPdf_Throw in Hstat. by rewrite Hstat.
  - intros e Hlarge Hload. unfold EnhancedPDFLoader.load.
    by rewrite Hlarge, Hload.
  - intros docs Hlarge Hload. unfold EnhancedPDFLoader.load.
    rewrite Hlarge, Hload. eexists. split; [reflexivity|].
    rewrite map_as_fmap. split; [by rewrite length_fmap|].
    intros i doc Hdoc. exists (EnhancedPDFLoader.withWarning doc).
    rewrite list_lookup_fmap, Hdoc. split; [done|].
    apply withWarning_spec.
Qed.

Lemma load_failures_witness :
  (EnhancedPDFLoader.load MoreExamples.pdfSys MoreExamples.pdfLoader
                          MoreExamples.corruptPath
   = Throw "Failed to load PDF")
  /\ EnhancedPDFLoader.load MoreExamples.pdfSys MoreExamples.pdfLoader
                            "/in/Drawings/missing.pdf"
     = Ok [EnhancedPDFLoader.errorDocument "/in/Drawings/missing.pdf"
             "ENOENT: no such file or directory"]
  /\ exists out,
       EnhancedPDFLoader.load MoreExamples.pdfSys MoreExamples.pdfLoader
                              MoreExamples.bigPath = Ok out
       /\ length out = 2%nat.
Proof.
  destruct (load_failures MoreExamples.pdfSys MoreExamples.pdfLoader
              MoreExamples.corruptPath) as (Hthrow & _).
  destruct (load_failures MoreExamples.pdfSys MoreExamples.pdfLoader
              "/in/Drawings/missing.pdf") as (_ & Hstat & _).
  destruct (load_failures MoreExamples.pdfSys MoreExamples.pdfLoader
              MoreExamples.bigPath) as (_ & _ & _ & Hlarge).
  split; [|split].
  - apply Hthrow. split; [reflexivity|].
    exists 4096%Z, MoreExamples.corruptPath.
    split; [reflexivity|]. split; [lia|]. split; [reflexivity|].
    vm_compute. discriminate.
  - apply Hstat. reflexivity.
  - destruct (Hlarge _ eq_refl eq_refl) as (out & Hout & Hlen & _).
    exists out. split; [exact Hout | exact Hlen].
Defined.

Section AiFacts.

Variable sys : PdfProcessor.Sys.

Lemma aiMetadataOf_unreadable pdfPath e :
  PdfProcessor.readFile sys pdfPath = Throw e ->
  PdfProcessor.aiMetadataOf sys pdfPath = Throw e.
Proof.
  intros H. unfold PdfProcessor.aiMetadataOf, PdfProcessor.extractPdfInformation,
    PdfProcessor.extractKeyPdfSections. by rewrite H.
Qed.

Lemma aiMetadataOf_readable pdfPath dataBuffer :
  PdfProcessor.readFile sys pdfPath = Ok dataBuffer ->
  PdfProcessor.aiMetadataOf sys pdfPath
  = Ok match PdfProcessor.callModel sys Config.METADATA_EXTRACTION_MODEL
               (takeChars 2000
                  (PdfProcessor.text (PdfProcessor.pdfParse sys dataBuffer None)))
       with
       | Ok answer =>
           match PdfProcessor.parseJson sys answer with
           | Ok metadata => metadata
           | Throw _ => Some ∅
           end
       | Throw _ => Some ∅
       end.
Proof.
  intros H. unfold PdfProcessor.aiMetadataOf, PdfProcessor.extractPdfInformation,
    PdfProcessor.extractKeyPdfSections. by rewrite H.
Qed.

End AiFacts.

(** X17. With the AI-assisted extraction of [pdf_processor] in place,
    [extractMetadata] fails in one case only: the path ends in [.pdf],
    in any case, the file can be read, the model answers, and the
    answer parses to [null].  A file that cannot be read, a model that
    fails and an answer that is not JSON all leave the metadata of the
    path and of the content as they are. *)
Theorem extractMetadata_fails_on_null_only (sys : PdfProcessor.Sys)
    (extractMetadataFromContent : string -> DocumentMetadata)
    (filePath : string) (content : option string) :
  let run := MetadataExtractor.extractMetadata extractMetadataFromContent
               (PdfProcessor.aiMetadataOf sys) filePath content in
  let contentMetadata :=
    match content with
    | Some c => if String.eqb c "" then ∅ else extractMetadataFromContent c
    | None => ∅
    end in
  (forall e,
     run = Throw e
     <-> endsWith ".pdf" (toLowerCase filePath) = true
         /\ e = "TypeError: Cannot convert undefined or null to object"
         /\ exists dataBuffer answer,
              PdfProcessor.readFile sys filePath = Ok dataBuffer
              /\ PdfProcessor.callModel sys Config.METADATA_EXTRACTION_MODEL
                   (takeChars 2000
                      (PdfProcessor.text
                         (PdfProcessor.pdfParse sys dataBuffer None)))
                 = Ok answer
              /\ PdfProcessor.parseJson sys answer = Ok None)
  /\ ((endsWith ".pdf" (toLowerCase filePath) = false
       \/ (exists e, PdfProcessor.readFile sys filePath = Throw e)
       \/ (exists dataBuffer,
             PdfProcessor.readFile sys filePath = Ok dataBuffer
             /\ ((exists e,
                    PdfProcessor.callModel sys Config.METADATA_EXTRACTION_MODEL
                      (takeChars 2000
                         (PdfProcessor.text
                            (PdfProcessor.pdfParse sys dataBuffer None)))
                    = Throw e)
                 \/ exists answer e,
                      PdfProcessor.callModel sys Config.METADATA_EXTRACTION_MODEL
                        (takeChars 2000
                           (PdfProcessor.text
                              (PdfProcessor.pdfParse sys dataBuffer None)))
                      = Ok answer
                      /\ PdfProcessor.parseJson sys answer = Throw e))) ->
      run = Ok (mergeMetadata [contentMetadata; extractMetadataFromPath filePath])).
Proof.
  intros run contentMetadata.
  assert (forall ai : option DocumentMetadata,
            (if endsWith ".pdf" (toLowerCase filePath)
             then match PdfProcessor.aiMetadataOf sys filePath with
                  | Ok md => md
                  | Throw _ => Some ∅
                  end
             else Some ∅) = ai ->
            run = match ai with
                  | Some ai =>
                      Ok (mergeMetadata [contentMetadata;
                                         extractMetadataFromPath filePath; ai])
                  | None =>
                      Throw "TypeError: Cannot convert undefined or null to object"
                  end) as Hrun.
  { intros ai <-. subst run contentMetadata.
    unfold MetadataExtractor.extractMetadata.
    destruct content as [c|]; [destruct (String.eqb c "")|]; reflexivity. }
  assert (mergeMetadata [contentMetadata; extractMetadataFromPath filePath; ∅]
          = mergeMetadata [contentMetadata; extractMetadataFromPath filePath])
    as Hempty by reflexivity.
  split.
  - intros e. rewrite (Hrun _ eq_refl).
    destruct (endsWith ".pdf" (toLowerCase filePath));
      [|split; [discriminate | by intros [? _]]].
    destruct (PdfProcessor.readFile sys filePath) as [dataBuffer|e'] eqn:Hread.
    + rewrite (aiMetadataOf_readable sys filePath dataBuffer Hread).
      destruct (PdfProcessor.callModel sys _ _) as [answer|e'] eqn:Hcall.
      * destruct (PdfProcessor.parseJson sys answer) as [[md|]|e'] eqn:Hparse.
        -- split; [discriminate|].
           intros (_ & _ & d & a & [= <-] & Ha & Hp).
           rewrite Hcall in Ha. injection Ha as <-. congruence.
        -- split.
           ++ intros [= <-]. split; [done|]. split; [done|].
              by exists dataBuffer, answer.
           ++ by intros (_ & -> & _).
        -- split; [discriminate|].
           intros (_ & _ & d & a & [= <-] & Ha & Hp).
           rewrite Hcall in Ha. injection Ha as <-. congruence.
      * split; [discriminate|].
        intros (_ & _ & d & a & [= <-] & Ha & _). congruence.
    + rewrite (aiMetadataOf_unreadable sys filePath e' Hread).
      split; [discriminate|]. by intros (_ & _ & d & a & ? & _).
  - intros Hcase. rewrite (Hrun (Some ∅)); [by rewrite Hempty|].
    destruct Hcase as [->|[[e Hread]|(dataBuffer & Hread & Hcase)]]; [done| |].
    + rewrite (aiMetadataOf_unreadable sys filePath e Hread). by case_match.
    + rewrite (aiMetadataOf_readable sys filePath dataBuffer Hread).
      destruct Hcase as [[e ->]|(answer & e & -> & ->)]; by case_match.
Qed.

Lemma extractMetadata_fails_on_null_only_witness :
  MetadataExtractor.extractMetadata (fun _ => ∅)
    (PdfProcessor.aiMetadataOf MoreExamples.pdfSys) MoreExamples.bigPath
    (Some "SLAB ON GRADE")
  = Throw "TypeError: Cannot convert undefined or null to object"
  /\ MetadataExtractor.extractMetadata (fun _ => ∅)
       (PdfProcessor.aiMetadataOf MoreExamples.pdfSys) "/in/Drawings/gone.pdf" None
     = Ok (mergeMetadata [∅; extractMetadataFromPath "/in/Drawings/gone.pdf"]).
Proof.
  destruct (extractMetadata_fails_on_null_only MoreExamples.pdfSys (fun _ => ∅)
              MoreExamples.bigPath (Some "SLAB ON GRADE")) as [Hthrow _].
  destruct (extractMetadata_fails_on_null_only MoreExamples.pdfSys (fun _ => ∅)
              "/in/Drawings/gone.pdf" None) as [_ Hfine].
  split.
  - apply Hthrow. split; [reflexivity|]. split; [reflexivity|].
    exists MoreExamples.bigPath, "null". repeat split; reflexivity.
  - apply Hfine. right. left. eexists. reflexivity.
Defined.

(** ** The catalog search and the image search *)

Section MoreFilterFacts.

Lemma catalog_keeps_spec params result :
  CatalogSearchTool.keeps params result = true
  <-> Forall (satisfies result) (catalogFilters params).
Proof.
  unfold catalogFilters. rewrite !filtersOf_cons.
  unfold CatalogSearchTool.keeps.
  repeat (destruct (rejects _ _); [by intuition|]).
  split; [|done]. intros _. repeat split. constructor.
Qed.


Lemma catalog_returnedResults_spec params (results : list Document) :
  CatalogSearchTool.returnedResults params results
  = filter (fun result => Forall (satisfies result) (catalogFilters params)) results.
Proof.
  unfold CatalogSearchTool.returnedResults.
  destruct (given (CatalogSearchTool.project params)) eqn:E1; cbn [orb];
    [apply list_filter_iff; intros result; apply catalog_keeps_spec|].
  destruct (given (CatalogSearchTool.discipline params)) eqn:E2; cbn [orb];
    [apply list_filter_iff; intros result; apply catalog_keeps_spec|].
  destruct (given (CatalogSearchTool.drawingNumber params)) eqn:E3; cbn [orb];
    [apply list_filter_iff; intros result; apply catalog_keeps_spec|].
  destruct (given (CatalogSearchTool.drawingType params)) eqn:E4; cbn [orb];
    [apply list_filter_iff; intros result; apply catalog_keeps_spec|].
  destruct (given (CatalogSearchTool.phase params)) eqn:E5;
    [apply list_filter_iff; intros result; apply catalog_keeps_spec|].
  unfold catalogFilters.
  rewrite !given_false_filtersOf by done.
  symmetry. apply filter_all. intros result. constructor.
Qed.

Lemma filtersOf_elem (fields : list (string * option string)) name v :
  (name, Some v) ∈ fields -> v <> "" -> (name, v) ∈ filtersOf fields.
Proof.
  intros Hin Hv. unfold filtersOf. apply list_elem_of_omap.
  exists (name, Some v). split; [done|]. cbn [fst snd].
  by apply String.eqb_neq in Hv as ->.
Qed.

End MoreFilterFacts.

(** X18. When the retriever answers, the catalog search returns the
    retrieved records that hold, in each filtered field, exactly the
    value asked for, in the order of retrieval; a filter that is absent
    or the empty string is not applied, and without filters every
    record is returned.  A failing retriever, such as an unset catalog
    store, is handed to the error handler. *)
Theorem catalog_search_filters
    (retrieve : string -> Exc (list Document))
    (stringify : list Document -> string)
    (handleError : string -> Exc ToolResponse)
    (params : CatalogSearchTool.CatalogSearchParams) :
  (forall results,
     retrieve (CatalogSearchTool.text params) = Ok results ->
     CatalogSearchTool.execute retrieve stringify handleError params
     = Ok {| content :=
               [stringify
                  (filter (fun result =>
                             Forall (satisfies result) (catalogFilters params))
                          results)];
             isError := false |}
     /\ (catalogFilters params = [] ->
         CatalogSearchTool.execute retrieve stringify handleError params
         = Ok {| content := [stringify results]; isError := false |})
     /\ (forall n result,
           CatalogSearchTool.drawingNumber params = Some n -> n <> "" ->
           result ∈ CatalogSearchTool.returnedResults params results ->
           result ∈ results
           /\ metadata result !! "drawingNumber" = Some (VStr n)))
  /\ (forall error,
        retrieve (CatalogSearchTool.text params) = Throw error ->
        CatalogSearchTool.execute retrieve stringify handleError params
        = handleError error).
Proof.
  split.
  - intros results Hr. unfold CatalogSearchTool.execute. rewrite Hr.
    rewrite catalog_returnedResults_spec. split; [done|]. split.
    + intros Hnone. rewrite Hnone.
      rewrite filter_all; [done|]. intros result. constructor.
    + intros n result Hn Hne Hin.
      apply list_elem_of_filter in Hin as [Hall Hin]. split; [done|].
      rewrite Forall_forall in Hall.
      apply (Hall ("drawingNumber", n)). unfold catalogFilters.
      apply filtersOf_elem; [|done]. rewrite <- Hn.
      do 2 right. by left.
  - intros error Hr. unfold CatalogSearchTool.execute. by rewrite Hr.
Qed.

Lemma catalog_search_filters_witness :
  CatalogSearchTool.execute Examples.retriever Examples.render Examples.report
    {| CatalogSearchTool.text := "schedule";
       CatalogSearchTool.project := Some "Lift Station";
       CatalogSearchTool.discipline := Some "Electrical";
       CatalogSearchTool.drawingNumber := Some "";
       CatalogSearchTool.drawingType := None;
       CatalogSearchTool.phase := None |}
  = Ok {| content := ["PANEL SCHEDULE"]; isError := false |}
  /\ CatalogSearchTool.execute (fun _ => Throw "catalog store is not set")
       Examples.render Examples.report
       {| CatalogSearchTool.text := "schedule";
          CatalogSearchTool.project := None;
          CatalogSearchTool.discipline := None;
          CatalogSearchTool.drawingNumber := None;
          CatalogSearchTool.drawingType := None;
          CatalogSearchTool.phase := None |}
     = Ok {| content := ["catalog store is not set"]; isError := true |}.
Proof.
  split.
  - destruct (catalog_search_filters Examples.retriever Examples.render
                Examples.report
                {| CatalogSearchTool.text := "schedule";
                   CatalogSearchTool.project := Some "Lift Station";
                   CatalogSearchTool.discipline := Some "Electrical";
                   CatalogSearchTool.drawingNumber := Some "";
                   CatalogSearchTool.drawingType := None;
                   CatalogSearchTool.phase := None |}) as [Hok _].
    destruct (Hok Examples.hits eq_refl) as [H _]. exact H.
  - destruct (catalog_search_filters (fun _ => Throw "catalog store is not set")
                Examples.render Examples.report
                {| CatalogSearchTool.text := "schedule";
                   CatalogSearchTool.project := None;
                   CatalogSearchTool.discipline := None;
                   CatalogSearchTool.drawingNumber := None;
                   CatalogSearchTool.drawingType := None;
                   CatalogSearchTool.phase := None |}) as [_ Hfail].
    exact (Hfail "catalog store is not set" eq_refl).
Defined.



(** ** Image documents *)

Section ImageFacts.











End ImageFacts.



(** ** The model registry *)

Section RegistryFacts.

Lemma ownProperty_Some entries key config :
  Models.ownProperty entries key = Some config -> (key, config) ∈ entries.
Proof.
  induction entries as [|[k c] entries IH]; [discriminate|].
  cbn [Models.ownProperty]. destruct (String.eqb_spec k key) as [->|Hne].
  - intros [= ->]. by left.
  - intros H. right. by apply IH.
Qed.

Lemma ownProperty_None entries key :
  Models.ownProperty entries key = None -> key ∉ entries.*1.
Proof.
  induction entries as [|[k c] entries IH]; [intros _; by apply not_elem_of_nil|].
  cbn [Models.ownProperty]. destruct (String.eqb_spec k key) as [->|Hne];
    [discriminate|].
  intros H. rewrite fmap_cons. cbn [fst].
  intros [?|?]%elem_of_cons; [by subst | by apply IH].
Qed.

(** Every entry of the registry is filed under the name of its model. *)
Lemma registry_names taskType key config :
  (key, config) ∈ Models.modelRegistry taskType -> Models.name config = key.
Proof.
  destruct taskType; cbn [Models.modelRegistry]; intros Hin;
    repeat (apply elem_of_cons in Hin as [[= -> ->]|Hin]; [reflexivity|]);
    by apply elem_of_nil in Hin.
Qed.

Lemma default_registered taskType :
  exists config,
    Models.ownProperty (Models.modelRegistry taskType) (Models.defaultModels taskType)
    = Some config.
Proof. destruct taskType; eexists; reflexivity. Qed.

Lemma empty_name_not_registered taskType :
  "" ∉ (Models.modelRegistry taskType).*1.
Proof.
  destruct taskType; cbn; intros Hin;
    repeat (apply elem_of_cons in Hin as [Hin|Hin]; [discriminate|]);
    by apply elem_of_nil in Hin.
Qed.

End RegistryFacts.

(** X21. For a model name that is not the name of a member of
    [Object.prototype], [getModelConfig] always answers with a model
    that is registered for the task: the requested model when it is
    registered for that task, and the default model of the task when no
    name is given, when the name is empty and when the model is not
    registered.  So the models that the configuration ends up with are
    the user's selections, except for the image embedding, where the
    selection is not registered and the default takes its place. *)
Theorem getModelConfig_registered (taskType : Models.ModelTaskType)
    (modelName : option string) :
  ((forall s, modelName = Some s -> s ∉ Models.objectPrototype) ->
   exists config,
     Models.getModelConfig taskType modelName = Models.Own config
     /\ config ∈ Models.getAvailableModels taskType
     /\ Models.name config
        = match modelName with
          | Some s =>
              if bool_decide (s ∈ (Models.modelRegistry taskType).*1) then s
              else Models.defaultModels taskType
          | None => Models.defaultModels taskType
          end)
  /\ Config.modelFor taskType
     = Some match taskType with
            | Models.IMAGE_EMBEDDING => "clip"
            | _ => Config.userSelectedModels taskType
            end.
Proof.
  split; [|by destruct taskType].
  intros Hproto.
  destruct (default_registered taskType) as [dflt Hdflt].
  assert (Models.getProperty (Models.modelRegistry taskType)
                             (Models.defaultModels taskType)
          = Models.Own dflt) as Hdefault
    by (unfold Models.getProperty; by rewrite Hdflt).
  assert (dflt ∈ Models.getAvailableModels taskType
          /\ Models.name dflt = Models.defaultModels taskType) as [Hd1 Hd2].
  { apply ownProperty_Some in Hdflt. split; [|by eapply registry_names].
    unfold Models.getAvailableModels. apply list_elem_of_fmap. by eexists (_, _). }
  unfold Models.getModelConfig.
  destruct modelName as [s|].
  - destruct (String.eqb_spec s "") as [->|Hs].
    + rewrite Hdefault. exists dflt. split; [done|]. split; [done|].
      rewrite bool_decide_eq_false_2 by apply empty_name_not_registered. done.
    + unfold Models.getProperty at 1.
      destruct (Models.ownProperty (Models.modelRegistry taskType) s)
        as [config|] eqn:Hown.
      * apply ownProperty_Some in Hown. exists config. split; [done|]. split.
        -- unfold Models.getAvailableModels. apply list_elem_of_fmap.
           by eexists (_, _).
        -- rewrite bool_decide_eq_true_2
             by (apply list_elem_of_fmap; by eexists (_, _)).
           by eapply registry_names.
      * rewrite bool_decide_eq_false_2 by by apply Hproto.
        rewrite Hdefault. exists dflt. split; [done|]. split; [done|].
        apply ownProperty_None in Hown. by rewrite bool_decide_eq_false_2.
  - rewrite Hdefault. by exists dflt.
Qed.

Lemma getModelConfig_registered_witness :
  exists config,
    Models.getModelConfig Models.IMAGE_EMBEDDING (Some "granite3.2-vision")
    = Models.Own config
    /\ config ∈ Models.getAvailableModels Models.IMAGE_EMBEDDING
    /\ Models.name config = "clip".
Proof.
  destruct (getModelConfig_registered Models.IMAGE_EMBEDDING
              (Some "granite3.2-vision")) as [Hconfig _].
  apply Hconfig. intros s [= <-] Hin.
  repeat (apply elem_of_cons in Hin as [Hin|Hin]; [discriminate|]).
  by apply elem_of_nil in Hin.
Defined.

(** ** From the catalog record to the chunks *)

Section RecordFacts.

Lemma bySource_is_Some records record :
  record ∈ records -> is_Some (bySource records !! sourceOf record).
Proof.
  induction records as [|r records IH] using rev_ind;
    [by intros ?%elem_of_nil|].
  rewrite bySource_snoc. intros [Hin| ->%list_elem_of_singleton]%elem_of_app.
  - destruct (decide (sourceOf r = sourceOf record)) as [->|Hne].
    + rewrite lookup_insert_eq. eauto.
    + rewrite lookup_insert_ne by done. by apply IH.
  - rewrite lookup_insert_eq. eauto.
Qed.

(** When the records of a source all hold the same metadata, that is
    the metadata filed under the source. *)
Lemma bySource_unique records record :
  record ∈ records ->
  (forall r, r ∈ records -> sourceOf r = sourceOf record ->
             metadata r = metadata record) ->
  bySource records !! sourceOf record = Some (metadata record).
Proof.
  intros Hin Hsame.
  destruct (bySource_is_Some records record Hin) as [md Hmd].
  rewrite Hmd. apply bySource_Some in Hmd as (r & Hr & Hsrc & <-).
  f_equal. by apply Hsame.
Qed.

End RecordFacts.

(** X22. The chunks of a newly cataloged source carry its catalog
    record: when a source is processed and yields a record, and the
    metadata extractor emits no [source] field, every piece that the
    splitter makes of a document of that source is handed to the
    embedding model with the text and the location of the piece and,
    for the rest, the metadata of the record, hash included. *)
Theorem new_chunks_carry_the_catalog_record (env : Env)
    (rawDocs : list Document) (catalogTable : option (list Document))
    (skipExistsCheck : bool) (p : Processed)
    (doc : Document) (source : string) (docs : list Document)
    (overview : string) (record : Document) (piece : string * Value) :
  processDocuments env rawDocs catalogTable skipExistsCheck = Ok p ->
  (forall filePath content md,
     extractMetadata env filePath content = Ok md -> md !! "source" = None) ->
  doc ∈ rawDocs ->
  sourceOf doc = Some (VStr source) ->
  (source, docs) ∈ groupBySource rawDocs ->
  tryDocument env catalogTable skipExistsCheck source docs
  = Ok (NewRecord overview record) ->
  piece ∈ splitPieces env doc ->
  record ∈ catalogRecords p
  /\ {| pageContent := piece.1;
        metadata := <["loc" := piece.2]> (metadata record) |}
     ∈ chunkDocs env rawDocs p.
Proof.
  unfold processDocuments. destruct (mkdirTemp env) as [[]|e]; [|discriminate].
  cbn [bind]. intros [= <-] Hfree Hdoc Hsrc Hin Htry Hpiece.
  set (p := foldl _ _ _).
  assert (record ∈ catalogRecords p) as Hrecord
    by (apply processed_catalogRecords; by exists source, docs, overview).
  split; [done|].
  assert (forall r source' docs' overview',
            tryDocument env catalogTable skipExistsCheck source' docs'
            = Ok (NewRecord overview' r) ->
            sourceOf r = Some (VStr source')) as Hsource.
  { intros r source' docs' overview' Hr.
    apply tryDocument_NewRecord in Hr as (fileContent & md & _ & Hmd & ->).
    unfold sourceOf. cbn [metadata].
    rewrite lookup_union_r by by eapply Hfree.
    by rewrite lookup_insert_eq. }
  assert (source ∉ skipSources p) as Hnot.
  { intros (docs' & hash & Hin' & Htry')%processed_skipSources.
    rewrite (group_unique rawDocs source docs' docs Hin' Hin) in Htry'.
    congruence. }
  assert (bySource (catalogRecords p) !! Some (VStr source)
          = Some (metadata record)) as Hfiled.
  { rewrite <- (Hsource record source docs overview Htry).
    apply bySource_unique; [done|].
    intros r (source' & docs' & overview' & Hin' & Htry')%processed_catalogRecords
      Hsame.
    rewrite (Hsource r source' docs' overview' Htry'),
      (Hsource record source docs overview Htry) in Hsame.
    injection Hsame as ->.
    rewrite (group_unique rawDocs source docs' docs Hin' Hin) in Htry'.
    congruence. }
  unfold chunkDocs. rewrite enhance_as_fmap. apply list_elem_of_fmap.
  exists (pieceOf doc piece). split.
  - unfold enhanceOne. rewrite pieceOf_source, Hsrc, Hfiled.
    unfold pieceOf, locOf. cbn [pageContent metadata].
    by rewrite lookup_insert_eq.
  - apply splitDocuments_elem. exists doc, piece. split; [|done].
    apply filteredRawDocs_elem. split; [|done].
    by apply (notSkipped_source _ _ _ Hsrc).
Qed.

Lemma new_chunks_carry_the_catalog_record_witness :
  let rawDocs := [ Examples.page Examples.drawingPath "SLAB ON GRADE" ] in
  let record :=
    {| pageContent := "A construction document.";
       metadata :=
         {[ "documentType" := VStr "Drawing";
            "discipline" := VStr "Structural";
            "buildingArea" := VStr "46";
            "sheetNumber" := VStr "1001";
            "drawingNumber" := VStr "S-46-1001";
            "project" := VStr "PDFdrawings";
            "source" := VStr Examples.drawingPath;
            "hash" := VStr "sha256:%PDF-1.7 drawing" ]} |} in
  let p := {| skipSources := [];
              catalogRecords := [record];
              console :=
                [ LogOverview Examples.drawingPath "A construction document." ] |} in
  record ∈ catalogRecords p
  /\ {| pageContent := "SLAB ON GRADE";
        metadata := <["loc" := VLoc 1 1 1]> (metadata record) |}
     ∈ chunkDocs (Examples.env rawDocs) rawDocs p.
Proof.
  intros rawDocs record p.
  apply (new_chunks_carry_the_catalog_record (Examples.env rawDocs) rawDocs
           None true p (Examples.page Examples.drawingPath "SLAB ON GRADE")
           Examples.drawingPath rawDocs "A construction document." record
           ("SLAB ON GRADE", VLoc 1 1 1)).
  - vm_compute. reflexivity.
  - intros filePath content md.
    apply (extractMetadata_lacks (fun _ => ∅) (fun _ => Ok (Some ∅)) "source").
    + intros Hin. repeat (apply elem_of_cons in Hin as [Hin|Hin]; [discriminate|]).
      by apply elem_of_nil in Hin.
    + intros c. apply lookup_empty.
    + intros f ai [= <-]. apply lookup_empty.
  - by left.
  - reflexivity.
  - vm_compute. left.
  - vm_compute. reflexivity.
  - vm_compute. left.
Defined.

(** X23. The text of a document has no say in its project and its
    drawing number: whenever the path yields a non-empty project, the
    merged project is the same for any content and any content
    extractor, and so is the merged drawing number whenever the file
    name without its extension is not empty. *)
Theorem content_cannot_set_project_or_number
    (fromContent fromContent' : string -> DocumentMetadata)
    (extractPdfInformation : string -> Exc (option DocumentMetadata))
    (filePath : string) (content content' : option string)
    (md md' : DocumentMetadata) :
  MetadataExtractor.extractMetadata fromContent extractPdfInformation
                                    filePath content = Ok md ->
  MetadataExtractor.extractMetadata fromContent' extractPdfInformation
                                    filePath content' = Ok md' ->
  (extractMetadataFromPath filePath !! "project" <> Some (VStr "") ->
   md !! "project" = md' !! "project")
  /\ (stem filePath <> "" -> md !! "drawingNumber" = md' !! "drawingNumber").
Proof.
  intros Hmd Hmd'.
  assert (forall key v,
            key <> "__proto__" ->
            extractMetadataFromPath filePath !! key = Some v -> truthy v = true ->
            md !! key = md' !! key) as Hshadow.
  { intros key v Hkey Hpath Hv.
    unfold MetadataExtractor.extractMetadata in Hmd, Hmd'.
    destruct (if endsWith ".pdf" (toLowerCase filePath) then _ else _)
      as [ai|]; [|discriminate].
    injection Hmd as <-. injection Hmd' as <-.
    rewrite !mergeMetadata_lookup, !lastTruthy_cons by done.
    destruct (lastTruthy key []); [done|].
    destruct (truthyField key ai); [done|].
    unfold truthyField at 1 3. by rewrite Hpath, Hv. }
  destruct (path_metadata_shape_facts filePath) as (Hnumber & [project Hproject]).
  split.
  - intros Hne. apply (Hshadow "project" (VStr project)); [done | done |].
    unfold truthy. destruct (String.eqb_spec project ""); [|done].
    subst. by destruct Hne.
  - intros Hne. apply (Hshadow "drawingNumber" (VStr (stem filePath)));
      [done | exact Hnumber |].
    unfold truthy. apply String.eqb_neq in Hne. by rewrite Hne.
Qed.

Lemma content_cannot_set_project_or_number_witness :
  mergeMetadata
    [ {[ "project" := VStr "Pump House" ]};
      extractMetadataFromPath "/srv/Projects/Lift Station/Drawings/S-46-1001.pdf";
      ∅ ] !! "project"
  = mergeMetadata
      [ ∅;
        extractMetadataFromPath "/srv/Projects/Lift Station/Drawings/S-46-1001.pdf";
        ∅ ] !! "project".
Proof.
  destruct (content_cannot_set_project_or_number
              (fun _ => {[ "project" := VStr "Pump House" ]}) (fun _ => ∅)
              (fun _ => Ok (Some ∅))
              "/srv/Projects/Lift Station/Drawings/S-46-1001.pdf"
              (Some "PROJECT: Pump House") None _ _ eq_refl eq_refl)
    as [Hproject _].
  apply Hproject. vm_compute. discriminate.
Defined.

(** ** Metadata from the content *)

Import RegExp RegExpSpec ContentExtractor.

Section MatcherFacts.

Implicit Types (r : Regex) (x y z : MatchState).

Lemma orElse_Some {A} (a b : option A) (v : A) :
  orElse a b = Some v -> a = Some v \/ (a = None /\ b = Some v).
Proof. destruct a; cbn; [by left | by right]. Qed.

(** A result of the matcher is a result of the continuation on a state
    that the pattern leads to. *)
Lemma repeatMatcher_sound
    (m : MatchState -> (MatchState -> option MatchState) -> option MatchState)
    (R : MatchState -> MatchState -> Prop) greedy
    (c : MatchState -> option MatchState) fuel x z :
  (forall x c z, m x c = Some z -> exists y, R x y /\ c y = Some z) ->
  repeatMatcher m greedy c fuel x = Some z ->
  exists y, rtc R x y /\ c y = Some z.
Proof.
  intros Hm. revert x. induction fuel as [|fuel IH]; intros x; [discriminate|].
  cbn [repeatMatcher].
  set (again := m x _).
  assert (again = Some z -> exists y, rtc R x y /\ c y = Some z) as Hagain.
  { subst again. intros (y & Hy & Hc)%Hm.
    destruct (_ <? _)%nat; [|discriminate].
    destruct (IH y Hc) as (y' & Hy' & Hc'). exists y'. split; [|done].
    by eapply rtc_l. }
  intros H. destruct greedy; apply orElse_Some in H as [H|[_ H]]; eauto;
    exists x; by split.
Qed.

(** The matcher looks at its continuation through its results only,
    and fuel above the length of the rest of the input is as good as
    any larger amount: the repetition never stops for lack of fuel. *)
Lemma repeatMatcher_ext
    (m : MatchState -> (MatchState -> option MatchState) -> option MatchState)
    greedy (c1 c2 : MatchState -> option MatchState) fuel x :
  (forall x c1 c2, (forall y, c1 y = c2 y) -> m x c1 = m x c2) ->
  (forall y, c1 y = c2 y) ->
  repeatMatcher m greedy c1 fuel x = repeatMatcher m greedy c2 fuel x.
Proof.
  intros Hm Hc. revert x. induction fuel as [|fuel IH]; intros x; [done|].
  cbn [repeatMatcher]. rewrite (Hc x).
  rewrite (Hm x _ (fun y =>
                     if (String.length (rest y) <? String.length (rest x))%nat
                     then repeatMatcher m greedy c2 fuel y else None)); [done|].
  intros y. destruct (_ <? _)%nat; [apply IH | done].
Qed.

Lemma run_ext r x (c1 c2 : MatchState -> option MatchState) :
  (forall y, c1 y = c2 y) -> run r x c1 = run r x c2.
Proof.
  revert x c1 c2.
  induction r as [|test|r1 IH1 r2 IH2|r1 IH1 r2 IH2|greedy r IH|n r IH| |];
    intros x c1 c2 Hc; cbn [run].
  - apply Hc.
  - destruct (rest x) as [|ch s]; [done|]. destruct (test ch); [apply Hc | done].
  - apply IH1. intros y. by apply IH2.
  - by rewrite (IH1 x c1 c2 Hc), (IH2 x c1 c2 Hc).
  - apply repeatMatcher_ext; [|done]. intros. by apply IH.
  - apply IH. intros y. apply Hc.
  - destruct (String.eqb (rest x) ""); [apply Hc | done].
  - destruct (atWordBoundary x); [apply Hc | done].
Qed.

Lemma repeatMatcher_fuel r greedy (c : MatchState -> option MatchState)
    fuel extra x :
  (String.length (rest x) < fuel)%nat ->
  repeatMatcher (run r) greedy c (fuel + extra) x
  = repeatMatcher (run r) greedy c fuel x.
Proof.
  revert x. induction fuel as [|fuel IH]; intros x Hlen; [lia|].
  cbn [repeatMatcher Nat.add].
  assert (run r x (fun y =>
                     if (String.length (rest y) <? String.length (rest x))%nat
                     then repeatMatcher (run r) greedy c (fuel + extra) y
                     else None)
          = run r x (fun y =>
                       if (String.length (rest y) <? String.length (rest x))%nat
                       then repeatMatcher (run r) greedy c fuel y
                       else None)) as ->; [|done].
  apply run_ext. intros y.
  destruct (Nat.ltb_spec (String.length (rest y)) (String.length (rest x)));
    [|done].
  apply IH. lia.
Qed.

Lemma run_sound r x c z :
  run r x c = Some z -> exists y, matches r x y /\ c y = Some z.
Proof.
  revert x c z.
  induction r as [|test|r1 IH1 r2 IH2|r1 IH1 r2 IH2|greedy r IH|n r IH| |];
    intros x c z; cbn [run matches].
  - intros H. by exists x.
  - destruct (rest x) as [|ch s] eqn:Hrest; [discriminate|].
    destruct (test ch) eqn:Htest; [|discriminate].
    intros H. eexists. split; [|exact H]. exists ch. by cbn.
  - intros (m & Hm & H)%IH1. apply IH2 in H as (y & Hy & H). eauto.
  - intros [H|[_ H]]%orElse_Some.
    + apply IH1 in H as (y & Hy & H). eauto.
    + apply IH2 in H as (y & Hy & H). eauto.
  - apply repeatMatcher_sound. apply IH.
  - intros (m & Hm & H)%IH. eauto.
  - destruct (String.eqb_spec (rest x) ""); [|discriminate]. intros H. by exists x.
  - destruct (atWordBoundary x) eqn:Hb; [|discriminate]. intros H. by exists x.
Qed.

Lemma search_sound r before s y :
  search r before s = Some y ->
  exists pre before' s',
    s = pre +:+ s'
    /\ matches r {| prev := before'; rest := s'; captures := ∅ |} y.
Proof.
  revert before. induction s as [|ch s IH]; intros before; cbn [search].
  - destruct (run r _ Some) as [y'|] eqn:Hrun; [|discriminate].
    intros [= ->]. apply run_sound in Hrun as (y' & Hy & [= ->]).
    by exists "", before, "".
  - destruct (run r _ Some) as [y'|] eqn:Hrun.
    + intros [= ->]. apply run_sound in Hrun as (y' & Hy & [= ->]).
      by exists "", before, (String ch s).
    + intros (pre & before' & s' & -> & Hm)%IH.
      by exists (String ch pre), before', s'.
Qed.

Lemma exec_sound r s y :
  exec r s = Some y ->
  exists pre before s',
    s = pre +:+ s'
    /\ matches r {| prev := before; rest := s'; captures := ∅ |} y.
Proof. apply search_sound. Qed.

Lemma matches_frame r x y n :
  matches r x y -> n ∉ groupsOf r -> captures y !! n = captures x !! n.
Proof.
  revert x y.
  induction r as [|test|r1 IH1 r2 IH2|r1 IH1 r2 IH2|greedy r IH|k r IH| |];
    intros x y; cbn [matches groupsOf].
  - by intros ->.
  - by intros (ch & _ & _ & _ & ->).
  - intros (m & H1 & H2) Hn. rewrite not_elem_of_app in Hn.
    destruct Hn as [Hn1 Hn2]. rewrite (IH2 _ _ H2 Hn2). by apply IH1.
  - intros [H|H] Hn; rewrite not_elem_of_app in Hn; destruct Hn as [Hn1 Hn2];
      [by apply IH1 | by apply IH2].
  - intros H Hn. induction H as [|x m y Hxm _ IHrtc]; [done|].
    rewrite IHrtc. by apply IH.
  - intros (m & H & ->) Hn. rewrite not_elem_of_cons in Hn.
    destruct Hn as [Hne Hn]. cbn [captures].
    rewrite lookup_insert_ne by done. by apply IH.
  - by intros [-> _].
  - by intros [-> _].
Qed.

Lemma append_assoc (s1 s2 s3 : string) : (s1 +:+ s2) +:+ s3 = s1 +:+ s2 +:+ s3.
Proof.
  induction s1 as [|c s1 IH]; [done|].
  change (String c (s1 +:+ s2) +:+ s3 = String c (s1 +:+ s2 +:+ s3)).
  change (String c ((s1 +:+ s2) +:+ s3) = String c (s1 +:+ s2 +:+ s3)).
  by rewrite IH.
Qed.

Lemma length_append (s1 s2 : string) :
  String.length (s1 +:+ s2) = (String.length s1 + String.length s2)%nat.
Proof.
  induction s1 as [|c s1 IH]; [done|].
  change (String c s1 +:+ s2) with (String c (s1 +:+ s2)). cbn. by rewrite IH.
Qed.

Lemma takeChars_append (s1 s2 : string) :
  takeChars (String.length s1) (s1 +:+ s2) = s1.
Proof.
  induction s1 as [|c s1 IH]; [done|].
  change (String c s1 +:+ s2) with (String c (s1 +:+ s2)). cbn. by rewrite IH.
Qed.

Lemma consumed_app x y t : rest x = t +:+ rest y -> consumed x y = t.
Proof.
  intros H. unfold consumed. rewrite H, length_append.
  replace (String.length t + String.length (rest y) - String.length (rest y))%nat
    with (String.length t) by lia.
  apply takeChars_append.
Qed.

Lemma matches_suffix r x y : matches r x y -> exists t, rest x = t +:+ rest y.
Proof.
  revert x y.
  induction r as [|test|r1 IH1 r2 IH2|r1 IH1 r2 IH2|greedy r IH|k r IH| |];
    intros x y; cbn [matches].
  - intros ->. by exists "".
  - intros (ch & H & _). by exists (String ch "").
  - intros (m & (t1 & H1)%IH1 & (t2 & H2)%IH2). exists (t1 +:+ t2).
    by rewrite H1, H2, append_assoc.
  - intros [H|H]; [by apply IH1 | by apply IH2].
  - intros H. induction H as [|x m y (t1 & H1)%IH _ [t2 H2]]; [by exists ""|].
    exists (t1 +:+ t2). by rewrite H1, H2, append_assoc.
  - intros (m & (t & H)%IH & ->). by exists t.
  - intros [-> _]. by exists "".
  - intros [-> _]. by exists "".
Qed.

Lemma matches_lit s x y :
  matches (lit s) x y ->
  captures y = captures x
  /\ exists t, rest x = t +:+ rest y /\ toUpperCase t = s.
Proof.
  revert x. induction s as [|c s IH]; intros x; cbn [lit matches].
  - intros ->. split; [done|]. by exists "".
  - intros (m & (ch & Hrest & Hch & _ & Hcap) & (Hcap' & t & Ht & Hup)%IH).
    split; [congruence|]. exists (String ch t). split.
    + by rewrite Hrest, Ht.
    + unfold ci in Hch. apply Ascii.eqb_eq in Hch.
      unfold toUpperCase in *. cbn [mapString]. by rewrite Hch, Hup.
Qed.

Lemma matches_star_chr greedy test x y :
  matches (Star greedy (Chr test)) x y ->
  captures y = captures x
  /\ exists t, rest x = t +:+ rest y /\ allChars test t = true.
Proof.
  cbn [matches]. intros H.
  induction H as [x|x m y (ch & Hrest & Hch & _ & Hcap) _ (Hcap' & t & Ht & Hall)].
  - split; [done|]. by exists "".
  - split; [congruence|]. exists (String ch t). split.
    + by rewrite Hrest, Ht.
    + cbn [allChars]. by rewrite Hch, Hall.
Qed.

Lemma matches_plus_chr test x y :
  matches (plus (Chr test)) x y ->
  captures y = captures x
  /\ exists t, rest x = t +:+ rest y /\ allChars test t = true /\ t <> "".
Proof.
  unfold plus. intros (m & (ch & Hrest & Hch & _ & Hcap) & Hstar).
  apply matches_star_chr in Hstar as (Hcap' & t & Ht & Hall).
  split; [congruence|]. exists (String ch t). split; [by rewrite Hrest, Ht|].
  split; [|done]. cbn [allChars]. by rewrite Hch, Hall.
Qed.

(** A match of a pattern that starts with a word shows that the word
    occurs in the text. *)
Lemma prefixCI_upper (word t s : string) :
  toUpperCase t = word -> prefixCI word (t +:+ s) = true.
Proof.
  revert word. induction t as [|c t IH]; intros word <-.
  - change ("" +:+ s) with s. by destruct s.
  - change (String c t +:+ s) with (String c (t +:+ s)).
    unfold toUpperCase. cbn [mapString prefixCI].
    rewrite Ascii.eqb_refl. by apply IH.
Qed.

Lemma includesCI_app (word pre s : string) :
  prefixCI word s = true -> includesCI word (pre +:+ s) = true.
Proof.
  intros H. induction pre as [|c pre IH].
  - change ("" +:+ s) with s. destruct s; cbn [includesCI]; by rewrite H.
  - change (String c pre +:+ s) with (String c (pre +:+ s)).
    cbn [includesCI]. rewrite IH. apply orb_true_r.
Qed.

Lemma exec_lit_includes word r s y :
  exec (Seq (lit word) r) s = Some y -> includesCI word s = true.
Proof.
  intros (pre & before & s' & -> & m & Hlit & _)%exec_sound.
  apply matches_lit in Hlit as (_ & t & Ht & Hup). cbn [rest] in Ht.
  apply includesCI_app. rewrite Ht. by apply prefixCI_upper.
Qed.

End MatcherFacts.

Section TrimFacts.

Lemma trimEnd_idempotent s : trimEnd (trimEnd s) = trimEnd s.
Proof.
  induction s as [|c s IH]; [done|]. cbn [trimEnd].
  destruct (isWhiteSpace c && String.eqb (trimEnd s) "") eqn:E; [done|].
  cbn [trimEnd]. by rewrite IH, E.
Qed.

Lemma trimEnd_head c s :
  isWhiteSpace c = false -> trimEnd (String c s) = String c (trimEnd s).
Proof. intros H. cbn [trimEnd]. by rewrite H. Qed.

Lemma dropWhile_head (f : ascii -> bool) s :
  dropWhile f s = ""
  \/ exists c s', dropWhile f s = String c s' /\ f c = false.
Proof.
  induction s as [|c s IH]; [by left|]. cbn [dropWhile].
  destruct (f c) eqn:E; [done|]. right. by exists c, s.
Qed.

Lemma trim_idempotent s : trim (trim s) = trim s.
Proof.
  unfold trim. destruct (dropWhile_head isWhiteSpace s) as [->|(c & s' & -> & Hc)];
    [done|].
  rewrite trimEnd_head by done. cbn [dropWhile]. rewrite Hc.
  rewrite <- trimEnd_head by done. apply trimEnd_idempotent.
Qed.

Lemma trimEnd_no_space s :
  allChars (fun c => negb (isWhiteSpace c)) s = true -> trimEnd s = s.
Proof.
  induction s as [|c s IH]; [done|]. cbn [allChars].
  intros [Hc Hs]%andb_true_iff. apply negb_true_iff in Hc.
  rewrite trimEnd_head by done. by rewrite IH.
Qed.

Lemma trim_no_space s :
  allChars (fun c => negb (isWhiteSpace c)) s = true -> trim s = s.
Proof.
  intros H. unfold trim.
  assert (dropWhile isWhiteSpace s = s) as ->.
  { destruct s as [|c s]; [done|]. cbn [allChars] in H.
    apply andb_true_iff in H as [Hc _]. apply negb_true_iff in Hc.
    cbn [dropWhile]. by rewrite Hc. }
  by apply trimEnd_no_space.
Qed.

Lemma isWhiteSpace_upperChar c : isWhiteSpace c = true -> upperChar c = c.
Proof. destruct c as [[] [] [] [] [] [] [] []]; try discriminate; reflexivity. Qed.

Lemma isAlnum_not_space c : isAlnum c = true -> isWhiteSpace c = false.
Proof. destruct c as [[] [] [] [] [] [] [] []]; try discriminate; reflexivity. Qed.

Lemma allChars_impl (f g : ascii -> bool) s :
  (forall c, f c = true -> g c = true) ->
  allChars f s = true -> allChars g s = true.
Proof.
  intros Hfg. induction s as [|c s IH]; [done|]. cbn [allChars].
  intros [Hc Hs]%andb_true_iff. by rewrite (Hfg c Hc), IH.
Qed.

(** A text that differs from a word without white space in the case
    of its letters only has no white space either. *)
Lemma upper_no_space (t word : string) :
  toUpperCase t = word ->
  allChars (fun c => negb (isWhiteSpace c)) word = true ->
  allChars (fun c => negb (isWhiteSpace c)) t = true.
Proof.
  revert word. induction t as [|c t IH]; intros word <-; [done|].
  unfold toUpperCase. cbn [mapString allChars].
  intros [Hc Ht]%andb_true_iff. apply andb_true_iff. split; [|by eapply IH].
  destruct (isWhiteSpace c) eqn:E; [|done].
  by rewrite (isWhiteSpace_upperChar c E), E in Hc.
Qed.

End TrimFacts.

Section ContentFacts.

Implicit Types (metadata : DocumentMetadata) (m : option MatchState).

Lemma setField_cases key m metadata :
  setField key m metadata = metadata
  \/ exists g, group 1 m = Some g /\ g <> ""
               /\ setField key m metadata = <[key := VStr (trim g)]> metadata.
Proof.
  unfold setField. destruct (group 1 m) as [g|]; [|by left].
  destruct (String.eqb_spec g ""); [by left|]. right. by exists g.
Qed.

Lemma setField_lookup_ne key key' m metadata :
  key <> key' -> setField key m metadata !! key' = metadata !! key'.
Proof.
  intros Hne. destruct (setField_cases key m metadata) as [->|(g & _ & _ & ->)];
    [done|]. by rewrite lookup_insert_ne.
Qed.

Lemma setField_lookup key m metadata :
  setField key m metadata !! key
  = match group 1 m with
    | Some g => if String.eqb g "" then metadata !! key else Some (VStr (trim g))
    | None => metadata !! key
    end.
Proof.
  unfold setField. destruct (group 1 m) as [g|]; [|done].
  destruct (String.eqb g ""); [done|]. cbn [negb]. by rewrite lookup_insert_eq.
Qed.

(** The fields are set one after the other, each from its own match. *)
Lemma extract_fields content :
  extractMetadataFromContent content
  = foldl (fun metadata '(key, m) => setField key m metadata) ∅
          (fieldMatches content).
Proof.
  unfold extractMetadataFromContent, fieldMatches. cbn [foldl].
  by rewrite !setField_lookup_ne, lookup_empty.
Qed.

Lemma fold_setField_lookup (fields : list (string * option MatchState))
    metadata key :
  NoDup fields.*1 ->
  foldl (fun metadata '(key, m) => setField key m metadata) metadata fields !! key
  = match list_to_map (M := gmap string (option MatchState)) fields !! key with
    | Some m => setField key m metadata !! key
    | None => metadata !! key
    end.
Proof.
  revert metadata. induction fields as [|[k m] fields IH]; intros metadata Hnd;
    [done|].
  rewrite fmap_cons in Hnd. apply NoDup_cons in Hnd as [Hk Hnd]. cbn [fst] in Hk.
  cbn [foldl]. rewrite IH by done. rewrite list_to_map_cons.
  destruct (decide (k = key)) as [->|Hne].
  - rewrite lookup_insert_eq.
    by rewrite (not_elem_of_list_to_map_1 fields key Hk).
  - rewrite lookup_insert_ne by done.
    destruct (list_to_map fields !! key) as [m'|] eqn:Hm'.
    + rewrite !setField_lookup. by rewrite !setField_lookup_ne.
    + by rewrite setField_lookup_ne.
Qed.

(** A field of the result is the trimmed first group of its match. *)
Lemma content_field content key :
  extractMetadataFromContent content !! key
  = match list_to_map (M := gmap string (option MatchState))
            (fieldMatches content) !! key with
    | Some m =>
        match group 1 m with
        | Some g => if String.eqb g "" then None else Some (VStr (trim g))
        | None => None
        end
    | None => None
    end.
Proof.
  rewrite extract_fields, fold_setField_lookup.
  - destruct (list_to_map _ !! key) as [m|]; [|done].
    by rewrite setField_lookup, lookup_empty.
  - unfold fieldMatches. cbn. repeat (apply NoDup_cons; split;
      [intros Hin; repeat (apply elem_of_cons in Hin as [Hin|Hin];
                           [discriminate|]); by apply elem_of_nil in Hin|]).
    constructor.
Qed.

Lemma content_field_Some content key v :
  extractMetadataFromContent content !! key = Some v ->
  exists m g,
    (key, m) ∈ fieldMatches content
    /\ group 1 m = Some g /\ g <> "" /\ v = VStr (trim g).
Proof.
  rewrite content_field.
  destruct (list_to_map _ !! key) as [m|] eqn:Hm; [|discriminate].
  apply elem_of_list_to_map_2 in Hm.
  destruct (group 1 m) as [g|] eqn:Hg; [|discriminate].
  destruct (String.eqb_spec g ""); [discriminate|]. intros [= <-].
  by exists m, g.
Qed.

End ContentFacts.

(** X24. Whatever the content, the content extractor sets no field
    besides project, phase, revision, discipline, drawingType and
    drawingNumber, and every value it sets is a string without white
    space at either end; from an empty content it reads nothing. *)
Theorem content_metadata_shape (content : string) :
  (forall key v,
     extractMetadataFromContent content !! key = Some v ->
     key ∈ contentFields /\ exists s, v = VStr s /\ trim s = s)
  /\ extractMetadataFromContent "" = ∅.
Proof.
  split; [|reflexivity].
  intros key v (m & g & Hin & _ & _ & ->)%content_field_Some. split.
  - unfold fieldMatches in Hin. unfold contentFields.
    repeat (apply elem_of_cons in Hin as [[= -> _]|Hin];
            [repeat first [by left | right]|]).
    by apply elem_of_nil in Hin.
  - exists (trim g). split; [done | apply trim_idempotent].
Qed.

Lemma content_metadata_shape_witness :
  "phase" ∈ contentFields
  /\ exists s, VStr "construction" = VStr s /\ trim s = s.
Proof.
  destruct (content_metadata_shape "issued  for   construction  ") as [Hshape _].
  apply Hshape. vm_compute. reflexivity.
Defined.

Section PatternFacts.

Lemma group_Some n (m : option MatchState) g :
  group n m = Some g -> exists y, m = Some y /\ captures y !! n = Some g.
Proof. destruct m as [y|]; [|discriminate]. intros H. by exists y. Qed.

Lemma prefixCI_shorter (w1 w2 s : string) :
  prefixCI (w1 +:+ w2) s = true -> prefixCI w1 s = true.
Proof.
  revert s. induction w1 as [|p w1 IH]; intros s; [by destruct s|].
  change (String p w1 +:+ w2) with (String p (w1 +:+ w2)).
  destruct s as [|c s]; [done|]. cbn [prefixCI].
  intros [-> H]%andb_true_iff. by rewrite (IH s H).
Qed.

Lemma includesCI_shorter (w1 w2 s : string) :
  includesCI (w1 +:+ w2) s = true -> includesCI w1 s = true.
Proof.
  induction s as [|c s IH]; cbn [includesCI].
  - rewrite !orb_false_r. apply prefixCI_shorter.
  - intros [H|H]%orb_true_iff.
    + by rewrite (prefixCI_shorter _ _ _ H).
    + rewrite (IH H). apply orb_true_r.
Qed.

Lemma toUpperCase_app (s1 s2 : string) :
  toUpperCase (s1 +:+ s2) = toUpperCase s1 +:+ toUpperCase s2.
Proof.
  unfold toUpperCase. induction s1 as [|c s1 IH]; [done|].
  change (String c s1 +:+ s2) with (String c (s1 +:+ s2)). cbn [mapString].
  by rewrite IH.
Qed.

(** The first group of the first revision pattern is the optional
    ending of the word, not the revision. *)
Lemma revision_group content y :
  exec revisionPattern content = Some y ->
  captures y !! 1%nat = None
  \/ exists t, captures y !! 1%nat = Some t /\ toUpperCase t = "ISION".
Proof.
  intros (pre & before & s' & _ & Hm)%exec_sound.
  unfold revisionPattern in Hm.
  destruct Hm as (m1 & Hrev & m2 & Hopt & Htail).
  apply (matches_frame _ _ _ 1%nat) in Htail;
    [|cbn; intros Hin; repeat (apply elem_of_cons in Hin as [Hin|Hin];
                                [discriminate|]); by apply elem_of_nil in Hin].
  rewrite Htail. apply matches_lit in Hrev as [Hcap _]. cbn [captures] in Hcap.
  destruct Hopt as [(m & Hision & ->)| ->].
  - right. apply matches_lit in Hision as (_ & t & Ht & Hup).
    exists t. cbn [captures]. by rewrite lookup_insert_eq, (consumed_app _ _ t).
  - left. by rewrite Hcap, lookup_empty.
Qed.

Lemma revDot_group content y :
  exec revDotPattern content = Some y ->
  exists t, captures y !! 1%nat = Some t /\ t <> ""
            /\ allChars isAlnum t = true.
Proof.
  intros (pre & before & s' & _ & Hm)%exec_sound.
  unfold revDotPattern in Hm.
  destruct Hm as (m1 & _ & m2 & _ & m & Hplus & ->).
  apply matches_plus_chr in Hplus as (_ & t & Ht & Hall & Hne).
  exists t. cbn [captures]. by rewrite lookup_insert_eq, (consumed_app _ _ t).
Qed.

(** The group of a pattern that is a word of a list between two word
    boundaries. *)
Lemma word_group (alternatives : Regex) (words : list string) tail content y :
  (forall x m, matches alternatives x m ->
     exists word, word ∈ words /\ matches (lit word) x m) ->
  1%nat ∉ groupsOf tail ->
  exec (Seq WordBoundary (Seq (Group 1 alternatives) tail)) content = Some y ->
  exists t,
    captures y !! 1%nat = Some t
    /\ toUpperCase t ∈ words
    /\ includesCI (toUpperCase t) content = true.
Proof.
  intros Hwords Htail (pre & before & s' & -> & Hm)%exec_sound.
  destruct Hm as (m1 & [-> _] & m2 & (m & Halt & ->) & Hrest).
  apply (matches_frame _ _ _ 1%nat) in Hrest; [|done].
  destruct (Hwords _ _ Halt) as (word & Hin & Hlit).
  apply matches_lit in Hlit as (_ & t & Ht & Hup). cbn [rest] in Ht.
  exists t. rewrite Hrest. cbn [captures].
  rewrite lookup_insert_eq, (consumed_app _ _ t) by done.
  split; [done|]. rewrite Hup. split; [done|].
  apply includesCI_app. rewrite Ht. by apply prefixCI_upper.
Qed.

Lemma drawingType_group content y :
  exec drawingTypePattern content = Some y ->
  exists t,
    captures y !! 1%nat = Some t
    /\ toUpperCase t ∈ drawingTypeWords
    /\ includesCI (toUpperCase t) content = true.
Proof.
  apply word_group; [|by intros ?%elem_of_nil].
  intros x m H. cbn [matches] in H. unfold drawingTypeWords.
  destruct H as [H|[H|[H|[H|[H|H]]]]]; eexists; (split; [|exact H]);
    repeat first [by left | right].
Qed.

Lemma disciplineWord_group content y :
  exec disciplineWordPattern content = Some y ->
  exists t,
    captures y !! 1%nat = Some t
    /\ toUpperCase t ∈ disciplineWords
    /\ includesCI (toUpperCase t) content = true.
Proof.
  apply word_group; [|by intros ?%elem_of_nil].
  intros x m H. cbn [matches] in H. unfold disciplineWords.
  destruct H as [H|[H|[H|[H|[H|H]]]]]; eexists; (split; [|exact H]);
    repeat first [by left | right].
Qed.

Lemma word_no_space (words : list string) t :
  Forall (fun word => allChars (fun c => negb (isWhiteSpace c)) word = true) words ->
  toUpperCase t ∈ words -> trim t = t.
Proof.
  intros Hall Hin. rewrite Forall_forall in Hall.
  apply trim_no_space. eapply upper_no_space; [reflexivity|]. by apply Hall.
Qed.

Lemma upper_dot t : toUpperCase t = "." -> t = ".".
Proof.
  destruct t as [|c [|c' t]]; try discriminate. unfold toUpperCase. cbn [mapString].
  intros [= H]. f_equal.
  destruct c as [[] [] [] [] [] [] [] []]; try discriminate; reflexivity.
Qed.

(** The first group of the third project pattern is the optional
    ending of the abbreviation, not the title. *)
Lemma projectTitle_group content y g :
  exec projectTitlePattern content = Some y ->
  captures y !! 1%nat = Some g ->
  g = "." \/ includesCI "PROJECT" content = true.
Proof.
  intros (pre & before & s' & -> & Hm)%exec_sound.
  unfold projectTitlePattern in Hm.
  destruct Hm as (m1 & Hproj & m2 & Hopt & Htail).
  apply (matches_frame _ _ _ 1%nat) in Htail;
    [|cbn; intros Hin; repeat (apply elem_of_cons in Hin as [Hin|Hin];
                                [discriminate|]); by apply elem_of_nil in Hin].
  rewrite Htail. apply matches_lit in Hproj as (Hcap & t1 & Ht1 & Hup1).
  cbn [captures rest] in Hcap, Ht1.
  destruct Hopt as [(m & Halt & ->)| ->].
  - cbn [captures]. rewrite lookup_insert_eq. intros [= <-].
    destruct Halt as [Hdot|Hect].
    + left. apply matches_lit in Hdot as (_ & t & Ht & Hup).
      rewrite (consumed_app _ _ t) by done. by apply upper_dot.
    + right. apply matches_lit in Hect as (_ & t & Ht & Hup).
      apply includesCI_app. rewrite Ht1, Ht, <- append_assoc.
      apply prefixCI_upper. by rewrite toUpperCase_app, Hup1, Hup.
  - by rewrite Hcap, lookup_empty.
Qed.

End PatternFacts.

(** X25. A field is read from the content only where its keyword
    stands: no project without PROJ, no phase without PHASE, ISSUED or
    STATUS, no revision without REV, no discipline without DISCIPLINE
    or the name of one of the six disciplines, no drawing type without
    one of the six drawing words, and no drawing number without DWG or
    DRAWING, letter case ignored. *)
Theorem content_fields_need_keywords (content : string) :
  (is_Some (extractMetadataFromContent content !! "project") ->
   includesCI "PROJ" content = true)
  /\ (is_Some (extractMetadataFromContent content !! "phase") ->
      includesCI "PHASE" content = true
      \/ includesCI "ISSUED" content = true
      \/ includesCI "STATUS" content = true)
  /\ (is_Some (extractMetadataFromContent content !! "revision") ->
      includesCI "REV" content = true)
  /\ (is_Some (extractMetadataFromContent content !! "discipline") ->
      includesCI "DISCIPLINE" content = true
      \/ exists word, word ∈ disciplineWords /\ includesCI word content = true)
  /\ (is_Some (extractMetadataFromContent content !! "drawingType") ->
      exists word, word ∈ drawingTypeWords /\ includesCI word content = true)
  /\ (is_Some (extractMetadataFromContent content !! "drawingNumber") ->
      includesCI "DWG" content = true \/ includesCI "DRAWING" content = true).
Proof.
  assert (forall key,
            is_Some (extractMetadataFromContent content !! key) ->
            exists m y, (key, m) ∈ fieldMatches content /\ m = Some y) as Hfield.
  { intros key [v (m & g & Hin & (y & -> & _)%group_Some & _)%content_field_Some].
    by exists (Some y), y. }
  repeat split.
  - intros (m & y & Hin & ->)%Hfield. unfold fieldMatches in Hin.
    apply elem_of_cons in Hin as [[= Hm]|Hin].
    + symmetry in Hm.
      apply orElse_Some in Hm as [Hm|[_ [Hm|[_ Hm]]%orElse_Some]];
        apply exec_lit_includes in Hm; [| |done];
        by apply (includesCI_shorter "PROJ" "ECT").
    + repeat (apply elem_of_cons in Hin as [[=]|Hin]). by apply elem_of_nil in Hin.
  - intros (m & y & Hin & ->)%Hfield. unfold fieldMatches in Hin.
    apply elem_of_cons in Hin as [[=]|Hin].
    apply elem_of_cons in Hin as [[= Hm]|Hin].
    + symmetry in Hm.
      apply orElse_Some in Hm as [Hm|[_ [Hm|[_ Hm]]%orElse_Some]];
        apply exec_lit_includes in Hm; auto.
    + repeat (apply elem_of_cons in Hin as [[=]|Hin]). by apply elem_of_nil in Hin.
  - intros (m & y & Hin & ->)%Hfield. unfold fieldMatches in Hin.
    do 2 (apply elem_of_cons in Hin as [[=]|Hin]).
    apply elem_of_cons in Hin as [[= Hm]|Hin].
    + symmetry in Hm. apply orElse_Some in Hm as [Hm|[_ Hm]];
        apply exec_lit_includes in Hm; [done|].
      by apply (includesCI_shorter "REV" ".").
    + repeat (apply elem_of_cons in Hin as [[=]|Hin]). by apply elem_of_nil in Hin.
  - intros (m & y & Hin & ->)%Hfield. unfold fieldMatches in Hin.
    do 3 (apply elem_of_cons in Hin as [[=]|Hin]).
    apply elem_of_cons in Hin as [[= Hm]|Hin].
    + symmetry in Hm. apply orElse_Some in Hm as [Hm|[_ Hm]].
      * left. by apply exec_lit_includes in Hm.
      * right. apply disciplineWord_group in Hm as (t & _ & ? & ?). eauto.
    + repeat (apply elem_of_cons in Hin as [[=]|Hin]). by apply elem_of_nil in Hin.
  - intros (m & y & Hin & ->)%Hfield. unfold fieldMatches in Hin.
    do 4 (apply elem_of_cons in Hin as [[=]|Hin]).
    apply elem_of_cons in Hin as [[= Hm]|Hin].
    + symmetry in Hm. apply drawingType_group in Hm as (t & _ & ? & ?). eauto.
    + repeat (apply elem_of_cons in Hin as [[=]|Hin]). by apply elem_of_nil in Hin.
  - intros (m & y & Hin & ->)%Hfield. unfold fieldMatches in Hin.
    do 5 (apply elem_of_cons in Hin as [[=]|Hin]).
    apply elem_of_cons in Hin as [[= Hm]|Hin].
    + symmetry in Hm. apply orElse_Some in Hm as [Hm|[_ Hm]];
        apply exec_lit_includes in Hm; auto.
    + by apply elem_of_nil in Hin.
Qed.

Lemma content_fields_need_keywords_witness :
  includesCI "PHASE" "Issued for Construction" = true
  \/ includesCI "ISSUED" "Issued for Construction" = true
  \/ includesCI "STATUS" "Issued for Construction" = true.
Proof.
  destruct (content_fields_need_keywords "Issued for Construction")
    as (_ & Hphase & _).
  apply Hphase. vm_compute. eauto.
Defined.

(** X26. The revision that the content extractor stores is not the
    revision.  Whenever the first revision pattern finds a match, the
    revision is unset or is the ending ISION of the word REVISION, in
    the letter case of the text; the letters and digits after the
    word, which the pattern captures as its second group, are not
    stored.  Only when that pattern has no match at all can the
    revision be the letters and digits after [REV.]. *)
Theorem content_revision (content : string) :
  (exec revisionPattern content <> None ->
   extractMetadataFromContent content !! "revision" = None
   \/ exists s,
        extractMetadataFromContent content !! "revision" = Some (VStr s)
        /\ toUpperCase s = "ISION")
  /\ (forall v,
        extractMetadataFromContent content !! "revision" = Some v ->
        exists s,
          v = VStr s
          /\ (toUpperCase s = "ISION"
              \/ (exec revisionPattern content = None
                  /\ s <> "" /\ allChars isAlnum s = true))).
Proof.
  assert (forall v,
            extractMetadataFromContent content !! "revision" = Some v ->
            exists s,
              v = VStr s
              /\ (toUpperCase s = "ISION"
                  \/ (exec revisionPattern content = None
                      /\ s <> "" /\ allChars isAlnum s = true))) as Hstored.
  { intros v (m & g & Hin & (y & -> & Hg)%group_Some & Hne & ->)%content_field_Some.
    unfold fieldMatches in Hin.
    do 2 (apply elem_of_cons in Hin as [[=]|Hin]).
    apply elem_of_cons in Hin as [[= Hm]|Hin];
      [|repeat (apply elem_of_cons in Hin as [[=]|Hin]); by apply elem_of_nil in Hin].
    symmetry in Hm. apply orElse_Some in Hm as [Hm|[Hnone Hm]].
    - apply revision_group in Hm as [Hm|(t & Hm & Hup)]; [congruence|].
      rewrite Hg in Hm. injection Hm as ->.
      exists t. rewrite (word_no_space ["ISION"] t); [auto| |rewrite Hup; by left].
      by repeat constructor.
    - apply revDot_group in Hm as (t & Hm & Ht & Hall).
      rewrite Hg in Hm. injection Hm as ->.
      exists t. rewrite trim_no_space; [auto|].
      eapply allChars_impl; [|exact Hall].
      intros c Hc. by rewrite (isAlnum_not_space c Hc). }
  split; [|exact Hstored].
  intros Hmatch.
  destruct (extractMetadataFromContent content !! "revision") as [v|] eqn:Hv;
    [|by left].
  right. destruct (Hstored v eq_refl) as (s & -> & [Hup|[Hnone _]]); [eauto|].
  by destruct Hmatch.
Qed.

Lemma content_revision_witness :
  (extractMetadataFromContent "DWG NO: S-46-1001  REV: B" !! "revision" = None
   \/ exists s,
        extractMetadataFromContent "DWG NO: S-46-1001  REV: B" !! "revision"
        = Some (VStr s)
        /\ toUpperCase s = "ISION")
  /\ exists s,
       VStr "ision" = VStr s
       /\ (toUpperCase s = "ISION"
           \/ (exec revisionPattern "Revision 3" = None
               /\ s <> "" /\ allChars isAlnum s = true)).
Proof.
  destruct (content_revision "DWG NO: S-46-1001  REV: B") as [Hfirst _].
  destruct (content_revision "Revision 3") as [_ Hstored].
  split.
  - apply Hfirst. vm_compute. discriminate.
  - apply Hstored. vm_compute. reflexivity.
Defined.

(** X27. The drawing type read from the content is one of the words
    PLAN, ELEVATION, SECTION, DETAIL, SCHEDULE and DIAGRAM as the text
    spells it, and the text holds that word; the discipline read from
    the content is either what follows the word DISCIPLINE or the name
    of one of the six disciplines as the text spells it. *)
Theorem content_words (content s : string) :
  (extractMetadataFromContent content !! "drawingType" = Some (VStr s) ->
   toUpperCase s ∈ drawingTypeWords
   /\ includesCI (toUpperCase s) content = true)
  /\ (extractMetadataFromContent content !! "discipline" = Some (VStr s) ->
      includesCI "DISCIPLINE" content = true
      \/ (toUpperCase s ∈ disciplineWords
          /\ includesCI (toUpperCase s) content = true)).
Proof.
  split.
  - intros (m & g & Hin & (y & -> & Hg)%group_Some & Hne & Hs)%content_field_Some.
    unfold fieldMatches in Hin.
    do 4 (apply elem_of_cons in Hin as [[=]|Hin]).
    apply elem_of_cons in Hin as [[= Hm]|Hin];
      [|repeat (apply elem_of_cons in Hin as [[=]|Hin]); by apply elem_of_nil in Hin].
    symmetry in Hm. apply drawingType_group in Hm as (t & Hm & Hword & Hinc).
    rewrite Hg in Hm. injection Hm as ->.
    rewrite (word_no_space drawingTypeWords t) in Hs; [|by repeat constructor|done].
    by injection Hs as ->.
  - intros (m & g & Hin & (y & -> & Hg)%group_Some & Hne & Hs)%content_field_Some.
    unfold fieldMatches in Hin.
    do 3 (apply elem_of_cons in Hin as [[=]|Hin]).
    apply elem_of_cons in Hin as [[= Hm]|Hin];
      [|repeat (apply elem_of_cons in Hin as [[=]|Hin]); by apply elem_of_nil in Hin].
    symmetry in Hm. apply orElse_Some in Hm as [Hm|[_ Hm]].
    + left. by apply exec_lit_includes in Hm.
    + right. apply disciplineWord_group in Hm as (t & Hm & Hword & Hinc).
      rewrite Hg in Hm. injection Hm as ->.
      rewrite (word_no_space disciplineWords t) in Hs; [|by repeat constructor|done].
      by injection Hs as ->.
Qed.

Lemma content_words_witness :
  toUpperCase "Plan" ∈ drawingTypeWords
  /\ includesCI (toUpperCase "Plan") "Foundation Plan - Structural Drawings" = true.
Proof.
  destruct (content_words "Foundation Plan - Structural Drawings" "Plan")
    as [Htype _].
  apply Htype. vm_compute. reflexivity.
Defined.

(** X28. Without the word PROJECT in the content, the only project
    that the content extractor can store is a single dot: the third
    project pattern, the one for PROJ. TITLE, stores the ending of the
    abbreviation, which it captures as its first group, and not the
    title. *)
Theorem content_project_without_the_word (content : string) :
  includesCI "PROJECT" content = false ->
  extractMetadataFromContent content !! "project" = None
  \/ extractMetadataFromContent content !! "project" = Some (VStr ".").
Proof.
  intros Hno.
  destruct (extractMetadataFromContent content !! "project") as [v|] eqn:Hv;
    [|by left].
  right. f_equal.
  apply content_field_Some
    in Hv as (m & g & Hin & (y & -> & Hg)%group_Some & Hne & ->).
  unfold fieldMatches in Hin.
  apply elem_of_cons in Hin as [[= Hm]|Hin];
    [|repeat (apply elem_of_cons in Hin as [[=]|Hin]); by apply elem_of_nil in Hin].
  symmetry in Hm.
  apply orElse_Some in Hm as [Hm|[_ [Hm|[_ Hm]]%orElse_Some]].
  - apply exec_lit_includes in Hm. congruence.
  - apply exec_lit_includes in Hm. congruence.
  - destruct (projectTitle_group content y g Hm Hg) as [->|Hinc]; [done|].
    congruence.
Qed.

Lemma content_project_without_the_word_witness :
  extractMetadataFromContent "Proj. Title: Pump House" !! "project" = None
  \/ extractMetadataFromContent "Proj. Title: Pump House" !! "project"
     = Some (VStr ".").
Proof.
  apply (content_project_without_the_word "Proj. Title: Pump House").
  reflexivity.
Defined.

Section LineFacts.

Implicit Types (x : MatchState) (k : MatchState -> option MatchState).

Lemma run_lit_fail word x k :
  prefixCI word (rest x) = false -> run (lit word) x k = None.
Proof.
  revert x. induction word as [|p word IH]; intros x; [by destruct (rest x)|].
  cbn [lit run]. destruct (rest x) as [|ch s]; [done|]. cbn [prefixCI].
  unfold ci. destruct (Ascii.eqb (upperChar ch) p); [|done].
  cbn [andb]. intros H. by apply IH.
Qed.

Lemma run_lit_ok word t s x k :
  rest x = t +:+ s -> toUpperCase t = word ->
  exists p, run (lit word) x k = k {| prev := p; rest := s; captures := captures x |}.
Proof.
  revert word x. induction t as [|ch t IH]; intros word x Hrest <-.
  - exists (prev x). cbn. destruct x as [p r c]. cbn in Hrest. by subst r.
  - change (String ch t +:+ s) with (String ch (t +:+ s)) in Hrest.
    unfold toUpperCase. cbn [mapString lit run]. rewrite Hrest.
    unfold ci at 1. rewrite Ascii.eqb_refl.
    destruct (IH (toUpperCase t)
                {| prev := Some ch; rest := t +:+ s; captures := captures x |}
                eq_refl eq_refl) as [p Hp].
    exists p. exact Hp.
Qed.

Lemma search_unfold r before s :
  search r before s
  = match run r {| prev := before; rest := s; captures := ∅ |} Some with
    | Some y => Some y
    | None => match s with
              | String ch s' => search r (Some ch) s'
              | EmptyString => None
              end
    end.
Proof. by destruct s. Qed.

(** The search passes over the positions at which the first word of the
    pattern does not start. *)
Lemma search_skip word r before pre s :
  noneBefore word pre s = true ->
  exists before',
    search (Seq (lit word) r) before (pre +:+ s)
    = search (Seq (lit word) r) before' s.
Proof.
  revert before. induction pre as [|c pre IH]; intros before; [by exists before|].
  cbn [noneBefore]. intros [Hc Hpre]%andb_true_iff. apply negb_true_iff in Hc.
  rewrite search_unfold. cbn [run]. rewrite run_lit_fail by done.
  change (String c pre +:+ s) with (String c (pre +:+ s)).
  apply IH. exact Hpre.
Qed.

(** The greedy [\s*] in front of a text that does not begin with white
    space takes all the white space. *)
Lemma run_spaces (Q : MatchState -> Prop) ws s x k :
  rest x = ws +:+ s ->
  allChars isWhiteSpace ws = true ->
  takeWhile isWhiteSpace s = "" ->
  (forall p, exists z,
     k {| prev := p; rest := s; captures := captures x |} = Some z /\ Q z) ->
  exists z, run (Star true space) x k = Some z /\ Q z.
Proof.
  revert x. induction ws as [|c ws IH]; intros x Hrest Hws Hs Hk.
  - change ("" +:+ s) with s in Hrest.
    destruct (Hk (prev x)) as (z & Hz & HQ). exists z. split; [|done].
    cbn [run repeatMatcher]. unfold space at 1. cbn [run]. rewrite Hrest.
    assert (k x = Some z) as Hx
      by (destruct x as [p r cs]; cbn in *; by subst r).
    destruct s as [|c s']; [by rewrite Hx|].
    cbn [takeWhile] in Hs. destruct (isWhiteSpace c); [discriminate|].
    by rewrite Hx.
  - change (String c ws +:+ s) with (String c (ws +:+ s)) in Hrest.
    cbn [allChars] in Hws. apply andb_true_iff in Hws as [Hc Hws].
    destruct (IH {| prev := Some c; rest := ws +:+ s; captures := captures x |}
                eq_refl Hws Hs Hk) as (z & Hz & HQ).
    exists z. split; [|done].
    cbn [run repeatMatcher]. unfold space at 1. cbn [run]. rewrite Hrest, Hc.
    cbn [rest String.length]. rewrite (proj2 (Nat.ltb_lt _ _) (Nat.lt_succ_diag_r _)).
    cbn [run] in Hz. cbn [rest] in Hz. by rewrite Hz.
Qed.

(** The lazy [.*?] stops at the first position at which the rest of the
    pattern matches. *)
Lemma run_lazy_dots (Q : MatchState -> Prop) v s x k :
  rest x = v +:+ s ->
  allChars (fun c => negb (isLineTerminator c)) v = true ->
  (forall p v1 ch v2,
     v = v1 +:+ String ch v2 ->
     k {| prev := p; rest := String ch v2 +:+ s; captures := captures x |} = None) ->
  (forall p, exists z,
     k {| prev := p; rest := s; captures := captures x |} = Some z /\ Q z) ->
  exists z, run (Star false dot) x k = Some z /\ Q z.
Proof.
  revert x. induction v as [|c v IH]; intros x Hrest Hv Hnone Hk.
  - change ("" +:+ s) with s in Hrest.
    destruct (Hk (prev x)) as (z & Hz & HQ). exists z. split; [|done].
    cbn [run repeatMatcher].
    assert (k x = Some z) as ->
      by (destruct x as [p r cs]; cbn in *; by subst r).
    done.
  - change (String c v +:+ s) with (String c (v +:+ s)) in Hrest.
    cbn [allChars] in Hv. apply andb_true_iff in Hv as [Hc Hv].
    destruct (IH {| prev := Some c; rest := v +:+ s; captures := captures x |}
                eq_refl Hv) as (z & Hz & HQ).
    + intros p v1 ch v2 ->. apply (Hnone p (String c v1) ch v2). done.
    + exact Hk.
    + exists z. split; [|done].
      cbn [run repeatMatcher].
      assert (k x = None) as ->.
      { specialize (Hnone (prev x) "" c v eq_refl).
        change (String c v +:+ s) with (String c (v +:+ s)) in Hnone.
        destruct x as [p r cs]; cbn in *; by subst r. }
      cbn [orElse]. unfold dot at 1. cbn [run]. rewrite Hrest, Hc.
      cbn [rest String.length]. rewrite (proj2 (Nat.ltb_lt _ _) (Nat.lt_succ_diag_r _)).
      cbn [run] in Hz. cbn [rest] in Hz. exact Hz.
Qed.

(** The rest of a line: a colon, white space and a value. *)
Lemma run_restOfLine ws value tail x :
  rest x = ":" +:+ ws +:+ value +:+ tail ->
  allChars isWhiteSpace ws = true ->
  value <> "" ->
  takeWhile isWhiteSpace value = "" ->
  allChars (fun c => negb (isLineTerminator c)) value = true ->
  tail = "" \/ (exists tail', tail = String (ascii_of_nat 10) tail') ->
  exists z,
    run (restOfLine 1) x Some = Some z /\ captures z !! 1%nat = Some value.
Proof.
  intros Hrest Hws Hne Hfirst Hvalue Htail.
  pose (k2 := fun y => run (Seq (Group 1 (Star false dot)) (Alt newline End)) y Some).
  pose (k1 := fun y => run (Star true space) y k2).
  assert (forall p, exists z,
            k1 {| prev := p; rest := ws +:+ value +:+ tail; captures := captures x |}
            = Some z
            /\ captures z !! 1%nat = Some value) as Hk1.
  { intros p. unfold k1.
    apply (run_spaces _ ws (value +:+ tail)); [done | done | |].
    - destruct value as [|c value]; [done|].
      change (String c value +:+ tail) with (String c (value +:+ tail)).
      cbn [takeWhile] in *. by destruct (isWhiteSpace c).
    - intros p'. cbn [captures].
      set (x2 := {| prev := p'; rest := value +:+ tail; captures := captures x |}).
      change (k2 x2)
        with (run (Star false dot) x2
                (fun y =>
                   run (Alt newline End)
                       {| prev := prev y; rest := rest y;
                          captures := <[1%nat := consumed x2 y]> (captures y) |}
                       Some)).
      apply (run_lazy_dots _ value tail); [done | done | |].
      + intros p2 v1 ch v2 Hsplit. cbn [captures x2 prev rest].
        assert (isLineTerminator ch = false) as Hch.
        { rewrite Hsplit in Hvalue. clear -Hvalue.
          induction v1 as [|c v1 IH].
          - change ("" +:+ String ch v2) with (String ch v2) in Hvalue.
            cbn [allChars] in Hvalue. apply andb_true_iff in Hvalue as [H _].
            by apply negb_true_iff in H.
          - change (String c v1 +:+ String ch v2)
              with (String c (v1 +:+ String ch v2)) in Hvalue.
            cbn [allChars] in Hvalue. apply andb_true_iff in Hvalue as [_ H].
            by apply IH. }
        change (String ch v2 +:+ tail) with (String ch (v2 +:+ tail)).
        cbn [run rest]. unfold newline. cbn [run rest].
        assert ((nat_of_ascii ch =? 10)%nat = false) as ->.
        { unfold isLineTerminator in Hch. by apply orb_false_iff in Hch as [? _]. }
        done.
      + intros p2. cbn [captures prev rest].
        assert (consumed x2 {| prev := p2; rest := tail; captures := captures x2 |}
                = value) as -> by by apply consumed_app.
        destruct Htail as [->|[tail' ->]].
        * eexists. split; [reflexivity|]. cbn. by rewrite lookup_insert_eq.
        * eexists. split; [reflexivity|]. cbn. by rewrite lookup_insert_eq. }
  change (run (restOfLine 1) x Some)
    with (orElse (run (lit ":") x k1) (k1 x)).
  destruct (run_lit_ok ":" ":" (ws +:+ value +:+ tail) x k1 Hrest eq_refl)
    as [p ->].
  destruct (Hk1 p) as (z & Hz & HQ). exists z. by rewrite Hz.
Qed.

(** A line that holds a keyword, a colon, white space and a value. *)
Lemma run_keyword_line word kw ws value tail before :
  toUpperCase kw = word ->
  allChars isWhiteSpace ws = true ->
  value <> "" ->
  takeWhile isWhiteSpace value = "" ->
  allChars (fun c => negb (isLineTerminator c)) value = true ->
  tail = "" \/ (exists tail', tail = String (ascii_of_nat 10) tail') ->
  exists z,
    run (Seq (lit word) (restOfLine 1))
        {| prev := before; rest := kw +:+ ":" +:+ ws +:+ value +:+ tail;
           captures := ∅ |} Some
    = Some z
    /\ captures z !! 1%nat = Some value.
Proof.
  intros Hkw Hws Hne Hfirst Hvalue Htail.
  set (x0 := {| prev := before; rest := kw +:+ ":" +:+ ws +:+ value +:+ tail;
                captures := ∅ |}).
  change (run (Seq (lit word) (restOfLine 1)) x0 Some)
    with (run (lit word) x0 (fun y => run (restOfLine 1) y Some)).
  destruct (run_lit_ok word kw (":" +:+ ws +:+ value +:+ tail) x0
              (fun y => run (restOfLine 1) y Some) eq_refl Hkw) as [p ->].
  by apply (run_restOfLine ws value tail).
Qed.

Lemma exec_keyword_line word pre kw ws value tail :
  toUpperCase kw = word ->
  noneBefore word pre (kw +:+ ":" +:+ ws +:+ value +:+ tail) = true ->
  allChars isWhiteSpace ws = true ->
  value <> "" ->
  takeWhile isWhiteSpace value = "" ->
  allChars (fun c => negb (isLineTerminator c)) value = true ->
  tail = "" \/ (exists tail', tail = String (ascii_of_nat 10) tail') ->
  exists z,
    exec (Seq (lit word) (restOfLine 1))
         (pre +:+ kw +:+ ":" +:+ ws +:+ value +:+ tail) = Some z
    /\ captures z !! 1%nat = Some value.
Proof.
  intros Hkw Hpre Hws Hne Hfirst Hvalue Htail. unfold exec.
  destruct (search_skip word (restOfLine 1) None pre _ Hpre) as [before ->].
  destruct (run_keyword_line word kw ws value tail before
              Hkw Hws Hne Hfirst Hvalue Htail) as (z & Hz & HQ).
  exists z. split; [|done]. rewrite search_unfold. by rewrite Hz.
Qed.

Lemma content_project content :
  extractMetadataFromContent content !! "project"
  = match group 1 (orElse (exec projectPattern content)
                          (orElse (exec projectNamePattern content)
                                  (exec projectTitlePattern content))) with
    | Some g => if String.eqb g "" then None else Some (VStr (trim g))
    | None => None
    end.
Proof.
  rewrite extract_fields. unfold fieldMatches. cbn [foldl].
  rewrite !setField_lookup_ne by done. by rewrite setField_lookup, lookup_empty.
Qed.

Lemma content_phase content :
  extractMetadataFromContent content !! "phase"
  = match group 1 (orElse (exec phasePattern content)
                          (orElse (exec issuedForPattern content)
                                  (exec statusPattern content))) with
    | Some g => if String.eqb g "" then None else Some (VStr (trim g))
    | None => None
    end.
Proof.
  rewrite extract_fields. unfold fieldMatches. cbn [foldl].
  rewrite !setField_lookup_ne by done. rewrite setField_lookup.
  by rewrite setField_lookup_ne, lookup_empty.
Qed.

End LineFacts.

(** X29. The first line of the content that reads PROJECT, a colon,
    white space and a value gives the project, and likewise for PHASE:
    when the keyword, in any letter case, starts nowhere before, the
    value does not begin with white space, holds no line break and
    ends at a line feed or at the end of the content, the field is the
    value without the white space at its end. *)
Theorem content_keyword_line (pre kw ws value tail : string) :
  let content := pre +:+ kw +:+ ":" +:+ ws +:+ value +:+ tail in
  allChars isWhiteSpace ws = true ->
  value <> "" ->
  takeWhile isWhiteSpace value = "" ->
  allChars (fun c => negb (isLineTerminator c)) value = true ->
  tail = "" \/ (exists tail', tail = String (ascii_of_nat 10) tail') ->
  (toUpperCase kw = "PROJECT" ->
   noneBefore "PROJECT" pre (kw +:+ ":" +:+ ws +:+ value +:+ tail) = true ->
   extractMetadataFromContent content !! "project" = Some (VStr (trim value)))
  /\ (toUpperCase kw = "PHASE" ->
      noneBefore "PHASE" pre (kw +:+ ":" +:+ ws +:+ value +:+ tail) = true ->
      extractMetadataFromContent content !! "phase" = Some (VStr (trim value))).
Proof.
  intros content Hws Hne Hfirst Hvalue Htail.
  apply String.eqb_neq in Hne as Hne'.
  split; intros Hkw Hpre.
  - destruct (exec_keyword_line "PROJECT" pre kw ws value tail
                Hkw Hpre Hws Hne Hfirst Hvalue Htail) as (z & Hz & Hg).
    rewrite content_project. unfold projectPattern. fold content in Hz.
    rewrite Hz. cbn [orElse group]. by rewrite Hg, Hne'.
  - destruct (exec_keyword_line "PHASE" pre kw ws value tail
                Hkw Hpre Hws Hne Hfirst Hvalue Htail) as (z & Hz & Hg).
    rewrite content_phase. unfold phasePattern. fold content in Hz.
    rewrite Hz. cbn [orElse group]. by rewrite Hg, Hne'.
Qed.

Lemma content_keyword_line_witness :
  extractMetadataFromContent
    ("CITY OF SPRINGFIELD" +:+ String (ascii_of_nat 10) "Project" +:+ ":"
       +:+ "  " +:+ "Lift Station No. 4  "
       +:+ String (ascii_of_nat 10) "PHASE: Bid") !! "project"
  = Some (VStr (trim "Lift Station No. 4  ")).
Proof.
  destruct (content_keyword_line
              ("CITY OF SPRINGFIELD" +:+ String (ascii_of_nat 10) "")
              "Project" "  " "Lift Station No. 4  "
              (String (ascii_of_nat 10) "PHASE: Bid")) as [Hproject _].
  - reflexivity.
  - discriminate.
  - reflexivity.
  - reflexivity.
  - right. by eexists.
  - apply Hproject; reflexivity.
Defined.
